(** * SEIRS disinformation-spread engine: a shallow embedding

    The development follows [layer2_sim/model]: [narrative.py],
    [archetypes.py], [agent.py] and [model.py], and the one caller in
    [layer2_sim/analysis/export.py] that the claims refer to.

    Modelling conventions.
    - Python [int] is [Z]; list positions, node ids and loop budgets are [nat].
    - Python [float] is idealised as an exact rational [Q]; the special values
      that numpy produces ([inf], [nan]) are kept apart in [npfloat].  Rounding
      error of binary floating point is outside the model; every concrete
      input used below is chosen so that the float computation is exact or
      far from a rounding boundary.
    - Python [str] is [string]; a [dict] whose iteration order matters is an
      association list in insertion order.
    - Exceptions are the [Err] case of [result].
    - Library objects are inputs: the networkx graph is an adjacency list, the
      [random.Random] instance is an oracle tape ([Rng]). *)

From Stdlib Require Import List ZArith QArith Qround Qabs String Bool Lia Arith.
From Stdlib Require Import Permutation Sorted Qpower Lqa.
Import ListNotations.

Local Open Scope string_scope.
Local Open Scope Z_scope.

(* ====================================================================== *)
(** ** Exceptions and the error monad *)

Inductive exn : Type :=
| ValueError
| KeyError
| IndexError
| AttributeError
| NetworkXError.

Inductive result (A : Type) : Type :=
| Ok (a : A)
| Err (e : exn).
Arguments Ok {A} a.
Arguments Err {A} e.

Definition bind {A B : Type} (r : result A) (k : A -> result B) : result B :=
  match r with
  | Ok a => k a
  | Err e => Err e
  end.

Notation "x <- c ;; k" := (bind c (fun x => k))
  (at level 61, c at next level, right associativity).
Notation "' p <- c ;; k" := (bind c (fun p => k))
  (at level 61, p pattern, c at next level, right associativity).

(* ====================================================================== *)
(** ** Python and numpy numerics *)

(** [int(x)] on a float: truncation toward zero. *)
Definition py_int (q : Q) : Z := Z.quot (Qnum q) (Zpos (Qden q)).


Definition Qltb (x y : Q) : bool := negb (Qle_bool y x).

Definition np_maximum (x y : Q) : Q := if Qle_bool x y then y else x.
Definition np_minimum (x y : Q) : Q := if Qle_bool x y then x else y.

(** [np.clip(x, lo, hi)] is [minimum(maximum(x, lo), hi)]. *)
Definition np_clip (x lo hi : Q) : Q := np_minimum (np_maximum x lo) hi.

(** A numpy float64: a finite value, one of the infinities, or not-a-number. *)
Inductive npfloat : Type :=
| Fin (q : Q)
| PInf
| NInf
| NaN.

Definition np_mul (x y : npfloat) : npfloat :=
  match x, y with
  | NaN, _ | _, NaN => NaN
  | Fin a, Fin b => Fin (a * b)%Q
  | Fin a, PInf | PInf, Fin a =>
      if Qltb 0 a then PInf else if Qltb a 0 then NInf else NaN
  | Fin a, NInf | NInf, Fin a =>
      if Qltb 0 a then NInf else if Qltb a 0 then PInf else NaN
  | PInf, PInf | NInf, NInf => PInf
  | PInf, NInf | NInf, PInf => NInf
  end.

(** [x > 0] on a numpy float; any comparison with [nan] is [False]. *)
Definition np_gt0 (x : npfloat) : bool :=
  match x with
  | Fin a => Qltb 0 a
  | PInf => true
  | NInf | NaN => false
  end.

(** [1 / x] for numpy floats (division by zero yields an infinity and a
    warning, never an exception). *)
Definition np_inv (x : npfloat) : npfloat :=
  match x with
  | Fin a => if Qeq_bool a 0 then PInf else Fin (/ a)%Q
  | PInf | NInf => Fin 0
  | NaN => NaN
  end.

Definition Qsum (l : list Q) : Q := fold_right Qplus 0%Q l.
Definition Zsum (l : list Z) : Z := fold_right Z.add 0 l.

(** [np.mean(l)]: [nan] on an empty list. *)
Definition np_mean (l : list Q) : npfloat :=
  match l with
  | [] => NaN
  | _ :: _ => Fin (Qsum l / inject_Z (Z.of_nat (List.length l)))%Q
  end.

(* ====================================================================== *)
(** ** dict helpers (association lists in insertion order) *)

Fixpoint dict_get {V : Type} (d : list (string * V)) (k : string) : result V :=
  match d with
  | [] => Err KeyError
  | (k', v) :: d' => if String.eqb k' k then Ok v else dict_get d' k
  end.

(** [d[k] += delta]: reads [d[k]] first, so a missing key raises. *)
Fixpoint dict_iadd (d : list (string * Z)) (k : string) (delta : Z)
  : result (list (string * Z)) :=
  match d with
  | [] => Err KeyError
  | (k', v) :: d' =>
      if String.eqb k' k then Ok ((k', v + delta) :: d')
      else d'' <- dict_iadd d' k delta ;; Ok ((k', v) :: d'')
  end.

Definition keys {V : Type} (d : list (string * V)) : list string := map fst d.
Definition values {V : Type} (d : list (string * V)) : list V := map snd d.

(* ====================================================================== *)
(** ** narrative.py *)

Record Narrative : Type := mkNarrative {
  baseline_transmission : Q;
  emotional_intensity : Q;
  identity_weight : Q;
  initial_seeding : Q
}.

Definition in_unit (v : Q) : bool := Qle_bool 0 v && Qle_bool v 1.

(** The dataclass constructor followed by [__post_init__]. *)
Definition make_Narrative (b e i p : Q) : result Narrative :=
  if in_unit b && in_unit e && in_unit i && in_unit p
  then Ok (mkNarrative b e i p)
  else Err ValueError.

Definition effective_transmission (n : Narrative) : Q :=
  (baseline_transmission n * (1 + emotional_intensity n))%Q.

(* ====================================================================== *)
(** ** archetypes.py *)

Record ArchetypeParams : Type := mkArchetype {
  nfc : Q;
  trust : Q;
  cb : Q;
  ia : Q;
  distribution : Q
}.

Definition ARCHETYPES : list (string * ArchetypeParams) :=
  [ ("immune",             mkArchetype (85#100) (80#100) (20#100) (30#100) (20#100));
    ("superspreader",      mkArchetype (15#100) (20#100) (85#100) (90#100) (15#100));
    ("moderate",           mkArchetype (50#100) (50#100) (50#100) (50#100) (50#100));
    ("critical_thinker",   mkArchetype (90#100) (50#100) (25#100) (35#100) (10#100));
    ("cynical_contrarian", mkArchetype (60#100) (15#100) (70#100) (75#100) (5#100)) ].

(** [abs(total - 1.0) < 0.001] *)
Definition validate_archetype_distribution (dist : list (string * Q)) : bool :=
  let total := Qsum (values dist) in
  Qltb (Qabs (total - 1)) (1#1000).

Definition get_archetype_counts (population : Z) (dist : list (string * Q))
  : result (list (string * Z)) :=
  let counts :=
    map (fun '(archetype, proportion) =>
           (archetype, py_int (inject_Z population * proportion)%Q)) dist in
  let total := Zsum (values counts) in
  if total <? population then
    dict_iadd counts "moderate" (population - total)
  else if total >? population then
    dict_iadd counts "moderate" (- (total - population))
  else Ok counts.




(* ====================================================================== *)
(** ** agent.py: the agent record *)

Record DisinformationAgent : Type := mkAgent {
  unique_id : nat;
  archetype : string;
  need_for_cognition : Q;
  institutional_trust : Q;
  confirmation_bias : Q;
  identity_alignment : Q;
  state : string;
  next_state : option string;
  infection_count : Z;
  recovery_count : Z;
  relapse_count : Z;
  time_in_I : Z;
  current_I_duration : Z
}.

(** [DisinformationAgent.__init__] *)
Definition new_agent (id : nat) (name : string) (p : ArchetypeParams)
  : DisinformationAgent :=
  mkAgent id name (nfc p) (trust p) (cb p) (ia p) "S" None 0 0 0 0 0.

Definition set_state (a : DisinformationAgent) (s : string) :=
  mkAgent (unique_id a) (archetype a) (need_for_cognition a)
    (institutional_trust a) (confirmation_bias a) (identity_alignment a)
    s (next_state a) (infection_count a) (recovery_count a)
    (relapse_count a) (time_in_I a) (current_I_duration a).

Definition set_next_state (a : DisinformationAgent) (ns : option string) :=
  mkAgent (unique_id a) (archetype a) (need_for_cognition a)
    (institutional_trust a) (confirmation_bias a) (identity_alignment a)
    (state a) ns (infection_count a) (recovery_count a)
    (relapse_count a) (time_in_I a) (current_I_duration a).

Definition set_infection_count (a : DisinformationAgent) (v : Z) :=
  mkAgent (unique_id a) (archetype a) (need_for_cognition a)
    (institutional_trust a) (confirmation_bias a) (identity_alignment a)
    (state a) (next_state a) v (recovery_count a)
    (relapse_count a) (time_in_I a) (current_I_duration a).

Definition set_recovery_count (a : DisinformationAgent) (v : Z) :=
  mkAgent (unique_id a) (archetype a) (need_for_cognition a)
    (institutional_trust a) (confirmation_bias a) (identity_alignment a)
    (state a) (next_state a) (infection_count a) v
    (relapse_count a) (time_in_I a) (current_I_duration a).

Definition set_relapse_count (a : DisinformationAgent) (v : Z) :=
  mkAgent (unique_id a) (archetype a) (need_for_cognition a)
    (institutional_trust a) (confirmation_bias a) (identity_alignment a)
    (state a) (next_state a) (infection_count a) (recovery_count a)
    v (time_in_I a) (current_I_duration a).

Definition set_time_in_I (a : DisinformationAgent) (v : Z) :=
  mkAgent (unique_id a) (archetype a) (need_for_cognition a)
    (institutional_trust a) (confirmation_bias a) (identity_alignment a)
    (state a) (next_state a) (infection_count a) (recovery_count a)
    (relapse_count a) v (current_I_duration a).

Definition set_current_I_duration (a : DisinformationAgent) (v : Z) :=
  mkAgent (unique_id a) (archetype a) (need_for_cognition a)
    (institutional_trust a) (confirmation_bias a) (identity_alignment a)
    (state a) (next_state a) (infection_count a) (recovery_count a)
    (relapse_count a) (time_in_I a) v.

(** Truthiness of [self.next_state]: [None] and the empty string are falsy. *)
Definition truthy (ns : option string) : option string :=
  match ns with
  | Some s => if String.eqb s EmptyString then None else Some s
  | None => None
  end.

(** [DisinformationAgent.advance].  The model counter
    [self.model.cumulative_infected] is threaded as the second component. *)
Definition advance (a : DisinformationAgent) (cumulative : Z)
  : DisinformationAgent * Z :=
  match truthy (next_state a) with
  | None => (a, cumulative)
  | Some ns =>
      let old_state := state a in
      let a := set_state a ns in
      let a := set_next_state a None in
      let '(a, cumulative) :=
        if negb (String.eqb old_state "I") && String.eqb (state a) "I"
        then (set_current_I_duration
                (set_infection_count a (infection_count a + 1)) 0,
              cumulative + 1)
        else (a, cumulative) in
      let a :=
        if String.eqb old_state "I" && String.eqb (state a) "R"
        then set_recovery_count a (recovery_count a + 1) else a in
      let a :=
        if String.eqb old_state "R" && String.eqb (state a) "S"
        then set_relapse_count a (relapse_count a + 1) else a in
      let a :=
        if String.eqb (state a) "I"
        then set_current_I_duration
               (set_time_in_I a (time_in_I a + 1))
               (current_I_duration a + 1)
        else a in
      (a, cumulative)
  end.

(* ====================================================================== *)
(** ** agent.py: transition probabilities *)

Definition _calculate_alpha (a : DisinformationAgent) (narrative : Narrative)
  : Q :=
  let base := effective_transmission narrative in
  let effect :=
    (- (6#10) * (need_for_cognition a - (5#10))
     + 0 * (institutional_trust a - (5#10))
     + (4#10) * (confirmation_bias a - (5#10))
     + (3#10) * (identity_alignment a - (5#10)) * identity_weight narrative)%Q in
  let susceptibility := np_clip (1 + effect) (1#10) 2 in
  let alpha := (base * susceptibility)%Q in
  np_clip alpha 0 1.

Definition _calculate_sigma (a : DisinformationAgent) (sigma_base : Q)
  (narrative : Narrative) : Q :=
  let base_adoption := sigma_base in
  let effect :=
    (- (7#10) * (need_for_cognition a - (5#10))
     + - (5#10) * (institutional_trust a - (5#10))
     + (6#10) * (confirmation_bias a - (5#10))
     + 1 * (identity_alignment a - (5#10)) * identity_weight narrative)%Q in
  let multiplier := np_clip (1 + effect) (1#10) 3 in
  let sigma := (base_adoption * multiplier)%Q in
  np_clip sigma 0 1.

Definition _calculate_gamma (a : DisinformationAgent) (gamma_base : Q)
  (narrative : Narrative) : Q :=
  let base_correction := gamma_base in
  let nfc_boost := (need_for_cognition a * (8#10))%Q in
  let trust_boost := (institutional_trust a * (6#10))%Q in
  let cb_penalty := (confirmation_bias a * (5#10))%Q in
  let ia_penalty :=
    (identity_alignment a * identity_weight narrative * (8#10))%Q in
  let multiplier :=
    ((1 + nfc_boost + trust_boost) / (1 + cb_penalty + ia_penalty))%Q in
  let gamma := (base_correction * multiplier)%Q in
  np_clip gamma 0 1.

Definition _calculate_omega (a : DisinformationAgent) (omega_base : Q)
  (narrative : Narrative) : Q :=
  let base_waning := omega_base in
  let trust_penalty := ((1 - institutional_trust a) * (6#10))%Q in
  let ia_amplification :=
    (identity_alignment a * identity_weight narrative * 1)%Q in
  let nfc_protection := (need_for_cognition a * (4#10))%Q in
  let multiplier :=
    ((1 + trust_penalty + ia_amplification) / (1 + nfc_protection))%Q in
  let omega := (base_waning * multiplier)%Q in
  np_clip omega 0 (2#10).

(* ====================================================================== *)
(** ** Library objects: the random stream and the graph *)

(** The [random.Random] instance owned by the model, as an oracle: [tape]
    holds the successive results of [random()] (each in [0,1) on a real
    stream; an exhausted tape yields 0), [picks] the successive position
    choices of [sample].  A pick that is not a valid choice of [k] distinct
    positions below [n] is replaced by the first [k] positions, so that every
    oracle honours the contract of [random.sample]. *)
Record Rng : Type := mkRng {
  tape : list Q;
  picks : list (list nat)
}.

Definition rng_random (g : Rng) : Q * Rng :=
  (hd 0%Q (tape g), mkRng (tl (tape g)) (picks g)).

Fixpoint nodupb (l : list nat) : bool :=
  match l with
  | [] => true
  | x :: l' => negb (existsb (Nat.eqb x) l') && nodupb l'
  end.

Definition valid_pick (n k : nat) (l : list nat) : bool :=
  Nat.eqb (List.length l) k && nodupb l && forallb (fun i => Nat.ltb i n) l.

Definition rng_choose (g : Rng) (n k : nat) : list nat * Rng :=
  let cand := hd [] (picks g) in
  (if valid_pick n k cand then cand else seq 0 k,
   mkRng (tape g) (tl (picks g))).

(** [random.sample(pool, k)] where [pool] is a list of agent positions:
    [ValueError] unless [0 <= k <= len(pool)]. *)
Definition random_sample (g : Rng) (pool : list nat) (k : Z)
  : result (list nat * Rng) :=
  if (k <? 0) || (Z.of_nat (List.length pool) <? k) then Err ValueError
  else
    let '(idx, g') := rng_choose g (List.length pool) (Z.to_nat k) in
    Ok (map (fun i => nth i pool 0%nat) idx, g').

(** An undirected graph on the nodes [0 .. n-1] as an adjacency list. *)
Definition Graph : Type := list (list nat).

(** [G.neighbors(v)] raises when [v] is not a node. *)
Definition G_neighbors (G : Graph) (v : nat) : result (list nat) :=
  match nth_error G v with
  | Some ns => Ok ns
  | None => Err NetworkXError
  end.

Definition G_nodes (G : Graph) : list nat := seq 0 (List.length G).

(** [G.degree()]: the pairs (node, degree) in node order. *)
Definition G_degree (G : Graph) : list (nat * nat) :=
  combine (G_nodes G) (map (@List.length nat) G).

(** [sorted(items, key=lambda x: x[1], reverse=True)]: a stable sort, so
    items of equal degree keep their original order. *)
Fixpoint insert_desc (x : nat * nat) (l : list (nat * nat)) : list (nat * nat) :=
  match l with
  | [] => [x]
  | y :: l' => if Nat.ltb (snd x) (snd y) then y :: insert_desc x l'
               else x :: y :: l'
  end.

Definition sorted_by_degree_desc (l : list (nat * nat)) : list (nat * nat) :=
  fold_right insert_desc [] l.

(* ====================================================================== *)
(** ** model.py: the model record *)

(** One row of the DataCollector's model-variable table. *)
Record Row : Type := mkRow {
  Susceptible : Z;
  Exposed : Z;
  Infected : Z;
  Recovered : Z;
  Cumulative_Infected : Z;
  Infected_Immune : Z;
  Infected_Superspreader : Z;
  Infected_Moderate : Z;
  Infected_Critical : Z;
  Infected_Cynical : Z
}.

Record DisinformationModel : Type := mkModel {
  narrative : Narrative;
  population : Z;
  m_edges : Z;
  seeding_strategy : string;
  sigma_base : Q;
  gamma_base : Q;
  omega_base : Q;
  cumulative_infected : Z;
  current_step : Z;
  G : Graph;
  agents : list DisinformationAgent;
  random : Rng;
  datacollector : list Row
}.

Definition set_agents (m : DisinformationModel) (l : list DisinformationAgent) :=
  mkModel (narrative m) (population m) (m_edges m) (seeding_strategy m)
    (sigma_base m) (gamma_base m) (omega_base m) (cumulative_infected m)
    (current_step m) (G m) l (random m) (datacollector m).

Definition set_random (m : DisinformationModel) (g : Rng) :=
  mkModel (narrative m) (population m) (m_edges m) (seeding_strategy m)
    (sigma_base m) (gamma_base m) (omega_base m) (cumulative_infected m)
    (current_step m) (G m) (agents m) g (datacollector m).

Definition set_cumulative_infected (m : DisinformationModel) (c : Z) :=
  mkModel (narrative m) (population m) (m_edges m) (seeding_strategy m)
    (sigma_base m) (gamma_base m) (omega_base m) c
    (current_step m) (G m) (agents m) (random m) (datacollector m).

Definition set_current_step (m : DisinformationModel) (c : Z) :=
  mkModel (narrative m) (population m) (m_edges m) (seeding_strategy m)
    (sigma_base m) (gamma_base m) (omega_base m) (cumulative_infected m)
    c (G m) (agents m) (random m) (datacollector m).

Definition set_datacollector (m : DisinformationModel) (rows : list Row) :=
  mkModel (narrative m) (population m) (m_edges m) (seeding_strategy m)
    (sigma_base m) (gamma_base m) (omega_base m) (cumulative_infected m)
    (current_step m) (G m) (agents m) (random m) rows.

(** Assignment to the object at position [i] of the agent collection. *)
Fixpoint list_set {A : Type} (l : list A) (i : nat) (x : A) : list A :=
  match l, i with
  | [], _ => []
  | _ :: l', O => x :: l'
  | y :: l', Datatypes.S i' => y :: list_set l' i' x
  end.

(* ====================================================================== *)
(** ** agent.py: the compute phase *)

(** [agents_dict = {a.unique_id: a for a in self.model.agents}] followed by
    [agents_dict.get(id)]: the last agent with that id, if any. *)
Definition agents_dict_get (l : list DisinformationAgent) (id : nat)
  : option DisinformationAgent :=
  find (fun a => Nat.eqb (unique_id a) id) (rev l).

Definition _get_infected_neighbors (m : DisinformationModel)
  (a : DisinformationAgent) : result (list nat) :=
  nbrs <- G_neighbors (G m) (unique_id a) ;;
  Ok (filter (fun neighbor_id =>
                match agents_dict_get (agents m) neighbor_id with
                | Some neighbor => String.eqb (state neighbor) "I"
                | None => false
                end) nbrs).

(** Each check returns the candidate state and the advanced random stream. *)
Definition _check_exposure (m : DisinformationModel) (a : DisinformationAgent)
  : result (string * Rng) :=
  infected_neighbors <- _get_infected_neighbors m a ;;
  match infected_neighbors with
  | [] => Ok ("S", random m)
  | _ :: _ =>
      let alpha := _calculate_alpha a (narrative m) in
      let k := List.length infected_neighbors in
      let p_exposure := (1 - Qpower (1 - alpha) (Z.of_nat k))%Q in
      let '(u, g) := rng_random (random m) in
      if Qltb u p_exposure then Ok ("E", g) else Ok ("S", g)
  end.

Definition _check_adoption (m : DisinformationModel) (a : DisinformationAgent)
  : string * Rng :=
  let sigma := _calculate_sigma a (sigma_base m) (narrative m) in
  let '(u, g) := rng_random (random m) in
  if Qltb u sigma then ("I", g) else ("E", g).

Definition _check_correction (m : DisinformationModel) (a : DisinformationAgent)
  : string * Rng :=
  let gamma := _calculate_gamma a (gamma_base m) (narrative m) in
  let '(u, g) := rng_random (random m) in
  if Qltb u gamma then ("R", g) else ("I", g).

Definition _check_relapse (m : DisinformationModel) (a : DisinformationAgent)
  : string * Rng :=
  let omega := _calculate_omega a (omega_base m) (narrative m) in
  let '(u, g) := rng_random (random m) in
  if Qltb u omega then ("S", g) else ("R", g).

(** [DisinformationAgent.step] for the agent at position [i]: writes that
    agent's [next_state] and advances the shared random stream. *)
Definition agent_step (m : DisinformationModel) (i : nat)
  : result DisinformationModel :=
  match nth_error (agents m) i with
  | None => Err IndexError
  | Some a =>
      let store '(s, g) :=
        set_random
          (set_agents m (list_set (agents m) i (set_next_state a (Some s)))) g in
      if String.eqb (state a) "S" then
        sg <- _check_exposure m a ;; Ok (store sg)
      else if String.eqb (state a) "E" then Ok (store (_check_adoption m a))
      else if String.eqb (state a) "I" then Ok (store (_check_correction m a))
      else if String.eqb (state a) "R" then Ok (store (_check_relapse m a))
      else Ok m
  end.

(** [DisinformationAgent.advance] for the agent at position [i]. *)
Definition agent_advance (m : DisinformationModel) (i : nat)
  : result DisinformationModel :=
  match nth_error (agents m) i with
  | None => Err IndexError
  | Some a =>
      let '(a', c) := advance a (cumulative_infected m) in
      Ok (set_cumulative_infected (set_agents m (list_set (agents m) i a')) c)
  end.

(** [for agent in self.agents: body], by position. *)
Fixpoint for_positions (body : DisinformationModel -> nat -> result DisinformationModel)
  (ps : list nat) (m : DisinformationModel) : result DisinformationModel :=
  match ps with
  | [] => Ok m
  | i :: ps' => m' <- body m i ;; for_positions body ps' m'
  end.

Definition for_each_agent
  (body : DisinformationModel -> nat -> result DisinformationModel)
  (m : DisinformationModel) : result DisinformationModel :=
  for_positions body (seq 0 (List.length (agents m))) m.

(* ====================================================================== *)
(** ** model.py: data collection, step and run *)

(** [sum(1 for a in model.agents if a.state == state)] *)
Definition _count_state (m : DisinformationModel) (s : string) : Z :=
  Zsum (map (fun _ => 1) (filter (fun a => String.eqb (state a) s) (agents m))).

Definition _count_infected_archetype (m : DisinformationModel) (arch : string)
  : Z :=
  Zsum (map (fun _ => 1)
          (filter (fun a => String.eqb (state a) "I"
                            && String.eqb (archetype a) arch) (agents m))).

(** [self.datacollector.collect(self)]: one more row. *)
Definition collect (m : DisinformationModel) : DisinformationModel :=
  set_datacollector m
    (datacollector m ++
     [ mkRow (_count_state m "S") (_count_state m "E")
             (_count_state m "I") (_count_state m "R")
             (cumulative_infected m)
             (_count_infected_archetype m "immune")
             (_count_infected_archetype m "superspreader")
             (_count_infected_archetype m "moderate")
             (_count_infected_archetype m "critical_thinker")
             (_count_infected_archetype m "cynical_contrarian") ]).

Definition step (m : DisinformationModel) : result DisinformationModel :=
  m <- for_each_agent agent_step m ;;
  m <- for_each_agent agent_advance m ;;
  let m := collect m in
  Ok (set_current_step m (current_step m + 1)).

Definition _epidemic_ended (m : DisinformationModel) : bool :=
  (_count_state m "E" =? 0) && (_count_state m "I" =? 0).

(** The body of [run]: at most [budget] iterations of step-then-test. *)
Fixpoint run_loop (budget : nat) (m : DisinformationModel)
  : result DisinformationModel :=
  match budget with
  | O => Ok m
  | Datatypes.S budget' =>
      m' <- step m ;;
      if _epidemic_ended m' then Ok m' else run_loop budget' m'
  end.

(** [run(max_steps)]: [range(max_steps)] is empty for a non-positive bound. *)
Definition run (max_steps : Z) (m : DisinformationModel)
  : result DisinformationModel :=
  run_loop (Z.to_nat max_steps) m.

(** [k] consecutive calls of [step] without any test in between. *)
Fixpoint steps (k : nat) (m : DisinformationModel) : result DisinformationModel :=
  match k with
  | O => Ok m
  | Datatypes.S k' => m' <- step m ;; steps k' m'
  end.

(* ====================================================================== *)
(** ** model.py: construction *)

(** The configuration handed to [DisinformationModel.__init__].  The two
    library objects that the constructor obtains from [seed] are part of it:
    [cfg_random] is the stream [random.Random(seed)], and [cfg_network] is
    the graph that [nx.barabasi_albert_graph(population, m_edges, seed)]
    returns when it accepts its arguments. *)
Record Config : Type := mkConfig {
  cfg_baseline_transmission : Q;
  cfg_emotional_intensity : Q;
  cfg_identity_weight : Q;
  cfg_initial_seeding : Q;
  cfg_archetype_dist : list (string * Q);
  cfg_population : Z;
  cfg_m_edges : Z;
  cfg_seeding_strategy : string;
  cfg_sigma_base : Q;
  cfg_gamma_base : Q;
  cfg_omega_base : Q;
  cfg_random : Rng;
  cfg_network : Graph
}.

(** [nx.barabasi_albert_graph(n, m)] rejects [m < 1] and [m >= n]. *)
Definition _create_network (population m_edges : Z) (network : Graph)
  : result Graph :=
  if (m_edges <? 1) || (population <=? m_edges) then Err NetworkXError
  else Ok network.

(** The inner loop [for _ in range(count)] of [_create_agents]: appends
    [count] agents of one archetype, numbered from [agent_id]. *)
Fixpoint create_agents_of (name : string) (p : ArchetypeParams) (count : nat)
  (agent_id : nat) (acc : list DisinformationAgent)
  : list DisinformationAgent * nat :=
  match count with
  | O => (acc, agent_id)
  | Datatypes.S c =>
      create_agents_of name p c (Datatypes.S agent_id)
        (acc ++ [new_agent agent_id name p])
  end.

Fixpoint create_agents_loop (counts : list (string * Z)) (agent_id : nat)
  (acc : list DisinformationAgent) : result (list DisinformationAgent) :=
  match counts with
  | [] => Ok acc
  | (archetype_name, count) :: rest =>
      archetype_params <- dict_get ARCHETYPES archetype_name ;;
      let '(acc', agent_id') :=
        create_agents_of archetype_name archetype_params (Z.to_nat count)
          agent_id acc in
      create_agents_loop rest agent_id' acc'
  end.

Definition _create_agents (m : DisinformationModel) (dist : list (string * Q))
  : result DisinformationModel :=
  archetype_counts <- get_archetype_counts (population m) dist ;;
  l <- create_agents_loop archetype_counts 0%nat (agents m) ;;
  Ok (set_agents m l).

(** [l[:k]] *)
Definition py_prefix {A : Type} (l : list A) (k : Z) : list A :=
  if 0 <=? k then firstn (Z.to_nat k) l
  else firstn (List.length l - Z.to_nat (- k)) l.

Definition agent_has (l : list DisinformationAgent)
  (pred : DisinformationAgent -> bool) (i : nat) : bool :=
  match nth_error l i with
  | Some a => pred a
  | None => false
  end.

(** The seed count of [_seed_initial_infections]. *)
Definition n_seed_of (m : DisinformationModel) : Z :=
  let n_seed := py_int (inject_Z (population m) * initial_seeding (narrative m))%Q in
  if n_seed =? 0 then 1 else n_seed.

(** The loop of the [archetype_proportional] branch; [seed_agents] is
    accumulated in [acc]. *)
Fixpoint seed_archetypes (table : list (string * ArchetypeParams))
  (l : list DisinformationAgent) (agent_list : list nat) (n_seed : Z)
  (g : Rng) (acc : list nat) : result (list nat * Rng) :=
  match table with
  | [] => Ok (acc, g)
  | (archetype_name, _) :: rest =>
      let archetype_agents :=
        filter (agent_has l (fun a => String.eqb (archetype a) archetype_name))
               agent_list in
      params <- dict_get ARCHETYPES archetype_name ;;
      let n_archetype_seed := py_int (inject_Z n_seed * distribution params)%Q in
      match archetype_agents with
      | _ :: _ =>
          if 0 <? n_archetype_seed then
            '(seeds, g') <- random_sample g archetype_agents
                              (Z.min n_archetype_seed
                                 (Z.of_nat (List.length archetype_agents))) ;;
            seed_archetypes rest l agent_list n_seed g' (acc ++ seeds)
          else seed_archetypes rest l agent_list n_seed g acc
      | [] => seed_archetypes rest l agent_list n_seed g acc
      end
  end.

(** The first half of [_seed_initial_infections]: the positions, in the agent
    collection, of the objects put into [seed_agents]. *)
Definition select_seed_agents (m : DisinformationModel)
  : result (list nat * Rng) :=
  let n_seed := n_seed_of m in
  let agent_list := seq 0 (List.length (agents m)) in
  if String.eqb (seeding_strategy m) "random" then
    random_sample (random m) agent_list n_seed
  else if String.eqb (seeding_strategy m) "hub_targeted" then
    let degrees := G_degree (G m) in
    let sorted_nodes := sorted_by_degree_desc degrees in
    let seed_ids := map fst (py_prefix sorted_nodes n_seed) in
    Ok (filter (agent_has (agents m)
                  (fun a => existsb (Nat.eqb (unique_id a)) seed_ids))
               agent_list,
        random m)
  else if String.eqb (seeding_strategy m) "archetype_proportional" then
    seed_archetypes ARCHETYPES (agents m) agent_list n_seed (random m) []
  else Err ValueError.

(** The second half: [for agent in seed_agents: agent.state = 'I';
    self.cumulative_infected += 1]. *)
Fixpoint mark_seeds (seed_agents : list nat) (m : DisinformationModel)
  : DisinformationModel :=
  match seed_agents with
  | [] => m
  | i :: rest =>
      let l := match nth_error (agents m) i with
               | Some a => list_set (agents m) i (set_state a "I")
               | None => agents m
               end in
      mark_seeds rest
        (set_cumulative_infected (set_agents m l) (cumulative_infected m + 1))
  end.

Definition _seed_initial_infections (m : DisinformationModel)
  : result DisinformationModel :=
  '(seed_agents, g) <- select_seed_agents m ;;
  Ok (mark_seeds seed_agents (set_random m g)).

(** [DisinformationModel.__init__] *)
Definition DisinformationModel_init (c : Config) : result DisinformationModel :=
  if negb (validate_archetype_distribution (cfg_archetype_dist c))
  then Err ValueError
  else
    nar <- make_Narrative (cfg_baseline_transmission c)
             (cfg_emotional_intensity c) (cfg_identity_weight c)
             (cfg_initial_seeding c) ;;
    graph <- _create_network (cfg_population c) (cfg_m_edges c) (cfg_network c) ;;
    let m := mkModel nar (cfg_population c) (cfg_m_edges c)
               (cfg_seeding_strategy c) (cfg_sigma_base c) (cfg_gamma_base c)
               (cfg_omega_base c) 0 0 graph [] (cfg_random c) [] in
    m <- _create_agents m (cfg_archetype_dist c) ;;
    m <- _seed_initial_infections m ;;
    Ok (collect m).

(* ====================================================================== *)
(** ** model.py: metrics *)

Record R0Components : Type := mkComponents {
  mean_alpha : npfloat;
  mean_sigma : npfloat;
  mean_gamma : npfloat;
  mean_degree : npfloat;
  infectious_period : npfloat
}.

Definition calculate_R0 (m : DisinformationModel) : npfloat * R0Components :=
  let alphas := map (fun a => _calculate_alpha a (narrative m)) (agents m) in
  let sigmas :=
    map (fun a => _calculate_sigma a (sigma_base m) (narrative m)) (agents m) in
  let gammas :=
    map (fun a => _calculate_gamma a (gamma_base m) (narrative m)) (agents m) in
  let mean_alpha := np_mean alphas in
  let mean_sigma := np_mean sigmas in
  let mean_gamma := np_mean gammas in
  let mean_degree :=
    np_mean (map (fun d => inject_Z (Z.of_nat (snd d))) (G_degree (G m))) in
  let infectious_period :=
    if np_gt0 mean_gamma then np_inv mean_gamma else PInf in
  let R0 :=
    np_mul (np_mul (np_mul mean_alpha mean_sigma) mean_degree)
           infectious_period in
  (R0, mkComponents mean_alpha mean_sigma mean_gamma mean_degree
         infectious_period).

(** An integer column value divided by the Python int [population]. *)
Definition np_div_int (a b : Z) : npfloat :=
  if b =? 0 then (if 0 <? a then PInf else if a <? 0 then NInf else NaN)
  else Fin (inject_Z a / inject_Z b)%Q.

Record PeakMetrics : Type := mkPeak {
  max_infected : Z;
  max_infected_pct : npfloat;
  time_to_peak : Z;
  attack_rate : npfloat
}.

(** [idxmax]: the index of the first occurrence of the maximum. *)
Fixpoint idxmax_from (best : Z) (best_i i : Z) (l : list Z) : Z :=
  match l with
  | [] => best_i
  | x :: l' => if best <? x then idxmax_from x i (i + 1) l'
               else idxmax_from best best_i (i + 1) l'
  end.

Definition get_peak_metrics (m : DisinformationModel) : result PeakMetrics :=
  match datacollector m with
  | [] => Err ValueError
  | r0 :: rest =>
      let col := map Infected (r0 :: rest) in
      let max_infected := fold_right Z.max (Infected r0) col in
      let time_to_peak := idxmax_from (Infected r0) 0 1 (map Infected rest) in
      let attack_rate :=
        np_div_int (Cumulative_Infected (last rest r0)) (population m) in
      Ok (mkPeak max_infected (np_div_int max_infected (population m))
                 time_to_peak attack_rate)
  end.

Record ArchetypeRate : Type := mkRate {
  infected : Z;
  total : Z;
  percentage : Q
}.

Definition get_archetype_infection_rates (m : DisinformationModel)
  : list (string * ArchetypeRate) :=
  map (fun archetype_name =>
         let archetype_agents :=
           filter (fun a => String.eqb (archetype a) archetype_name) (agents m) in
         let total := Z.of_nat (List.length archetype_agents) in
         let infected :=
           Z.of_nat (List.length
                       (filter (fun a => String.eqb (state a) "I")
                               archetype_agents)) in
         (archetype_name,
          mkRate infected total
            (if 0 <? total then (inject_Z infected / inject_Z total)%Q else 0%Q)))
      (keys ARCHETYPES).

(* ====================================================================== *)
(** ** Attribute lookup and analysis/export.py *)

(** The names bound in the body of [class DisinformationModel]; the inherited
    [mesa.Model] adds none of the metric operations. *)
Definition DisinformationModel_methods : list string :=
  [ "__init__"; "_create_network"; "_create_agents";
    "_seed_initial_infections"; "_setup_datacollector"; "step"; "run";
    "_epidemic_ended"; "calculate_R0"; "get_peak_metrics";
    "get_archetype_infection_rates"; "_count_state";
    "_count_infected_archetype" ].

(** [model.<name>] for a method name. *)
Definition getattr_method (name : string) : result string :=
  if existsb (String.eqb name) DisinformationModel_methods then Ok name
  else Err AttributeError.

(** [export_simulation_results], reduced to its calls into the model: the
    result lists the keys of [created_files]; what is written to disk is not
    modelled. *)
Definition export_simulation_results (m : DisinformationModel)
  (include_trajectories include_profile_metrics : bool) : result (list string) :=
  _ <- getattr_method "get_peak_metrics" ;;
  metrics <- get_peak_metrics m ;;
  _ <- getattr_method "calculate_R0" ;;
  let '(R0, components) := calculate_R0 m in
  let created_files := ["overall"] in
  created_files <-
    (if include_profile_metrics then
       _ <- getattr_method "get_profile_stratified_metrics" ;;
       Ok (created_files ++ ["profiles"])%list
     else Ok created_files) ;;
  Ok (if include_trajectories then (created_files ++ ["trajectories"])%list
      else created_files).

(* ====================================================================== *)
(** ** Concrete inputs used by the examples below *)

(** [ARCHETYPE_DIST] of [generate_layer2_results.py]. *)
Definition default_dist : list (string * Q) :=
  [ ("immune", 20#100); ("superspreader", 15#100); ("moderate", 50#100);
    ("critical_thinker", 10#100); ("cynical_contrarian", 5#100) ].

(** A star on [n] nodes centred at node 0: one of the graphs that
    preferential attachment with one edge per new node can produce. *)
Definition star_graph (n : nat) : Graph :=
  seq 1 (n - 1) :: repeat [0%nat] (n - 1).


(** Two moderate agents joined by an edge, both seeded ([p0 = 1]).  The
    stream makes agent 0 recover, relapse, get exposed and adopt again while
    agent 1 stays infected. *)
Definition cfg_reinfection : Config :=
  mkConfig (45#100) (70#100) (75#100) 1 [("moderate", 1%Q)] 2 1 "random"
    (30#100) (5#100) (2#100)
    (mkRng [1#100; 99#100; 1#100; 99#100; 1#100; 99#100; 1#100; 99#100]%Q [])
    (star_graph 2).

(** Ten agents, [p0 = 0.06]: the computed seed count 0 is raised to 1. *)
Definition cfg_single_seed (strategy : string) : Config :=
  mkConfig (45#100) (70#100) (75#100) (6#100) default_dist 10 1 strategy
    (30#100) (5#100) (2#100) (mkRng [] []) (star_graph 10).


(** Shares 0.5, 0.50048828125 and 0.0 (their sum is within the tolerance of
    [validate_archetype_distribution]) for a population of 2048. *)
Definition dist_overfull : list (string * Q) :=
  [ ("immune", 1#2); ("superspreader", 1025#2048); ("moderate", 0%Q) ].

Definition cfg_overfull : Config :=
  mkConfig (45#100) (70#100) (75#100) (1#2048) dist_overfull 2048 1 "random"
    (30#100) (5#100) (2#100) (mkRng [] []) (star_graph 2048).

(** The two-agent configuration with a base correction rate of zero. *)
Definition cfg_no_correction : Config :=
  mkConfig (45#100) (70#100) (75#100) 1 [("moderate", 1%Q)] 2 1 "random"
    (30#100) 0 (2#100) (mkRng [] []) (star_graph 2).

(** An exposed agent whose candidate state is 'I', with some history. *)
Definition agent_adopting : DisinformationAgent :=
  mkAgent 0 "moderate" (1#2) (1#2) (1#2) (1#2) "E" (Some "I") 1 1 1 7 5.

(** An infected agent that stays infected. *)
Definition agent_staying : DisinformationAgent :=
  mkAgent 0 "moderate" (1#2) (1#2) (1#2) (1#2) "I" (Some "I") 1 0 0 7 5.

(** The model that [__init__] returns for a configuration it accepts (an
    empty model stands in for a rejected one). *)
Definition empty_model : DisinformationModel :=
  mkModel (mkNarrative 0 0 0 0) 0 0 EmptyString 0 0 0 0 0 [] [] (mkRng [] []) [].

Definition constructed (c : Config) : DisinformationModel :=
  match DisinformationModel_init c with
  | Ok m => m
  | Err _ => empty_model
  end.


(* ====================================================================== *)
(** ** Vocabulary of the statements *)

(** The four state names. *)
Definition valid_state (s : string) : Prop :=
  s = "S" \/ s = "E" \/ s = "I" \/ s = "R".

(** The sum of the truncated products of [get_archetype_counts], before any
    correction. *)
Definition truncated_total (n : Z) (d : list (string * Q)) : Z :=
  Zsum (map (fun e => py_int (inject_Z n * snd e)%Q) d).

(** An agent between steps: its state is one of the four names, and so is
    its pending candidate, if any. *)
Definition agent_ok (a : DisinformationAgent) : Prop :=
  valid_state (state a) /\
  (forall s, next_state a = Some s -> valid_state s).

(** The history counters of a freshly created agent. *)
Definition fresh_counters (a : DisinformationAgent) : Prop :=
  infection_count a = 0 /\ recovery_count a = 0 /\ relapse_count a = 0 /\
  time_in_I a = 0 /\ current_I_duration a = 0.

(** What one loop body may leave untouched: everything but the agents, the
    random stream and the infection counter. *)
Definition model_frame (m m' : DisinformationModel) : Prop :=
  narrative m' = narrative m /\ population m' = population m /\
  m_edges m' = m_edges m /\ seeding_strategy m' = seeding_strategy m /\
  sigma_base m' = sigma_base m /\ gamma_base m' = gamma_base m /\
  omega_base m' = omega_base m /\ current_step m' = current_step m /\
  G m' = G m /\ datacollector m' = datacollector m.

(** The effect of one whole step on one agent: some candidate is written
    (or the pending one kept) and then committed. *)
Definition stepped (a a' : DisinformationAgent) : Prop :=
  exists ns c,
    (ns = next_state a \/ exists s, valid_state s /\ ns = Some s) /\
    a' = fst (advance (set_next_state a ns) c).

(** The agent enters I: it was not in I and now is. *)
Definition enters_I (a a' : DisinformationAgent) : bool :=
  negb (String.eqb (state a) "I") && String.eqb (state a') "I".

(** Every agent id is a node of the graph. *)
Definition graph_covers (m : DisinformationModel) : Prop :=
  Forall (fun a => (unique_id a < List.length (G m))%nat) (agents m).

(** The four state counts of a row add up to [n]. *)
Definition row_total (r : Row) : Z :=
  Susceptible r + Exposed r + Infected r + Recovered r.

(** The invariant of a constructed model between steps: valid agents, every
    collected row accounts for every agent, and the last row carries the
    current infection counter. *)
Definition model_ok (m : DisinformationModel) : Prop :=
  Forall agent_ok (agents m) /\
  Forall (fun r => row_total r = Z.of_nat (List.length (agents m)))
         (datacollector m) /\
  exists rows r,
    datacollector m = (rows ++ [r])%list /\
    Cumulative_Infected r = cumulative_infected m.

(** An agent as [__init__] leaves it. *)
Definition pristine (a : DisinformationAgent) : Prop :=
  state a = "S" /\ next_state a = None /\ fresh_counters a.

(** Agent ids coincide with positions in the agent collection. *)
Definition ids_are_positions (l : list DisinformationAgent) : Prop :=
  forall i a, nth_error l i = Some a -> unique_id a = i.

(** The number of agents that [_create_agents] makes out of a table of
    counts: [range(count)] is empty for a negative count. *)
Definition agents_made (counts : list (string * Z)) : nat :=
  fold_right (fun e acc => (Z.to_nat (snd e) + acc)%nat) 0%nat counts.

(** Membership of a position in [seed_agents]. *)
Definition is_seed (seeds : list nat) (i : nat) : bool :=
  existsb (Nat.eqb i) seeds.

(* ====================================================================== *)
(** ** Functional readings of the two phases of a step *)

(** The dispatch of [DisinformationAgent.step] as a function of the agent:
    the candidate state with the advanced stream, or nothing for a state
    outside the four names. *)
Definition candidate (m : DisinformationModel) (a : DisinformationAgent)
  : result (option (string * Rng)) :=
  if String.eqb (state a) "S" then
    sg <- _check_exposure m a ;; Ok (Some sg)
  else if String.eqb (state a) "E" then Ok (Some (_check_adoption m a))
  else if String.eqb (state a) "I" then Ok (Some (_check_correction m a))
  else if String.eqb (state a) "R" then Ok (Some (_check_relapse m a))
  else Ok None.

(** The compute phase read as one pass over a frozen snapshot [m]: the
    candidate of every agent of [l] is computed against the agents of [m];
    only the random stream is threaded from one agent to the next. *)
Fixpoint snapshot_candidates (m : DisinformationModel)
  (l : list DisinformationAgent) (g : Rng)
  : result (list DisinformationAgent * Rng) :=
  match l with
  | [] => Ok ([], g)
  | a :: l' =>
      c <- candidate (set_random m g) a ;;
      match c with
      | Some (s, g') =>
          '(r, g'') <- snapshot_candidates m l' g' ;;
          Ok (set_next_state a (Some s) :: r, g'')
      | None =>
          '(r, g'') <- snapshot_candidates m l' g ;;
          Ok (a :: r, g'')
      end
  end.

(** The commit phase read as one pass: [advance] on every agent in turn,
    the infection counter threaded through. *)
Fixpoint advance_all (l : list DisinformationAgent) (cumulative : Z)
  : list DisinformationAgent * Z :=
  match l with
  | [] => ([], cumulative)
  | a :: l' =>
      let '(a', c1) := advance a cumulative in
      let '(r, c2) := advance_all l' c1 in
      (a' :: r, c2)
  end.

(* ====================================================================== *)
(** ** analysis/export.py: the relapse rate of the comparison table *)

(** [total_relapses / total_infections if total_infections > 0 else 0.0]
    with [total_infections = model.cumulative_infected], as computed in
    [create_baseline_comparison_table]. *)
Definition relapse_rate (m : DisinformationModel) : Q :=
  let total_infections := cumulative_infected m in
  let total_relapses := Zsum (map relapse_count (agents m)) in
  if 0 <? total_infections
  then (inject_Z total_relapses / inject_Z total_infections)%Q
  else 0%Q.

(* ====================================================================== *)
(** ** Vocabulary of the further statements *)

(** The edges of the state machine, self-loops included. *)
Definition allowed (s s' : string) : Prop :=
  (s = "S" /\ (s' = "S" \/ s' = "E")) \/
  (s = "E" /\ (s' = "E" \/ s' = "I")) \/
  (s = "I" /\ (s' = "I" \/ s' = "R")) \/
  (s = "R" /\ (s' = "R" \/ s' = "S")).

(** An agent between two steps: a valid state and no pending candidate. *)
Definition settled (a : DisinformationAgent) : Prop :=
  valid_state (state a) /\ next_state a = None.

Definition ind (b : bool) : Z := if b then 1 else 0.

Definition in_state (s : string) (a : DisinformationAgent) : bool :=
  String.eqb (state a) s.

(** The sum of one integer field over all agents. *)
Definition total_of (f : DisinformationAgent -> Z)
  (l : list DisinformationAgent) : Z :=
  Zsum (map f l).

(** Identity and traits, which no operation changes. *)
Definition same_identity (a a' : DisinformationAgent) : Prop :=
  unique_id a' = unique_id a /\ archetype a' = archetype a /\
  need_for_cognition a' = need_for_cognition a /\
  institutional_trust a' = institutional_trust a /\
  confirmation_bias a' = confirmation_bias a /\
  identity_alignment a' = identity_alignment a.

(** The effect of one whole step on a settled agent. *)
Definition step_rel (a a' : DisinformationAgent) : Prop :=
  allowed (state a) (state a') /\
  next_state a' = None /\
  infection_count a' = infection_count a + ind (enters_I a a') /\
  recovery_count a'
  = recovery_count a + ind (in_state "I" a && in_state "R" a') /\
  relapse_count a'
  = relapse_count a + ind (in_state "R" a && in_state "S" a') /\
  time_in_I a' = time_in_I a + ind (in_state "I" a') /\
  same_identity a a'.



(** The fields of the model that no step touches. *)
Definition same_params (m m' : DisinformationModel) : Prop :=
  narrative m' = narrative m /\ population m' = population m /\
  m_edges m' = m_edges m /\ seeding_strategy m' = seeding_strategy m /\
  sigma_base m' = sigma_base m /\ gamma_base m' = gamma_base m /\
  omega_base m' = omega_base m /\ G m' = G m.

(** The traits of an agent are those of its archetype in the table. *)
Definition traits_from_table (a : DisinformationAgent) : Prop :=
  exists p,
    dict_get ARCHETYPES (archetype a) = Ok p /\
    need_for_cognition a = nfc p /\ institutional_trust a = trust p /\
    confirmation_bias a = cb p /\ identity_alignment a = ia p.

(** What a candidate computation reads of the other agents: their ids and
    their states. *)
Definition same_view (l0 l : list DisinformationAgent) : Prop :=
  Forall2 (fun x y => unique_id y = unique_id x /\ state y = state x) l0 l.

(** Entries into I that are not yet accounted for by a recovery or by the
    agent being in I now; and recoveries not yet accounted for by a relapse
    or by the agent being in R now. *)
Definition infection_balance (a : DisinformationAgent) : Z :=
  infection_count a - recovery_count a - ind (in_state "I" a).

Definition recovery_balance (a : DisinformationAgent) : Z :=
  recovery_count a - relapse_count a - ind (in_state "R" a).

(** The row that [collect] appends for a model: the counts of the moment. *)
Definition current_row (m : DisinformationModel) : Row :=
  mkRow (_count_state m "S") (_count_state m "E")
        (_count_state m "I") (_count_state m "R")
        (cumulative_infected m)
        (_count_infected_archetype m "immune")
        (_count_infected_archetype m "superspreader")
        (_count_infected_archetype m "moderate")
        (_count_infected_archetype m "critical_thinker")
        (_count_infected_archetype m "cynical_contrarian").


(** The number of agents of one archetype. *)
Definition archetype_size (l : list DisinformationAgent) (name : string) : nat :=
  List.length (filter (fun a => String.eqb (archetype a) name) l).

(* ====================================================================== *)
(** * Properties *)

(** ** The error monad *)

Lemma bind_Ok_inv {A B : Type} (r : result A) (k : A -> result B) (b : B) :
  bind r k = Ok b -> exists a, r = Ok a /\ k a = Ok b.
Proof. destruct r as [a|e]; simpl; intros H; [eauto | discriminate]. Qed.

(** Split syntactic conjunctions only, without unfolding definitions. *)
Ltac splits := repeat match goal with |- _ /\ _ => split end.

Ltac inv_bind H :=
  let a := fresh "x" in
  let Ha := fresh "Hx" in
  apply bind_Ok_inv in H; destruct H as (a & Ha & H).

(** ** Strings used as state names *)

Lemma valid_state_truthy (s : string) :
  valid_state s -> truthy (Some s) = Some s.
Proof. intros [->|[->|[->| ->]]]; reflexivity. Qed.

Ltac eqb_cases :=
  repeat match goal with
  | |- context [String.eqb ?x ?y] =>
      let E := fresh "E" in
      destruct (String.eqb_spec x y) as [E|E]
  end.

(** ** Sums *)

Lemma Zsum_app (l1 l2 : list Z) : Zsum (l1 ++ l2) = Zsum l1 + Zsum l2.
Proof. induction l1 as [|x l1 IH]; simpl; [reflexivity | rewrite IH; lia]. Qed.

Lemma Zsum_ones {A : Type} (l : list A) :
  Zsum (map (fun _ => 1) l) = Z.of_nat (List.length l).
Proof.
  unfold Zsum. induction l as [|x l IH]; cbn [map fold_right List.length];
    [reflexivity | rewrite IH; lia].
Qed.

(** ** Truncation *)

Lemma py_int_nonneg_floor (q : Q) : (0 <= q)%Q -> py_int q = Qfloor q.
Proof.
  destruct q as [n d]. unfold Qle, py_int, Qfloor. simpl. intros H.
  apply Z.quot_div_nonneg; lia.
Qed.

Lemma py_int_nonneg (q : Q) : (0 <= q)%Q -> 0 <= py_int q.
Proof.
  destruct q as [n d]. unfold Qle, py_int. simpl. intros H.
  apply Z.quot_pos; lia.
Qed.

(** ** Pointwise list relations *)

Lemma Forall2_compose {A B C : Type} (P : A -> B -> Prop) (Q : B -> C -> Prop)
  (R : A -> C -> Prop) (la : list A) (lb : list B) (lc : list C) :
  (forall a b c, P a b -> Q b c -> R a c) ->
  Forall2 P la lb -> Forall2 Q lb lc -> Forall2 R la lc.
Proof.
  intros HR H1. revert lc. induction H1; intros lc H2; inversion H2; subst;
    constructor; eauto.
Qed.

Lemma Forall2_refl_on {A : Type} (P : A -> A -> Prop) (l : list A) :
  (forall a, P a a) -> Forall2 P l l.
Proof. intros HP. induction l; constructor; auto. Qed.

(** ** get_archetype_counts *)

Lemma dict_iadd_spec (d : list (string * Z)) (k : string) (delta : Z) :
  In k (keys d) ->
  exists d' v,
    dict_iadd d k delta = Ok d' /\
    dict_get d k = Ok v /\
    dict_get d' k = Ok (v + delta) /\
    keys d' = keys d /\
    Zsum (values d') = Zsum (values d) + delta /\
    Forall2 (fun e e' => fst e' = fst e /\ (fst e <> k -> snd e' = snd e)) d d'.
Proof.
  induction d as [|[k' v'] d IH]; simpl; intros Hin; [contradiction|].
  destruct (String.eqb_spec k' k) as [->|Hne].
  - exists ((k, v' + delta) :: d), v'. simpl. rewrite String.eqb_refl.
    splits; try reflexivity; try lia.
    constructor.
    + simpl. split; [reflexivity | congruence].
    + apply Forall2_refl_on. auto.
  - destruct Hin as [Heq|Hin]; [congruence|].
    destruct (IH Hin) as (d' & v & H1 & H2 & H3 & H4 & H5 & H6).
    exists ((k', v') :: d'), v. rewrite H1. simpl.
    destruct (String.eqb_spec k' k) as [?|_]; [congruence|].
    splits; try assumption; try reflexivity.
    + unfold keys in *. simpl. now rewrite H4.
    + rewrite H5. lia.
    + constructor; [simpl; auto | assumption].
Qed.

Lemma raw_counts_spec (n : Z) (d : list (string * Q)) :
  let counts := map (fun '(a, p) => (a, py_int (inject_Z n * p)%Q)) d in
  keys counts = keys d /\
  Forall2 (fun e c => fst c = fst e /\ snd c = py_int (inject_Z n * snd e)%Q)
          d counts.
Proof.
  induction d as [|[a p] d IH]; simpl.
  - split; [reflexivity | constructor].
  - destruct IH as [IH1 IH2]. split.
    + unfold keys in *. simpl. now rewrite IH1.
    + constructor; [simpl; auto | assumption].
Qed.

Lemma raw_counts_total (n : Z) (d : list (string * Q)) :
  Zsum (values (map (fun '(a, p) => (a, py_int (inject_Z n * p)%Q)) d))
  = truncated_total n d.
Proof.
  unfold truncated_total, values. induction d as [|[a p] d IH]; simpl;
    [reflexivity | now rewrite IH].
Qed.






(** ** advance *)

Lemma truthy_Some (ns : string) : ns <> EmptyString -> truthy (Some ns) = Some ns.
Proof.
  intros Hne. unfold truthy. destruct (String.eqb_spec ns EmptyString); congruence.
Qed.

(** The commit of a pending candidate: the state and the infection
    counters. *)
Lemma advance_commit (a : DisinformationAgent) (ns : string) (cum : Z) :
  next_state a = Some ns ->
  ns <> EmptyString ->
  let a' := fst (advance a cum) in
  let entering := negb (String.eqb (state a) "I") && String.eqb ns "I" in
  state a' = ns /\
  next_state a' = None /\
  snd (advance a cum) = cum + (if entering then 1 else 0) /\
  infection_count a' = infection_count a + (if entering then 1 else 0) /\
  unique_id a' = unique_id a /\
  archetype a' = archetype a.
Proof.
  intros Hns Hne. unfold advance. rewrite Hns, (truthy_Some ns Hne).
  destruct a as [id ar n t c i st nx ic rc lc ti cd]. cbn in Hns |- *. clear Hns.
  repeat (cbn;
          match goal with
          | |- context [String.eqb ?x ?y] =>
              is_var x; destruct (String.eqb_spec x y); subst;
              try congruence
          end).
  all: cbn; splits; try reflexivity; try lia.
Qed.

(** C4 (as amended): the commit of a candidate state [ns].  Entering I
    increments the model counter and [infection_count]; I to R increments
    [recovery_count]; R to S increments [relapse_count]; [time_in_I] and
    [current_I_duration] are incremented whenever the committed state is I,
    on entry as well as on staying, so that an entry leaves
    [current_I_duration] at 1 (reset, then incremented). *)
Theorem advance_bookkeeping (a : DisinformationAgent) (ns : string) (cum : Z) :
  next_state a = Some ns ->
  ns <> EmptyString ->
  let a' := fst (advance a cum) in
  let entering := negb (String.eqb (state a) "I") && String.eqb ns "I" in
  state a' = ns /\
  next_state a' = None /\
  snd (advance a cum) = cum + (if entering then 1 else 0) /\
  infection_count a' = infection_count a + (if entering then 1 else 0) /\
  recovery_count a'
  = recovery_count a
    + (if String.eqb (state a) "I" && String.eqb ns "R" then 1 else 0) /\
  relapse_count a'
  = relapse_count a
    + (if String.eqb (state a) "R" && String.eqb ns "S" then 1 else 0) /\
  time_in_I a' = time_in_I a + (if String.eqb ns "I" then 1 else 0) /\
  current_I_duration a'
  = (if String.eqb ns "I"
     then (if entering then 0 else current_I_duration a) + 1
     else current_I_duration a) /\
  unique_id a' = unique_id a /\
  archetype a' = archetype a.
Proof.
  intros Hns Hne. unfold advance. rewrite Hns, (truthy_Some ns Hne).
  destruct a as [id ar n t c i st nx ic rc lc ti cd]. cbn in Hns |- *. clear Hns.
  repeat (cbn;
          match goal with
          | |- context [String.eqb ?x ?y] =>
              is_var x; destruct (String.eqb_spec x y); subst;
              try congruence
          end).
  all: cbn; splits; try reflexivity; try lia.
Qed.

Lemma advance_bookkeeping_witness :
  let a' := fst (advance agent_staying 3) in
  state a' = "I" /\
  snd (advance agent_staying 3) = 3 + 0 /\
  time_in_I a' = 7 + 1 /\
  current_I_duration a' = 5 + 1.
Proof.
  pose proof (advance_bookkeeping agent_staying "I" 3 eq_refl) as H.
  assert (Hne : "I" <> EmptyString) by discriminate.
  specialize (H Hne). cbv zeta in H.
  destruct H as (H1 & _ & H3 & _ & _ & _ & H7 & H8 & _).
  cbv zeta. splits; [exact H1 | exact H3 | exact H7 | exact H8].
Defined.

(** C4 (as stated) fails: an agent that enters I from E has [time_in_I]
    incremented although it was not in I before, and ends the commit with
    [current_I_duration] 1 rather than 0. *)
Lemma advance_entering_I_counts_time :
  let a' := fst (advance agent_adopting 0) in
  state agent_adopting = "E" /\
  state a' = "I" /\
  time_in_I a' = time_in_I agent_adopting + 1 /\
  current_I_duration a' = 1 /\
  ~ (time_in_I a' = time_in_I agent_adopting + 1 <->
     state agent_adopting = "I" /\ state a' = "I").
Proof.
  cbv zeta. splits; try reflexivity.
  intros [H _]. specialize (H eq_refl). destruct H as [H _]. discriminate H.
Qed.

(** ** Assignment by position *)

Lemma length_list_set {A : Type} (l : list A) (i : nat) (x : A) :
  List.length (list_set l i x) = List.length l.
Proof.
  revert i. induction l as [|y l IH]; intros [|i]; simpl; auto.
Qed.

Lemma nth_error_list_set_eq {A : Type} (l : list A) (i : nat) (x y : A) :
  nth_error l i = Some y -> nth_error (list_set l i x) i = Some x.
Proof.
  revert i. induction l as [|z l IH]; intros [|i]; simpl; try discriminate; auto.
Qed.

Lemma nth_error_list_set_neq {A : Type} (l : list A) (i j : nat) (x : A) :
  i <> j -> nth_error (list_set l i x) j = nth_error l j.
Proof.
  revert i j. induction l as [|z l IH]; intros [|i] [|j] Hne; simpl; auto.
  congruence.
Qed.

Lemma list_set_same {A : Type} (l : list A) (i : nat) (x : A) :
  nth_error l i = Some x -> list_set l i x = l.
Proof.
  revert i. induction l as [|z l IH]; intros [|i]; simpl; try discriminate.
  - intros [= ->]. reflexivity.
  - intros H. now rewrite IH.
Qed.

Lemma Forall_nth_error {A : Type} (P : A -> Prop) (l : list A) :
  Forall P l <-> (forall i a, nth_error l i = Some a -> P a).
Proof.
  rewrite Forall_forall. split.
  - intros H i a Hi. apply H. eapply nth_error_In; eauto.
  - intros H a Hin. destruct (In_nth_error _ _ Hin) as [i Hi]. eauto.
Qed.

(** ** Loops over the agent collection *)

Lemma model_frame_refl (m : DisinformationModel) : model_frame m m.
Proof. unfold model_frame. splits; reflexivity. Qed.

Lemma model_frame_trans (m1 m2 m3 : DisinformationModel) :
  model_frame m1 m2 -> model_frame m2 m3 -> model_frame m1 m3.
Proof.
  unfold model_frame. intros H1 H2.
  destruct H1 as (?&?&?&?&?&?&?&?&?&?), H2 as (?&?&?&?&?&?&?&?&?&?).
  splits; congruence.
Qed.

Section Loops.

Variable body : DisinformationModel -> nat -> result DisinformationModel.
Variable R : DisinformationAgent -> DisinformationAgent -> Prop.

(** The body touches the agent at its position only, and relates the old
    and the new value of that agent by [R]. *)
Hypothesis body_local :
  forall m i m',
    body m i = Ok m' ->
    model_frame m m' /\
    exists a a',
      nth_error (agents m) i = Some a /\
      agents m' = list_set (agents m) i a' /\
      R a a'.

Lemma for_positions_pointwise (ps : list nat) :
  forall m m',
    NoDup ps ->
    for_positions body ps m = Ok m' ->
    model_frame m m' /\
    List.length (agents m') = List.length (agents m) /\
    forall i,
      (In i ps ->
       exists a a', nth_error (agents m) i = Some a /\
                    nth_error (agents m') i = Some a' /\ R a a') /\
      (~ In i ps -> nth_error (agents m') i = nth_error (agents m) i).
Proof.
  induction ps as [|p ps IH]; intros m m' Hnd Hrun; simpl in Hrun.
  - injection Hrun as <-. split; [apply model_frame_refl|].
    split; [reflexivity|]. intros i. split; [intros []| reflexivity].
  - inv_bind Hrun. rename x into m1.
    inversion Hnd as [|? ? Hnotin Hnd']; subst.
    destruct (body_local _ _ _ Hx) as (Hf1 & a & a1 & Ha & Hset & HR).
    destruct (IH _ _ Hnd' Hrun) as (Hf2 & Hlen & Hpt).
    split; [eapply model_frame_trans; eauto|].
    split; [rewrite Hlen, Hset; apply length_list_set|].
    intros i. split.
    + intros [<-|Hin].
      * exists a, a1. split; [exact Ha|]. split; [|exact HR].
        destruct (Hpt p) as [_ Hout]. rewrite (Hout Hnotin), Hset.
        eapply nth_error_list_set_eq; eauto.
      * destruct (Hpt i) as [Hin' _].
        destruct (Hin' Hin) as (b & b' & Hb & Hb' & HRb).
        exists b, b'. split; [|split; assumption].
        rewrite Hset in Hb. rewrite nth_error_list_set_neq in Hb;
          [exact Hb | intros ->; contradiction].
    + intros Hnot. destruct (Hpt i) as [_ Hout].
      rewrite Hout by (intros Hin; apply Hnot; now right).
      rewrite Hset. apply nth_error_list_set_neq.
      intros ->. apply Hnot. now left.
Qed.

Lemma for_each_agent_pointwise (m m' : DisinformationModel) :
  for_each_agent body m = Ok m' ->
  model_frame m m' /\
  List.length (agents m') = List.length (agents m) /\
  forall i a,
    nth_error (agents m) i = Some a ->
    exists a', nth_error (agents m') i = Some a' /\ R a a'.
Proof.
  unfold for_each_agent. intros Hrun.
  destruct (for_positions_pointwise _ _ _ (seq_NoDup _ _) Hrun)
    as (Hf & Hlen & Hpt).
  split; [exact Hf|]. split; [exact Hlen|].
  intros i a Ha. destruct (Hpt i) as [Hin _].
  destruct Hin as (b & b' & Hb & Hb' & HR).
  - apply in_seq. split; [lia|]. simpl.
    apply nth_error_Some. congruence.
  - exists b'. split; [exact Hb'|]. congruence.
Qed.

End Loops.

Section LoopTotality.

Variable body : DisinformationModel -> nat -> result DisinformationModel.
Variable Inv : DisinformationModel -> Prop.

Hypothesis body_total :
  forall m i,
    Inv m -> (i < List.length (agents m))%nat ->
    exists m', body m i = Ok m' /\ Inv m' /\
               List.length (agents m') = List.length (agents m).

Lemma for_positions_total (ps : list nat) :
  forall m,
    Inv m ->
    Forall (fun i => (i < List.length (agents m))%nat) ps ->
    exists m', for_positions body ps m = Ok m' /\ Inv m'.
Proof.
  induction ps as [|p ps IH]; intros m Hinv Hps; simpl.
  - eauto.
  - inversion Hps as [|? ? Hp Hps']; subst.
    destruct (body_total m p Hinv Hp) as (m1 & Hb & Hinv1 & Hlen).
    rewrite Hb. simpl. apply IH; [exact Hinv1|].
    rewrite Hlen. exact Hps'.
Qed.

Lemma for_each_agent_total (m : DisinformationModel) :
  Inv m -> exists m', for_each_agent body m = Ok m' /\ Inv m'.
Proof.
  intros Hinv. apply for_positions_total; [exact Hinv|].
  apply Forall_forall. intros i Hi. apply in_seq in Hi. lia.
Qed.

End LoopTotality.

(** ** The two phases of a step, agent by agent *)

Lemma set_next_state_same (a : DisinformationAgent) :
  set_next_state a (next_state a) = a.
Proof. destruct a; reflexivity. Qed.

Lemma check_exposure_valid m a s g :
  _check_exposure m a = Ok (s, g) -> s = "S" \/ s = "E".
Proof.
  unfold _check_exposure. intros H. inv_bind H.
  destruct x as [|n0 ns0]; [injection H as <- _; auto|].
  destruct (rng_random (random m)) as [u g'].
  destruct (Qltb u _); injection H as <- _; auto.
Qed.

Lemma check_adoption_valid m a :
  fst (_check_adoption m a) = "I" \/ fst (_check_adoption m a) = "E".
Proof.
  unfold _check_adoption. destruct (rng_random (random m)) as [u g'].
  destruct (Qltb u _); simpl; auto.
Qed.

Lemma check_correction_valid m a :
  fst (_check_correction m a) = "R" \/ fst (_check_correction m a) = "I".
Proof.
  unfold _check_correction. destruct (rng_random (random m)) as [u g'].
  destruct (Qltb u _); simpl; auto.
Qed.

Lemma check_relapse_valid m a :
  fst (_check_relapse m a) = "S" \/ fst (_check_relapse m a) = "R".
Proof.
  unfold _check_relapse. destruct (rng_random (random m)) as [u g'].
  destruct (Qltb u _); simpl; auto.
Qed.

Lemma model_frame_set_agents_random m l g :
  model_frame m (set_random (set_agents m l) g).
Proof. unfold model_frame. splits; reflexivity. Qed.

Lemma model_frame_set_agents_cumulative m l c :
  model_frame m (set_cumulative_infected (set_agents m l) c).
Proof. unfold model_frame. splits; reflexivity. Qed.

(** The compute phase writes a valid candidate, or nothing at all. *)
Lemma agent_step_local (m : DisinformationModel) (i : nat) (m' : DisinformationModel) :
  agent_step m i = Ok m' ->
  model_frame m m' /\
  exists a a',
    nth_error (agents m) i = Some a /\
    agents m' = list_set (agents m) i a' /\
    (exists ns, (ns = next_state a \/ exists s, valid_state s /\ ns = Some s) /\
                a' = set_next_state a ns).
Proof.
  unfold agent_step. destruct (nth_error (agents m) i) as [a|] eqn:Ha;
    [|discriminate].
  assert (Hdone : forall s g,
             valid_state s ->
             let m1 := set_random
                         (set_agents m
                            (list_set (agents m) i (set_next_state a (Some s)))) g in
             model_frame m m1 /\
             exists a0 a',
               Some a = Some a0 /\
               agents m1 = list_set (agents m) i a' /\
               (exists ns, (ns = next_state a0 \/
                            exists s0, valid_state s0 /\ ns = Some s0) /\
                           a' = set_next_state a0 ns)).
  { intros s g Hs. cbv zeta. split; [apply model_frame_set_agents_random|].
    exists a, (set_next_state a (Some s)). splits; try reflexivity.
    exists (Some s). split; [right; eauto | reflexivity]. }
  unfold valid_state in Hdone.
  destruct (String.eqb (state a) "S").
  { intros H. inv_bind H. destruct x as [s g]. injection H as <-.
    apply Hdone. destruct (check_exposure_valid _ _ _ _ Hx); auto. }
  destruct (String.eqb (state a) "E").
  { intros [= <-]. pose proof (check_adoption_valid m a) as Hv.
    destruct (_check_adoption m a) as [s g]. apply Hdone. simpl in Hv. tauto. }
  destruct (String.eqb (state a) "I").
  { intros [= <-]. pose proof (check_correction_valid m a) as Hv.
    destruct (_check_correction m a) as [s g]. apply Hdone. simpl in Hv. tauto. }
  destruct (String.eqb (state a) "R").
  { intros [= <-]. pose proof (check_relapse_valid m a) as Hv.
    destruct (_check_relapse m a) as [s g]. apply Hdone. simpl in Hv. tauto. }
  intros [= <-]. split; [apply model_frame_refl|].
  exists a, a. splits; try reflexivity.
  - symmetry. now apply list_set_same.
  - exists (next_state a). split; [now left|]. symmetry.
    apply set_next_state_same.
Qed.

(** The commit phase applies [advance] to the agent at its position. *)
Lemma agent_advance_local (m : DisinformationModel) (i : nat) (m' : DisinformationModel) :
  agent_advance m i = Ok m' ->
  model_frame m m' /\
  exists a a',
    nth_error (agents m) i = Some a /\
    agents m' = list_set (agents m) i a' /\
    (exists c, a' = fst (advance a c)).
Proof.
  unfold agent_advance. destruct (nth_error (agents m) i) as [a|] eqn:Ha;
    [|discriminate].
  destruct (advance a (cumulative_infected m)) as [a' c] eqn:Hadv.
  intros [= <-]. split; [apply model_frame_set_agents_cumulative|].
  exists a, a'. splits; try reflexivity.
  exists (cumulative_infected m). now rewrite Hadv.
Qed.

Lemma step_inv (m m' : DisinformationModel) :
  step m = Ok m' ->
  exists m1 m2,
    for_each_agent agent_step m = Ok m1 /\
    for_each_agent agent_advance m1 = Ok m2 /\
    m' = set_current_step (collect m2) (current_step (collect m2) + 1).
Proof.
  unfold step. intros H. inv_bind H. rename x into m1, Hx into H1.
  inv_bind H. rename x into m2, Hx into H2.
  injection H as <-. eauto.
Qed.

(** One step, seen from one agent. *)
Lemma step_pointwise (m m' : DisinformationModel) :
  step m = Ok m' ->
  List.length (agents m') = List.length (agents m) /\
  G m' = G m /\ population m' = population m /\
  forall i a,
    nth_error (agents m) i = Some a ->
    exists a', nth_error (agents m') i = Some a' /\ stepped a a'.
Proof.
  intros H. destruct (step_inv _ _ H) as (m1 & m2 & H1 & H2 & ->).
  destruct (for_each_agent_pointwise _ _ agent_step_local _ _ H1)
    as (Hf1 & Hl1 & Hp1).
  destruct (for_each_agent_pointwise _ _ agent_advance_local _ _ H2)
    as (Hf2 & Hl2 & Hp2).
  destruct Hf1 as (_&Hpop1&_&_&_&_&_&_&HG1&_).
  destruct Hf2 as (_&Hpop2&_&_&_&_&_&_&HG2&_).
  cbn. splits; try congruence.
  intros i a Ha.
  destruct (Hp1 i a Ha) as (a1 & Ha1 & ns & Hns & ->).
  destruct (Hp2 i _ Ha1) as (a2 & Ha2 & c & ->).
  eexists. split; [exact Ha2|]. exists ns, c. split; [exact Hns | reflexivity].
Qed.

Lemma advance_state_cases (a : DisinformationAgent) (c : Z) :
  (truthy (next_state a) = None /\ advance a c = (a, c)) \/
  (exists ns, next_state a = Some ns /\ ns <> EmptyString /\
              state (fst (advance a c)) = ns).
Proof.
  destruct (next_state a) as [ns|] eqn:Hns.
  - destruct (String.eqb_spec ns EmptyString) as [->|Hne].
    + left. unfold advance. rewrite Hns. simpl. auto.
    + right. exists ns. splits; auto.
      now destruct (advance_commit a ns c Hns Hne) as [H _].
  - left. unfold advance. rewrite Hns. simpl. auto.
Qed.

(** What [advance] does to the infection counters, pending candidate or
    not: they move by one exactly when the agent enters I. *)
Lemma advance_enters (a : DisinformationAgent) (c : Z) :
  let a' := fst (advance a c) in
  infection_count a' = infection_count a + (if enters_I a a' then 1 else 0) /\
  snd (advance a c) = c + (if enters_I a a' then 1 else 0) /\
  unique_id a' = unique_id a /\ archetype a' = archetype a.
Proof.
  cbv zeta. unfold enters_I.
  destruct (advance_state_cases a c) as [[_ ->]|(ns & Hns & Hne & Hst)].
  - simpl. destruct (String.eqb (state a) "I"); simpl; splits;
      try reflexivity; lia.
  - destruct (advance_commit a ns c Hns Hne)
      as (H1 & _ & H3 & H4 & H9 & H10).
    rewrite H1. splits; assumption.
Qed.

Lemma stepped_facts (a a' : DisinformationAgent) :
  stepped a a' ->
  infection_count a' = infection_count a + (if enters_I a a' then 1 else 0) /\
  unique_id a' = unique_id a /\ archetype a' = archetype a /\
  (agent_ok a -> agent_ok a' /\ next_state a' = None).
Proof.
  intros (ns & c & Hns & ->).
  pose proof (advance_enters (set_next_state a ns) c) as H. cbv zeta in H.
  destruct H as (H1 & _ & H3 & H4).
  assert (Hst : state (set_next_state a ns) = state a) by (destruct a; reflexivity).
  unfold enters_I in *. rewrite Hst in H1.
  splits.
  - rewrite H1. destruct a; reflexivity.
  - rewrite H3. destruct a; reflexivity.
  - rewrite H4. destruct a; reflexivity.
  - intros [Hv Hn].
    assert (Hns' : forall s, ns = Some s -> valid_state s).
    { destruct Hns as [->|(s0 & Hs0 & ->)]; [exact Hn|].
      intros s [= <-]. exact Hs0. }
    destruct (advance_state_cases (set_next_state a ns) c)
      as [[Ht ->]|(s & Hs & Hne & Hstate)].
    + simpl. assert (Hnone : ns = None).
      { destruct ns as [s|]; [|reflexivity].
        assert (Hnx : next_state (set_next_state a (Some s)) = Some s)
          by (destruct a; reflexivity).
        rewrite Hnx in Ht. rewrite (valid_state_truthy s) in Ht;
          [discriminate | auto]. }
      subst ns. split; [|destruct a; reflexivity].
      split; [rewrite Hst; exact Hv|]. destruct a; simpl. discriminate.
    + assert (Hnx : next_state (set_next_state a ns) = ns)
        by (destruct a; reflexivity).
      rewrite Hnx in Hs. subst ns.
      destruct (advance_commit _ s c Hnx Hne) as (G1 & G2 & _).
      split; [|exact G2]. split; [rewrite G1; auto|].
      rewrite G2. discriminate.
Qed.

(** ** Counting states *)

Lemma count_states_total (l : list DisinformationAgent) :
  Forall (fun a => valid_state (state a)) l ->
  Zsum (map (fun _ => 1) (filter (fun a => String.eqb (state a) "S") l))
  + Zsum (map (fun _ => 1) (filter (fun a => String.eqb (state a) "E") l))
  + Zsum (map (fun _ => 1) (filter (fun a => String.eqb (state a) "I") l))
  + Zsum (map (fun _ => 1) (filter (fun a => String.eqb (state a) "R") l))
  = Z.of_nat (List.length l).
Proof.
  rewrite !Zsum_ones.
  induction 1 as [|a l Ha _ IH]; [reflexivity|].
  cbn [filter]. destruct Ha as [->|[->|[->| ->]]]; cbn [String.eqb Ascii.eqb Bool.eqb andb];
    cbn [List.length]; lia.
Qed.

Lemma collect_row (m : DisinformationModel) :
  Forall agent_ok (agents m) ->
  exists r,
    datacollector (collect m) = (datacollector m ++ [r])%list /\
    row_total r = Z.of_nat (List.length (agents m)) /\
    Cumulative_Infected r = cumulative_infected m /\
    agents (collect m) = agents m /\
    cumulative_infected (collect m) = cumulative_infected m /\
    model_frame m (set_datacollector (collect m) (datacollector m)).
Proof.
  intros Hok. eexists. split; [reflexivity|].
  splits; try reflexivity.
  - unfold row_total. cbn. unfold _count_state. apply count_states_total.
    eapply Forall_impl; [|exact Hok]. intros a [H _]. exact H.
  - unfold model_frame. cbn. splits; reflexivity.
Qed.

Lemma model_ok_collect (m : DisinformationModel) :
  Forall agent_ok (agents m) ->
  Forall (fun r => row_total r = Z.of_nat (List.length (agents m)))
         (datacollector m) ->
  model_ok (collect m).
Proof.
  intros Hok Hrows. destruct (collect_row m Hok) as (r & Hd & Ht & Hc & Ha & Hcum & _).
  unfold model_ok. rewrite Ha, Hd, Hcum. splits.
  - exact Hok.
  - apply Forall_app. split; [exact Hrows | constructor; [exact Ht | constructor]].
  - eauto.
Qed.

(** ** One step preserves the invariant *)

Lemma step_agents_ok (m m' : DisinformationModel) :
  step m = Ok m' ->
  Forall agent_ok (agents m) ->
  Forall agent_ok (agents m') /\
  Forall (fun a => next_state a = None) (agents m').
Proof.
  intros Hstep Hok.
  destruct (step_pointwise _ _ Hstep) as (Hlen & _ & _ & Hpt).
  rewrite Forall_nth_error in Hok.
  split; apply Forall_nth_error; intros i a' Ha'.
  all: destruct (nth_error (agents m) i) as [a|] eqn:Ha;
    [| apply nth_error_None in Ha;
       assert (i < List.length (agents m'))%nat
         by (apply nth_error_Some; congruence); lia ].
  all: destruct (Hpt i a Ha) as (a2 & Ha2 & Hs);
    rewrite Ha' in Ha2; injection Ha2 as <-;
    destruct (stepped_facts _ _ Hs) as (_ & _ & _ & Hk);
    destruct (Hk (Hok i a Ha)); assumption.
Qed.

Lemma step_rows (m m' : DisinformationModel) :
  step m = Ok m' ->
  Forall agent_ok (agents m) ->
  exists r,
    datacollector m' = (datacollector m ++ [r])%list /\
    row_total r = Z.of_nat (List.length (agents m')) /\
    Cumulative_Infected r = cumulative_infected m' /\
    current_step m' = current_step m + 1.
Proof.
  intros Hstep Hok.
  destruct (step_agents_ok _ _ Hstep Hok) as [Hok' _].
  destruct (step_inv _ _ Hstep) as (m1 & m2 & H1 & H2 & ->).
  destruct (for_each_agent_pointwise _ _ agent_step_local _ _ H1)
    as (Hf1 & _ & _).
  destruct (for_each_agent_pointwise _ _ agent_advance_local _ _ H2)
    as (Hf2 & _ & _).
  destruct Hf1 as (_&_&_&_&_&_&_&Hs1&_&Hd1).
  destruct Hf2 as (_&_&_&_&_&_&_&Hs2&_&Hd2).
  cbn in Hok'.
  destruct (collect_row m2 Hok') as (r & Hd & Ht & Hc & Ha & Hcum & _).
  exists r. cbn. splits.
  - cbn in Hd. rewrite <- Hd1, <- Hd2. exact Hd.
  - exact Ht.
  - exact Hc.
  - rewrite Hs2, Hs1. reflexivity.
Qed.

Lemma step_model_ok (m m' : DisinformationModel) :
  step m = Ok m' -> model_ok m -> model_ok m'.
Proof.
  intros Hstep (Hok & Hrows & _).
  destruct (step_agents_ok _ _ Hstep Hok) as [Hok' _].
  destruct (step_rows _ _ Hstep Hok) as (r & Hd & Ht & Hc & _).
  destruct (step_pointwise _ _ Hstep) as (Hlen & _).
  unfold model_ok. rewrite Hd, Hlen in *. splits.
  - exact Hok'.
  - apply Forall_app. split; [exact Hrows | constructor; [exact Ht | constructor]].
  - eauto.
Qed.

Lemma steps_model_ok (k : nat) :
  forall m m', steps k m = Ok m' -> model_ok m -> model_ok m'.
Proof.
  induction k as [|k IH]; intros m m' H Hok; simpl in H.
  - now injection H as <-.
  - inv_bind H. eauto using step_model_ok.
Qed.

Lemma run_loop_model_ok (budget : nat) :
  forall m m', run_loop budget m = Ok m' -> model_ok m -> model_ok m'.
Proof.
  induction budget as [|b IH]; intros m m' H Hok; simpl in H.
  - now injection H as <-.
  - inv_bind H. pose proof (step_model_ok _ _ Hx Hok) as Hok1.
    destruct (_epidemic_ended x); [injection H as <-; exact Hok1 | eauto].
Qed.

(** ** A step never fails when every agent is a node of the graph *)

Lemma Forall_list_set {A : Type} (P : A -> Prop) (l : list A) (i : nat) (x : A) :
  Forall P l -> P x -> Forall P (list_set l i x).
Proof.
  intros Hl Hx. revert i. induction Hl as [|y l Hy Hl IH]; intros [|i]; simpl;
    constructor; auto.
Qed.

Lemma agent_step_total (m : DisinformationModel) (i : nat) :
  graph_covers m -> (i < List.length (agents m))%nat ->
  exists m', agent_step m i = Ok m' /\ graph_covers m' /\
             List.length (agents m') = List.length (agents m).
Proof.
  intros Hcov Hi. unfold agent_step.
  destruct (nth_error (agents m) i) as [a|] eqn:Ha;
    [| apply nth_error_None in Ha; lia].
  assert (Hida : (unique_id a < List.length (G m))%nat).
  { unfold graph_covers in Hcov. rewrite Forall_nth_error in Hcov. eauto. }
  assert (Hdone : forall sg : string * Rng,
             let m1 := (let '(s, g) := sg in
                        set_random
                          (set_agents m
                             (list_set (agents m) i (set_next_state a (Some s)))) g) in
             graph_covers m1 /\
             List.length (agents m1) = List.length (agents m)).
  { intros [s g]. cbv zeta. split.
    - unfold graph_covers. cbn. apply Forall_list_set; [exact Hcov|].
      destruct a; exact Hida.
    - cbn. apply length_list_set. }
  destruct (String.eqb (state a) "S").
  { unfold _check_exposure, _get_infected_neighbors, G_neighbors.
    destruct (nth_error (G m) (unique_id a)) as [ns|] eqn:Hn;
      [| apply nth_error_None in Hn; lia].
    cbn [bind].
    match goal with
    | |- context [match ?l with [] => _ | _ :: _ => _ end] => destruct l
    end.
    - eexists. split; [reflexivity|]. apply (Hdone ("S", random m)).
    - destruct (rng_random (random m)) as [u g].
      destruct (Qltb u _); eexists; (split; [reflexivity|]);
        [apply (Hdone ("E", g)) | apply (Hdone ("S", g))]. }
  destruct (String.eqb (state a) "E").
  { eexists. split; [reflexivity|]. apply Hdone. }
  destruct (String.eqb (state a) "I").
  { eexists. split; [reflexivity|]. apply Hdone. }
  destruct (String.eqb (state a) "R").
  { eexists. split; [reflexivity|]. apply Hdone. }
  eexists. split; [reflexivity|]. split; [exact Hcov | reflexivity].
Qed.

Lemma agent_advance_total (m : DisinformationModel) (i : nat) :
  graph_covers m -> (i < List.length (agents m))%nat ->
  exists m', agent_advance m i = Ok m' /\ graph_covers m' /\
             List.length (agents m') = List.length (agents m).
Proof.
  intros Hcov Hi. unfold agent_advance.
  destruct (nth_error (agents m) i) as [a|] eqn:Ha;
    [| apply nth_error_None in Ha; lia].
  assert (Hida : (unique_id a < List.length (G m))%nat).
  { unfold graph_covers in Hcov. rewrite Forall_nth_error in Hcov. eauto. }
  pose proof (advance_enters a (cumulative_infected m)) as H. cbv zeta in H.
  destruct H as (_ & _ & Hid & _).
  destruct (advance a (cumulative_infected m)) as [a' c].
  eexists. split; [reflexivity|]. split.
  - unfold graph_covers. cbn. apply Forall_list_set; [exact Hcov|].
    simpl in Hid. rewrite Hid. exact Hida.
  - cbn. apply length_list_set.
Qed.

Lemma step_total (m : DisinformationModel) :
  graph_covers m -> exists m', step m = Ok m' /\ graph_covers m'.
Proof.
  intros Hcov. unfold step.
  destruct (for_each_agent_total _ _ agent_step_total m Hcov) as (m1 & H1 & Hc1).
  destruct (for_each_agent_total _ _ agent_advance_total m1 Hc1) as (m2 & H2 & Hc2).
  rewrite H1. cbn [bind]. rewrite H2. cbn [bind].
  eexists. split; [reflexivity|]. exact Hc2.
Qed.

(** ** run *)

Lemma step_counter (m m' : DisinformationModel) :
  step m = Ok m' ->
  current_step m' = current_step m + 1 /\
  List.length (datacollector m') = Datatypes.S (List.length (datacollector m)).
Proof.
  intros Hstep. destruct (step_inv _ _ Hstep) as (m1 & m2 & H1 & H2 & ->).
  destruct (for_each_agent_pointwise _ _ agent_step_local _ _ H1)
    as (Hf1 & _ & _).
  destruct (for_each_agent_pointwise _ _ agent_advance_local _ _ H2)
    as (Hf2 & _ & _).
  destruct Hf1 as (_&_&_&_&_&_&_&Hs1&_&Hd1).
  destruct Hf2 as (_&_&_&_&_&_&_&Hs2&_&Hd2).
  cbn. rewrite Hs2, Hs1, Hd2, Hd1. split; [reflexivity|].
  rewrite length_app. simpl. lia.
Qed.

Lemma run_loop_spec (budget : nat) :
  forall m,
    graph_covers m ->
    exists k m',
      run_loop budget m = Ok m' /\
      steps k m = Ok m' /\
      (k <= budget)%nat /\
      ((0 < budget)%nat -> (0 < k)%nat) /\
      (forall j mj, (0 < j < k)%nat -> steps j m = Ok mj ->
                    _epidemic_ended mj = false) /\
      ((k < budget)%nat -> _epidemic_ended m' = true) /\
      current_step m' = current_step m + Z.of_nat k /\
      List.length (datacollector m') = (List.length (datacollector m) + k)%nat.
Proof.
  induction budget as [|b IH]; intros m Hcov.
  - exists 0%nat, m. simpl. splits; try reflexivity; intros; lia.
  - destruct (step_total m Hcov) as (m1 & Hstep & Hcov1).
    destruct (step_counter _ _ Hstep) as [Hcs Hdc].
    simpl. rewrite Hstep. cbn [bind].
    destruct (_epidemic_ended m1) eqn:Hend.
    + exists 1%nat, m1. simpl. rewrite Hstep. cbn [bind].
      splits; try reflexivity; try (intros; exact Hend);
        intros; lia.
    + destruct (IH m1 Hcov1) as (k & m' & Hrun & Hsteps & Hk & Hpos & Hbefore & Hstop & Hc & Hd).
      exists (Datatypes.S k), m'. simpl. rewrite Hstep. cbn [bind].
      splits; try assumption; try lia.
      * intros j mj Hj Hsj. destruct j as [|j]; [lia|].
        simpl in Hsj. rewrite Hstep in Hsj. cbn [bind] in Hsj.
        destruct j as [|j].
        -- simpl in Hsj. injection Hsj as <-. exact Hend.
        -- apply (Hbefore (Datatypes.S j) mj); [lia | exact Hsj].
      * intros Hlt. apply Hstop. lia.
Qed.



(** ** Construction *)

Lemma init_inv (c : Config) (m : DisinformationModel) :
  DisinformationModel_init c = Ok m ->
  validate_archetype_distribution (cfg_archetype_dist c) = true /\
  exists nar m1 seeds g,
    make_Narrative (cfg_baseline_transmission c) (cfg_emotional_intensity c)
      (cfg_identity_weight c) (cfg_initial_seeding c) = Ok nar /\
    1 <= cfg_m_edges c < cfg_population c /\
    _create_agents
      (mkModel nar (cfg_population c) (cfg_m_edges c) (cfg_seeding_strategy c)
         (cfg_sigma_base c) (cfg_gamma_base c) (cfg_omega_base c) 0 0
         (cfg_network c) [] (cfg_random c) [])
      (cfg_archetype_dist c) = Ok m1 /\
    select_seed_agents m1 = Ok (seeds, g) /\
    m = collect (mark_seeds seeds (set_random m1 g)).
Proof.
  unfold DisinformationModel_init.
  destruct (validate_archetype_distribution (cfg_archetype_dist c));
    [|discriminate]. cbn [negb].
  intros H. split; [reflexivity|].
  inv_bind H. rename x into nar, Hx into Hnar.
  inv_bind H. rename x into graph, Hx into Hgraph.
  inv_bind H. rename x into m1, Hx into Hm1.
  inv_bind H. rename x into m2, Hx into Hm2.
  injection H as <-.
  unfold _create_network in Hgraph.
  destruct (Z.ltb_spec (cfg_m_edges c) 1); [discriminate|].
  destruct (Z.leb_spec (cfg_population c) (cfg_m_edges c)); [discriminate|].
  cbn [orb] in Hgraph. injection Hgraph as <-.
  unfold _seed_initial_infections in Hm2. inv_bind Hm2.
  destruct x as [seeds g]. injection Hm2 as <-.
  exists nar, m1, seeds, g. splits; try assumption; try lia.
  reflexivity.
Qed.

Lemma make_Narrative_inv (b e i p : Q) (nar : Narrative) :
  make_Narrative b e i p = Ok nar ->
  nar = mkNarrative b e i p /\ (0 <= p <= 1)%Q.
Proof.
  unfold make_Narrative, in_unit.
  destruct (Qle_bool 0 b && Qle_bool b 1); [|discriminate].
  destruct (Qle_bool 0 e && Qle_bool e 1); [|discriminate].
  destruct (Qle_bool 0 i && Qle_bool i 1); [|discriminate].
  destruct (Qle_bool 0 p) eqn:H0; [|discriminate].
  destruct (Qle_bool p 1) eqn:H1; [|discriminate].
  cbn. intros [= <-]. split; [reflexivity|].
  split; apply Qle_bool_iff; assumption.
Qed.

Lemma new_agent_pristine (id : nat) (name : string) (p : ArchetypeParams) :
  pristine (new_agent id name p) /\ unique_id (new_agent id name p) = id.
Proof. unfold pristine, fresh_counters. cbn. splits; reflexivity. Qed.

Lemma ids_are_positions_snoc (l : list DisinformationAgent) (a : DisinformationAgent) :
  ids_are_positions l -> unique_id a = List.length l ->
  ids_are_positions (l ++ [a]).
Proof.
  intros Hl Ha i b Hi.
  destruct (Nat.lt_ge_cases i (List.length l)) as [Hlt|Hge].
  - rewrite nth_error_app1 in Hi by exact Hlt. eauto.
  - rewrite nth_error_app2 in Hi by exact Hge.
    destruct (i - List.length l)%nat as [|n] eqn:Hd.
    + simpl in Hi. injection Hi as <-. lia.
    + simpl in Hi. destruct n; discriminate.
Qed.

Lemma create_agents_of_spec (name : string) (p : ArchetypeParams) (count : nat) :
  forall agent_id acc,
    agent_id = List.length acc ->
    Forall pristine acc ->
    ids_are_positions acc ->
    let r := create_agents_of name p count agent_id acc in
    snd r = List.length (fst r) /\
    List.length (fst r) = (List.length acc + count)%nat /\
    Forall pristine (fst r) /\
    ids_are_positions (fst r).
Proof.
  induction count as [|n IH]; intros agent_id acc Hid Hp Hids; cbn zeta.
  - simpl. splits; try assumption; lia.
  - simpl.
    destruct (new_agent_pristine agent_id name p) as [Hnew Hnid].
    specialize (IH (Datatypes.S agent_id) (acc ++ [new_agent agent_id name p])%list).
    cbv zeta in IH. rewrite length_app in IH. simpl in IH.
    destruct IH as (H1 & H2 & H3 & H4).
    + lia.
    + apply Forall_app. split; [exact Hp | constructor; [exact Hnew | constructor]].
    + apply ids_are_positions_snoc; [exact Hids | congruence].
    + splits; try assumption. lia.
Qed.

Lemma create_agents_loop_spec (counts : list (string * Z)) :
  forall agent_id acc l,
    create_agents_loop counts agent_id acc = Ok l ->
    agent_id = List.length acc ->
    Forall pristine acc ->
    ids_are_positions acc ->
    List.length l = (List.length acc + agents_made counts)%nat /\
    Forall pristine l /\
    ids_are_positions l.
Proof.
  induction counts as [|[name count] counts IH]; intros agent_id acc l H Hid Hp Hids.
  - simpl in H. injection H as <-. simpl. splits; try assumption; lia.
  - simpl in H. inv_bind H. rename x into params.
    pose proof (create_agents_of_spec name params (Z.to_nat count)
                  agent_id acc Hid Hp Hids) as Hs. cbv zeta in Hs.
    destruct (create_agents_of name params (Z.to_nat count) agent_id acc)
      as [acc' id']. simpl in Hs. destruct Hs as (H1 & H2 & H3 & H4).
    destruct (IH _ _ _ H H1 H3 H4) as (G1 & G2 & G3).
    splits; try assumption.
    rewrite G1, H2. simpl. lia.
Qed.

Lemma create_agents_spec (m m1 : DisinformationModel) (dist : list (string * Q)) :
  _create_agents m dist = Ok m1 ->
  agents m = [] ->
  exists counts,
    get_archetype_counts (population m) dist = Ok counts /\
    List.length (agents m1) = agents_made counts /\
    Forall pristine (agents m1) /\
    ids_are_positions (agents m1) /\
    m1 = set_agents m (agents m1).
Proof.
  unfold _create_agents. intros H Hnil. inv_bind H. rename x into counts.
  inv_bind H. rename x into l. injection H as <-.
  rewrite Hnil in Hx0.
  destruct (create_agents_loop_spec counts 0%nat [] l Hx0 eq_refl)
    as (G1 & G2 & G3).
  - constructor.
  - intros i a Hi. destruct i; discriminate.
  - exists counts. cbn. splits; try assumption; reflexivity.
Qed.

Lemma dict_iadd_Ok_sum (d d' : list (string * Z)) (k : string) (delta : Z) :
  dict_iadd d k delta = Ok d' -> Zsum (values d') = Zsum (values d) + delta.
Proof.
  revert d'. induction d as [|[k' v] d IH]; simpl; intros d' H; [discriminate|].
  destruct (String.eqb k' k).
  - injection H as <-. simpl. lia.
  - inv_bind H. injection H as <-. simpl. rewrite (IH _ Hx). lia.
Qed.

(** Whenever [get_archetype_counts] returns, its counts sum to the
    population. *)
Lemma get_archetype_counts_sum (n : Z) (d : list (string * Q))
  (counts : list (string * Z)) :
  get_archetype_counts n d = Ok counts -> Zsum (values counts) = n.
Proof.
  unfold get_archetype_counts.
  destruct (Z.ltb_spec (Zsum (values (map (fun '(a, p) =>
              (a, py_int (inject_Z n * p)%Q)) d))) n) as [Hlt|Hge].
  - intros H. rewrite (dict_iadd_Ok_sum _ _ _ _ H). lia.
  - destruct (Z.gtb_spec (Zsum (values (map (fun '(a, p) =>
              (a, py_int (inject_Z n * p)%Q)) d))) n) as [Hgt|Hle].
    + intros H. rewrite (dict_iadd_Ok_sum _ _ _ _ H). lia.
    + intros [= <-]. lia.
Qed.

Lemma agents_made_nonneg (counts : list (string * Z)) :
  Forall (fun e => 0 <= snd e) counts ->
  Z.of_nat (agents_made counts) = Zsum (values counts).
Proof.
  induction 1 as [|e l He _ IH]; [reflexivity|].
  simpl. rewrite Nat2Z.inj_add, IH. lia.
Qed.


(** ** Seeding *)

Lemma set_state_idem (a : DisinformationAgent) (s : string) :
  set_state (set_state a s) s = set_state a s.
Proof. destruct a; reflexivity. Qed.

Lemma mark_seeds_spec (seeds : list nat) :
  forall m,
    let m' := mark_seeds seeds m in
    model_frame m m' /\
    random m' = random m /\
    cumulative_infected m'
    = cumulative_infected m + Z.of_nat (List.length seeds) /\
    List.length (agents m') = List.length (agents m) /\
    forall i a,
      nth_error (agents m) i = Some a ->
      nth_error (agents m') i
      = Some (if is_seed seeds i then set_state a "I" else a).
Proof.
  induction seeds as [|p rest IH]; intros m; cbv zeta.
  - simpl. split; [apply model_frame_refl|].
    splits; try reflexivity; try lia. intros i a Ha. exact Ha.
  - cbn [mark_seeds].
    set (l := match nth_error (agents m) p with
              | Some a => list_set (agents m) p (set_state a "I")
              | None => agents m
              end).
    set (m1 := set_cumulative_infected (set_agents m l)
                 (cumulative_infected m + 1)).
    specialize (IH m1). cbv zeta in IH.
    destruct IH as (Hf & Hr & Hc & Hl & Hpt).
    assert (Hlen : List.length l = List.length (agents m)).
    { unfold l. destruct (nth_error (agents m) p);
        [apply length_list_set | reflexivity]. }
    assert (Hl1 : forall i a, nth_error (agents m) i = Some a ->
                  nth_error l i
                  = Some (if Nat.eqb i p then set_state a "I" else a)).
    { intros i a Ha. unfold l. destruct (Nat.eqb_spec i p) as [->|Hne].
      - rewrite Ha. eapply nth_error_list_set_eq; eauto.
      - destruct (nth_error (agents m) p); [|exact Ha].
        rewrite nth_error_list_set_neq by congruence. exact Ha. }
    split; [|splits].
    + eapply model_frame_trans; [|exact Hf].
      apply model_frame_set_agents_cumulative.
    + rewrite Hr. reflexivity.
    + rewrite Hc. cbn [List.length]. subst m1. cbn. lia.
    + rewrite Hl. subst m1. cbn. exact Hlen.
    + intros i a Ha. rewrite (Hpt i _ (Hl1 i a Ha)).
      unfold is_seed. cbn [existsb]. fold (is_seed rest i).
      destruct (Nat.eqb i p), (is_seed rest i); cbn [orb]; reflexivity.
Qed.

Lemma nodupb_NoDup (l : list nat) : nodupb l = true -> NoDup l.
Proof.
  induction l as [|x l IH]; simpl; intros H; [constructor|].
  apply andb_true_iff in H. destruct H as [Hx Hl].
  constructor; [|auto]. intros Hin.
  apply negb_true_iff in Hx.
  assert (Hex : existsb (Nat.eqb x) l = true).
  { apply existsb_exists. exists x. split; [exact Hin | apply Nat.eqb_refl]. }
  congruence.
Qed.

(** Every oracle honours the contract of [random.sample]: [k] distinct
    positions below [n]. *)
Lemma rng_choose_spec (g : Rng) (n k : nat) :
  (k <= n)%nat ->
  let idx := fst (rng_choose g n k) in
  List.length idx = k /\ NoDup idx /\ Forall (fun i => (i < n)%nat) idx.
Proof.
  intros Hk. unfold rng_choose. cbn [fst].
  destruct (valid_pick n k (hd [] (picks g))) eqn:Hv.
  - unfold valid_pick in Hv.
    apply andb_true_iff in Hv. destruct Hv as [Hv H3].
    apply andb_true_iff in Hv. destruct Hv as [H1 H2].
    splits.
    + now apply Nat.eqb_eq.
    + now apply nodupb_NoDup.
    + apply Forall_forall. intros i Hi.
      rewrite forallb_forall in H3. specialize (H3 i Hi).
      now apply Nat.ltb_lt.
  - splits.
    + apply length_seq.
    + apply seq_NoDup.
    + apply Forall_forall. intros i Hi. apply in_seq in Hi. lia.
Qed.

Lemma map_nth_seq (idx : list nat) (n : nat) :
  Forall (fun i => (i < n)%nat) idx ->
  map (fun i => nth i (seq 0 n) 0%nat) idx = idx.
Proof.
  induction 1 as [|i l Hi _ IH]; [reflexivity|].
  simpl. rewrite IH. f_equal. rewrite seq_nth by exact Hi. reflexivity.
Qed.

(** [random.sample] over all positions: as many distinct positions as asked
    for, or [ValueError]. *)
Lemma random_sample_positions (g g' : Rng) (n : nat) (k : Z) (l : list nat) :
  random_sample g (seq 0 n) k = Ok (l, g') ->
  0 <= k <= Z.of_nat n /\
  Z.of_nat (List.length l) = k /\ NoDup l /\ Forall (fun i => (i < n)%nat) l /\
  (l, g') = rng_choose g n (Z.to_nat k).
Proof.
  unfold random_sample. rewrite length_seq.
  destruct (Z.ltb_spec k 0); [discriminate|].
  destruct (Z.ltb_spec (Z.of_nat n) k); [discriminate|]. cbn [orb].
  pose proof (rng_choose_spec g n (Z.to_nat k)) as Hs. cbv zeta in Hs.
  destruct (rng_choose g n (Z.to_nat k)) as [idx g1] eqn:Hc.
  intros [= <- <-]. cbn [fst] in Hs.
  destruct Hs as (H1 & H2 & H3); [lia|].
  rewrite (map_nth_seq idx n H3).
  splits; try assumption; try lia. reflexivity.
Qed.

Lemma is_seed_In (seeds : list nat) (i : nat) :
  is_seed seeds i = true <-> In i seeds.
Proof.
  unfold is_seed. rewrite existsb_exists. split.
  - intros (x & Hx & He). apply Nat.eqb_eq in He. now subst.
  - intros H. exists i. split; [exact H | apply Nat.eqb_refl].
Qed.

(** The shape of every constructed model: agents as [_create_agents] made
    them, then the seeds marked, then the first row collected. *)
Lemma init_shape (c : Config) (m : DisinformationModel) :
  DisinformationModel_init c = Ok m ->
  exists m1 seeds g counts,
    (0 <= cfg_initial_seeding c <= 1)%Q /\
    1 <= cfg_m_edges c < cfg_population c /\
    get_archetype_counts (cfg_population c) (cfg_archetype_dist c) = Ok counts /\
    List.length (agents m1) = agents_made counts /\
    Forall pristine (agents m1) /\
    ids_are_positions (agents m1) /\
    m1 = mkModel
           (mkNarrative (cfg_baseline_transmission c) (cfg_emotional_intensity c)
              (cfg_identity_weight c) (cfg_initial_seeding c))
           (cfg_population c) (cfg_m_edges c) (cfg_seeding_strategy c)
           (cfg_sigma_base c) (cfg_gamma_base c) (cfg_omega_base c) 0 0
           (cfg_network c) (agents m1) (cfg_random c) [] /\
    select_seed_agents m1 = Ok (seeds, g) /\
    m = collect (mark_seeds seeds (set_random m1 g)).
Proof.
  intros H. destruct (init_inv c m H)
    as (_ & nar & m1 & seeds & g & Hnar & Hm & Hcr & Hsel & ->).
  destruct (make_Narrative_inv _ _ _ _ _ Hnar) as [-> Hp].
  destruct (create_agents_spec _ _ _ Hcr eq_refl)
    as (counts & Hc & Hlen & Hpr & Hids & Hm1).
  exists m1, seeds, g, counts.
  splits; try assumption; try lia; try reflexivity.
  - apply Hp.
  - apply Hp.
Qed.

Lemma pristine_agent_ok (a : DisinformationAgent) : pristine a -> agent_ok a.
Proof.
  intros (Hs & Hn & _). split; [left; exact Hs|].
  intros s. rewrite Hn. discriminate.
Qed.

Lemma seeded_facts (a : DisinformationAgent) (b : bool) :
  pristine a ->
  let a' := if b then set_state a "I" else a in
  agent_ok a' /\ fresh_counters a' /\ next_state a' = None /\
  state a' = (if b then "I" else "S") /\
  unique_id a' = unique_id a /\ archetype a' = archetype a.
Proof.
  intros (Hs & Hn & Hf). destruct b; cbv zeta.
  - destruct a; cbn in *. subst.
    unfold agent_ok, valid_state, fresh_counters in *. cbn.
    splits; auto; try tauto. discriminate.
  - split; [apply pristine_agent_ok; repeat split; auto; apply Hf|].
    split; [exact Hf|]. splits; auto.
Qed.

(** The agents of a constructed model, by position. *)
Lemma init_agents (c : Config) (m : DisinformationModel) :
  DisinformationModel_init c = Ok m ->
  exists m1 seeds g,
    select_seed_agents m1 = Ok (seeds, g) /\
    Forall pristine (agents m1) /\
    List.length (agents m) = List.length (agents m1) /\
    cumulative_infected m = Z.of_nat (List.length seeds) /\
    (forall i a,
        nth_error (agents m1) i = Some a ->
        nth_error (agents m) i
        = Some (if is_seed seeds i then set_state a "I" else a)) /\
    (forall i a',
        nth_error (agents m) i = Some a' ->
        exists a, nth_error (agents m1) i = Some a /\
                  a' = (if is_seed seeds i then set_state a "I" else a)).
Proof.
  intros H. destruct (init_shape c m H)
    as (m1 & seeds & g & counts & _ & _ & _ & _ & Hpr & _ & Hm1 & Hsel & ->).
  pose proof (mark_seeds_spec seeds (set_random m1 g)) as Hs. cbv zeta in Hs.
  destruct Hs as (_ & _ & Hc & Hl & Hpt).
  exists m1, seeds, g. cbn [collect agents set_datacollector cumulative_infected].
  change (agents (set_random m1 g)) with (agents m1) in *.
  change (cumulative_infected (set_random m1 g)) with (cumulative_infected m1) in *.
  splits; try assumption.
  - rewrite Hc, Hm1. cbn. lia.
  - intros i a' Ha'.
    destruct (nth_error (agents m1) i) as [a|] eqn:Ha.
    + exists a. split; [reflexivity|]. rewrite (Hpt i a Ha) in Ha'. congruence.
    + apply nth_error_None in Ha.
      assert (i < List.length (agents (mark_seeds seeds (set_random m1 g))))%nat
        by (apply nth_error_Some; congruence). lia.
Qed.

Lemma init_model_ok (c : Config) (m : DisinformationModel) :
  DisinformationModel_init c = Ok m ->
  model_ok m /\
  Forall (fun a => fresh_counters a /\ next_state a = None /\
                   (state a = "S" \/ state a = "I")) (agents m).
Proof.
  intros H.
  destruct (init_agents c m H) as (m1 & seeds & g & _ & Hpr & _ & _ & _ & Hback).
  assert (Hall : forall i a', nth_error (agents m) i = Some a' ->
                 agent_ok a' /\ fresh_counters a' /\ next_state a' = None /\
                 (state a' = "S" \/ state a' = "I")).
  { intros i a' Ha'. destruct (Hback i a' Ha') as (a & Ha & ->).
    rewrite Forall_nth_error in Hpr.
    pose proof (seeded_facts a (is_seed seeds i) (Hpr i a Ha)) as Hs.
    cbv zeta in Hs. destruct Hs as (H1 & H2 & H3 & H4 & _).
    splits; try assumption.
    rewrite H4. destruct (is_seed seeds i); auto. }
  split.
  - destruct (init_shape c m H)
      as (m0 & seeds0 & g0 & counts & _ & _ & _ & _ & _ & _ & Hm0 & _ & Hm).
    rewrite Hm. apply model_ok_collect.
    + rewrite Hm in Hall. cbn [collect agents set_datacollector] in Hall.
      apply Forall_nth_error. intros i a Ha. apply (Hall i a Ha).
    + pose proof (mark_seeds_spec seeds0 (set_random m0 g0)) as Hs.
      cbv zeta in Hs. destruct Hs as (Hf & _).
      destruct Hf as (_&_&_&_&_&_&_&_&_&Hd). rewrite Hd, Hm0. cbn. constructor.
  - apply Forall_nth_error. intros i a Ha.
    destruct (Hall i a Ha) as (_ & H2 & H3 & H4). auto.
Qed.

(** ** Random seeding *)





(** ** Seeding and the history counters *)

Lemma seed_initial_infections_inv (m m2 : DisinformationModel) :
  _seed_initial_infections m = Ok m2 ->
  exists seeds g,
    select_seed_agents m = Ok (seeds, g) /\
    m2 = mark_seeds seeds (set_random m g).
Proof.
  unfold _seed_initial_infections. intros H. inv_bind H.
  destruct x as [seeds g]. injection H as <-. eauto.
Qed.

(** Seeding touches nothing but the state of the selected agents, the
    infection counter and the random stream. *)
Lemma seed_initial_infections_frame (m m2 : DisinformationModel) :
  _seed_initial_infections m = Ok m2 ->
  exists seeds,
    model_frame m m2 /\
    cumulative_infected m2
    = cumulative_infected m + Z.of_nat (List.length seeds) /\
    List.length (agents m2) = List.length (agents m) /\
    forall i a,
      nth_error (agents m) i = Some a ->
      nth_error (agents m2) i
      = Some (if is_seed seeds i then set_state a "I" else a).
Proof.
  intros H. destruct (seed_initial_infections_inv _ _ H) as (seeds & g & _ & ->).
  pose proof (mark_seeds_spec seeds (set_random m g)) as Hs. cbv zeta in Hs.
  destruct Hs as (Hf & _ & Hc & Hl & Hpt).
  exists seeds. split; [|splits; assumption].
  eapply model_frame_trans; [|exact Hf].
  unfold model_frame. cbn. splits; reflexivity.
Qed.

Lemma steps_infection_count (k : nat) :
  forall m mk i a0 ak,
    steps k m = Ok mk ->
    nth_error (agents m) i = Some a0 ->
    nth_error (agents mk) i = Some ak ->
    (forall j mj mj' aj aj',
        (j < k)%nat -> steps j m = Ok mj -> step mj = Ok mj' ->
        nth_error (agents mj) i = Some aj ->
        nth_error (agents mj') i = Some aj' ->
        enters_I aj aj' = false) ->
    infection_count ak = infection_count a0.
Proof.
  induction k as [|k IH]; intros m mk i a0 ak Hsteps Ha0 Hak Hnever.
  - simpl in Hsteps. injection Hsteps as <-. congruence.
  - simpl in Hsteps. inv_bind Hsteps. rename x into m1, Hx into Hstep.
    destruct (step_pointwise _ _ Hstep) as (_ & _ & _ & Hpt).
    destruct (Hpt i a0 Ha0) as (a1 & Ha1 & Hs).
    destruct (stepped_facts _ _ Hs) as (Hic & _).
    assert (He : enters_I a0 a1 = false).
    { apply (Hnever 0%nat m m1 a0 a1); auto. lia. }
    rewrite He in Hic. rewrite Z.add_0_r in Hic. rewrite <- Hic.
    apply (IH m1 mk i a1 ak Hsteps Ha1 Hak).
    intros j mj mj' aj aj' Hj Hsj Hstepj Haj Haj'.
    apply (Hnever (Datatypes.S j) mj mj' aj aj'); auto; [lia|].
    simpl. rewrite Hstep. exact Hsj.
Qed.

(** C10: construction seeds by writing state 'I' into the selected agents
    and adding their number to the model counter, and nothing else: right
    after construction every agent, seeded or not, has all five history
    counters at 0 and no pending candidate; and an agent that never enters I
    through a commit afterwards (a seeded agent that is never re-infected,
    in particular) still has [infection_count] 0. *)
Theorem seeding_leaves_history_untouched (c : Config) (m : DisinformationModel) :
  DisinformationModel_init c = Ok m ->
  (exists m1 m2 seeds,
      _seed_initial_infections m1 = Ok m2 /\
      m = collect m2 /\
      Forall pristine (agents m1) /\
      cumulative_infected m1 = 0 /\
      model_frame m1 m2 /\
      cumulative_infected m2 = Z.of_nat (List.length seeds) /\
      forall i a,
        nth_error (agents m1) i = Some a ->
        nth_error (agents m2) i
        = Some (if is_seed seeds i then set_state a "I" else a)) /\
  Forall (fun a => fresh_counters a /\ next_state a = None /\
                   (state a = "S" \/ state a = "I")) (agents m) /\
  (forall k mk i a0 ak,
      steps k m = Ok mk ->
      nth_error (agents m) i = Some a0 ->
      nth_error (agents mk) i = Some ak ->
      (forall j mj mj' aj aj',
          (j < k)%nat -> steps j m = Ok mj -> step mj = Ok mj' ->
          nth_error (agents mj) i = Some aj ->
          nth_error (agents mj') i = Some aj' ->
          enters_I aj aj' = false) ->
      infection_count ak = 0).
Proof.
  intros Hinit. destruct (init_model_ok c m Hinit) as [_ Hfresh].
  split; [|split; [exact Hfresh|]].
  - destruct (init_shape c m Hinit)
      as (m1 & seeds & g & counts & _ & _ & _ & _ & Hpr & _ & Hm1 & Hsel & Hm).
    assert (Hseed : _seed_initial_infections m1
                    = Ok (mark_seeds seeds (set_random m1 g))).
    { unfold _seed_initial_infections. rewrite Hsel. reflexivity. }
    pose proof (mark_seeds_spec seeds (set_random m1 g)) as Hs. cbv zeta in Hs.
    destruct Hs as (Hf & _ & Hc & _ & Hpt).
    exists m1, (mark_seeds seeds (set_random m1 g)), seeds.
    split; [exact Hseed|]. split; [exact Hm|]. split; [exact Hpr|].
    split; [rewrite Hm1; reflexivity|].
    split; [|split].
    + eapply model_frame_trans; [|exact Hf].
      unfold model_frame. cbn. splits; reflexivity.
    + rewrite Hc, Hm1. cbn. lia.
    + exact Hpt.
  - intros k mk i a0 ak Hsteps Ha0 Hak Hnever.
    rewrite (steps_infection_count k m mk i a0 ak Hsteps Ha0 Hak Hnever).
    rewrite Forall_nth_error in Hfresh.
    destruct (Hfresh i a0 Ha0) as ((Hic & _) & _). exact Hic.
Qed.

Lemma seeding_leaves_history_untouched_witness :
  DisinformationModel_init cfg_reinfection = Ok (constructed cfg_reinfection) /\
  Forall (fun a => fresh_counters a /\ next_state a = None /\
                   (state a = "S" \/ state a = "I"))
         (agents (constructed cfg_reinfection)).
Proof.
  assert (H : DisinformationModel_init cfg_reinfection
              = Ok (constructed cfg_reinfection)) by (vm_compute; reflexivity).
  split; [exact H|].
  apply (seeding_leaves_history_untouched cfg_reinfection
           (constructed cfg_reinfection) H).
Defined.

(** ** The attack rate *)

Lemma last_snoc {A : Type} (rows : list A) (r r0 : A) (rest : list A) :
  (rows ++ [r])%list = r0 :: rest -> last rest r0 = r.
Proof.
  destruct rows as [|x rows]; simpl; intros H; injection H as <- <-.
  - reflexivity.
  - apply last_last.
Qed.

(** The part of the attack-rate claim that holds: on every constructed model,
    after any run, [get_peak_metrics] returns, and its attack rate is the
    model's [cumulative_infected] divided by the population. *)
Lemma attack_rate_is_cumulative_over_population (m : DisinformationModel) :
  model_ok m ->
  exists pm,
    get_peak_metrics m = Ok pm /\
    attack_rate pm = np_div_int (cumulative_infected m) (population m).
Proof.
  intros (_ & _ & rows & r & Hd & Hc). unfold get_peak_metrics.
  destruct (datacollector m) as [|r0 rest] eqn:Hdc.
  - destruct rows; discriminate.
  - eexists. split; [reflexivity|]. cbn [attack_rate].
    rewrite (last_snoc rows r r0 rest (eq_sym Hd)), Hc. reflexivity.
Qed.

Lemma attack_rate_after_run (c : Config) (m m' : DisinformationModel)
  (max_steps : Z) :
  DisinformationModel_init c = Ok m ->
  run max_steps m = Ok m' ->
  exists pm,
    get_peak_metrics m' = Ok pm /\
    attack_rate pm = np_div_int (cumulative_infected m') (population m').
Proof.
  intros Hinit Hrun. apply attack_rate_is_cumulative_over_population.
  destruct (init_model_ok c m Hinit) as [Hok _].
  eapply run_loop_model_ok; eauto.
Qed.

(** C1 at the failing input: two connected agents, both seeded.  Agent 0
    recovers, relapses, is exposed again by agent 1 and adopts again; the
    second entry into I is counted a second time, and after four steps the
    attack rate is 3/2. *)
Theorem attack_rate_exceeds_one :
  exists m0 m4 pm,
    DisinformationModel_init cfg_reinfection = Ok m0 /\
    run 4 m0 = Ok m4 /\
    get_peak_metrics m4 = Ok pm /\
    population m4 = 2 /\
    cumulative_infected m4 = 3 /\
    attack_rate pm = Fin (3 # 2) /\
    ~ (3 # 2 <= 1)%Q.
Proof.
  do 3 eexists. splits; try (vm_compute; reflexivity).
  vm_compute. intros H. apply H. reflexivity.
Qed.

(** ** Seeding by archetype *)

(** With a seed count of 1 every per-archetype share truncates to 0, and the
    archetype-proportional branch selects nobody. *)
Lemma archetype_proportional_one_seed (m : DisinformationModel) :
  seeding_strategy m = "archetype_proportional" ->
  n_seed_of m = 1 ->
  select_seed_agents m = Ok ([], random m).
Proof.
  intros Hs Hn. unfold select_seed_agents. rewrite Hs, Hn.
  cbn [String.eqb Ascii.eqb Bool.eqb andb].
  unfold ARCHETYPES.
  repeat (cbn [seed_archetypes];
          match goal with
          | |- context [filter ?f ?l] => destruct (filter f l)
          end;
          cbn [dict_get bind String.eqb Ascii.eqb Bool.eqb andb]).
  all: reflexivity.
Qed.

(** C3 at the failing input: ten agents and [p0 = 0.06].  The computed seed
    count 0 is raised to 1, and the archetype-proportional policy then
    infects nobody, while the two sibling policies infect one agent. *)
Theorem archetype_proportional_seeds_nobody :
  exists m,
    DisinformationModel_init (cfg_single_seed "archetype_proportional") = Ok m /\
    n_seed_of m = 1 /\
    _count_state m "I" = 0 /\
    cumulative_infected m = 0 /\
    _epidemic_ended m = true /\
    (exists mr, DisinformationModel_init (cfg_single_seed "random") = Ok mr /\
                _count_state mr "I" = 1 /\ cumulative_infected mr = 1) /\
    (exists mh, DisinformationModel_init (cfg_single_seed "hub_targeted") = Ok mh /\
                _count_state mh "I" = 1 /\ cumulative_infected mh = 1).
Proof.
  eexists. splits; try (vm_compute; reflexivity).
  - eexists. splits; vm_compute; reflexivity.
  - eexists. splits; vm_compute; reflexivity.
Qed.

(** ** The profile-stratified metrics *)

(** C5 at the failing input: the class defines no
    [get_profile_stratified_metrics]; the export that asks for it fails with
    [AttributeError] once the overall metrics are computed, and succeeds only
    when the profile metrics are switched off.  The operation that the class
    does provide, [get_archetype_infection_rates], reports the agents that
    are in state I now. *)
Theorem export_profile_metrics_raises :
  getattr_method "get_profile_stratified_metrics" = Err AttributeError /\
  getattr_method "get_archetype_infection_rates"
  = Ok "get_archetype_infection_rates" /\
  export_simulation_results (constructed cfg_reinfection) true true
  = Err AttributeError /\
  export_simulation_results (constructed cfg_reinfection) true false
  = Ok ["overall"; "trajectories"] /\
  get_archetype_infection_rates (constructed cfg_reinfection)
  = [ ("immune", mkRate 0 0 0); ("superspreader", mkRate 0 0 0);
      ("moderate", mkRate 2 2 (2 # 2));
      ("critical_thinker", mkRate 0 0 0);
      ("cynical_contrarian", mkRate 0 0 0) ].
Proof.
  splits; vm_compute; reflexivity.
Qed.

Lemma export_profile_metrics_always_raises (m : DisinformationModel) (t : bool) :
  model_ok m -> export_simulation_results m t true = Err AttributeError.
Proof.
  intros Hok.
  destruct (attack_rate_is_cumulative_over_population m Hok) as (pm & Hpm & _).
  unfold export_simulation_results. cbn [getattr_method bind].
  change (getattr_method "get_peak_metrics") with (Ok (A:=string) "get_peak_metrics").
  cbn [bind]. rewrite Hpm. cbn [bind].
  change (getattr_method "calculate_R0") with (Ok (A:=string) "calculate_R0").
  cbn [bind]. destruct (calculate_R0 m) as [R0 comps]. reflexivity.
Qed.

(** ** The closed population *)

Lemma steps_length (k : nat) :
  forall m mk, steps k m = Ok mk ->
               List.length (agents mk) = List.length (agents m) /\
               population mk = population m.
Proof.
  induction k as [|k IH]; intros m mk H; simpl in H.
  - injection H as <-. auto.
  - inv_bind H. destruct (step_pointwise _ _ Hx) as (Hl & _ & Hp & _).
    destruct (IH _ _ H) as [Hl' Hp']. split; congruence.
Qed.

Lemma run_loop_length (budget : nat) :
  forall m m', run_loop budget m = Ok m' ->
               List.length (agents m') = List.length (agents m) /\
               population m' = population m.
Proof.
  induction budget as [|b IH]; intros m m' H; simpl in H.
  - injection H as <-. auto.
  - inv_bind H. destruct (step_pointwise _ _ Hx) as (Hl & _ & Hp & _).
    destruct (_epidemic_ended x).
    + injection H as <-. auto.
    + destruct (IH _ _ H) as [Hl' Hp']. split; congruence.
Qed.

Lemma init_population (c : Config) (m : DisinformationModel) :
  DisinformationModel_init c = Ok m ->
  population m = cfg_population c /\ G m = cfg_network c /\
  exists counts,
    get_archetype_counts (cfg_population c) (cfg_archetype_dist c) = Ok counts /\
    List.length (agents m) = agents_made counts.
Proof.
  intros Hinit.
  destruct (init_shape c m Hinit)
    as (m1 & seeds & g & counts & _ & _ & Hc & Hlen & _ & _ & Hm1 & _ & ->).
  pose proof (mark_seeds_spec seeds (set_random m1 g)) as Hs. cbv zeta in Hs.
  destruct Hs as (Hf & _ & _ & Hl & _).
  destruct Hf as (_&Hp&_&_&_&_&_&_&HG&_).
  cbn [collect population G agents set_datacollector].
  rewrite Hp, HG, Hl. cbn [population G agents set_random].
  splits; try (rewrite Hm1; reflexivity).
  exists counts. split; [exact Hc | exact Hlen].
Qed.

(** The closed-population invariant where it holds: when no archetype count
    is negative, the model has exactly [population] agents, and every row
    collected at construction, by any number of steps or by a run has state
    counts that sum to the population; every agent's state is one of the
    four names throughout. *)
Lemma state_counts_sum_to_population (c : Config) (m : DisinformationModel)
  (counts : list (string * Z)) :
  DisinformationModel_init c = Ok m ->
  get_archetype_counts (cfg_population c) (cfg_archetype_dist c) = Ok counts ->
  Forall (fun e => 0 <= snd e) counts ->
  Z.of_nat (List.length (agents m)) = cfg_population c /\
  (forall k mk,
      steps k m = Ok mk ->
      Forall (fun r => row_total r = cfg_population c) (datacollector mk) /\
      Forall (fun a => valid_state (state a)) (agents mk)) /\
  (forall max_steps m',
      run max_steps m = Ok m' ->
      Forall (fun r => row_total r = cfg_population c) (datacollector m') /\
      Forall (fun a => valid_state (state a)) (agents m')).
Proof.
  intros Hinit Hc Hnn.
  destruct (init_population c m Hinit) as (Hp & _ & counts' & Hc' & Hlen).
  rewrite Hc in Hc'. injection Hc' as <-.
  assert (Hn : Z.of_nat (List.length (agents m)) = cfg_population c).
  { rewrite Hlen, (agents_made_nonneg counts Hnn).
    apply (get_archetype_counts_sum _ _ _ Hc). }
  destruct (init_model_ok c m Hinit) as [Hok _].
  assert (Hfrom : forall m', model_ok m' ->
                  List.length (agents m') = List.length (agents m) ->
                  Forall (fun r => row_total r = cfg_population c) (datacollector m') /\
                  Forall (fun a => valid_state (state a)) (agents m')).
  { intros m' (Ha & Hr & _) Hl. rewrite Hl, Hn in Hr. split; [exact Hr|].
    eapply Forall_impl; [|exact Ha]. intros a [H _]. exact H. }
  split; [exact Hn|]. split.
  - intros k mk Hs. apply Hfrom.
    + eapply steps_model_ok; eauto.
    + apply (steps_length k m mk Hs).
  - intros max_steps m' Hr. apply Hfrom.
    + eapply run_loop_model_ok; eauto.
    + apply (run_loop_length _ m m' Hr).
Qed.

(** C7 at the failing input: shares 0.5, 0.50048828125 and 0.0 pass the
    validation; for a population of 2048 the truncated counts are 1024, 1025
    and 0, the correction makes the 'moderate' count -1, and 2049 agents are
    created.  The row collected at construction counts 2049 agents in a
    population of 2048. *)
Theorem state_counts_exceed_population :
  validate_archetype_distribution dist_overfull = true /\
  get_archetype_counts 2048 dist_overfull
  = Ok [("immune", 1024); ("superspreader", 1025); ("moderate", -1)] /\
  DisinformationModel_init cfg_overfull = Ok (constructed cfg_overfull) /\
  population (constructed cfg_overfull) = 2048 /\
  Z.of_nat (List.length (agents (constructed cfg_overfull))) = 2049 /\
  map row_total (datacollector (constructed cfg_overfull)) = [2049].
Proof.
  splits; vm_compute; reflexivity.
Qed.

(** ** The reproduction number *)









(** With a base correction rate of 0 every agent's rate is 0: the infectious
    period is the infinite sentinel, and so is R0. *)
Example calculate_R0_without_correction :
  (exists g, mean_gamma (snd (calculate_R0 (constructed cfg_no_correction)))
             = Fin g /\ g == 0) /\
  infectious_period (snd (calculate_R0 (constructed cfg_no_correction))) = PInf /\
  fst (calculate_R0 (constructed cfg_no_correction)) = PInf.
Proof.
  split; [eexists; split; [vm_compute; reflexivity | reflexivity]|].
  split; vm_compute; reflexivity.
Qed.

(** ** Further facts and examples *)

(** On a constructed model with a network on [population] nodes and no
    negative archetype count, every agent is a node of the graph, so that
    [run] never fails. *)
Lemma init_graph_covers (c : Config) (m : DisinformationModel)
  (counts : list (string * Z)) :
  DisinformationModel_init c = Ok m ->
  List.length (cfg_network c) = Z.to_nat (cfg_population c) ->
  get_archetype_counts (cfg_population c) (cfg_archetype_dist c) = Ok counts ->
  Forall (fun e => 0 <= snd e) counts ->
  graph_covers m.
Proof.
  intros Hinit Hnet Hc Hnn.
  destruct (init_population c m Hinit) as (_ & HG & _).
  destruct (init_shape c m Hinit)
    as (m1 & seeds & g & counts' & _ & Hm & Hc' & Hlen & Hpr & Hids & _ & _ & Hmeq).
  rewrite Hc in Hc'. injection Hc' as <-.
  pose proof (agents_made_nonneg counts Hnn) as Hmade.
  rewrite (get_archetype_counts_sum _ _ _ Hc) in Hmade.
  pose proof (mark_seeds_spec seeds (set_random m1 g)) as Hs. cbv zeta in Hs.
  destruct Hs as (_ & _ & _ & Hl & Hpt).
  change (agents (set_random m1 g)) with (agents m1) in *.
  unfold graph_covers. rewrite HG. apply Forall_nth_error. intros i a' Ha'.
  rewrite Hmeq in Ha'. cbn [collect agents set_datacollector] in Ha'.
  assert (Hi : (i < List.length (agents m1))%nat).
  { rewrite <- Hl. apply nth_error_Some. congruence. }
  destruct (nth_error (agents m1) i) as [a|] eqn:Ha;
    [| apply nth_error_None in Ha; lia].
  rewrite (Hpt i a Ha) in Ha'. injection Ha' as <-.
  rewrite Forall_nth_error in Hpr.
  pose proof (seeded_facts a (is_seed seeds i) (Hpr i a Ha)) as Hf.
  cbv zeta in Hf. destruct Hf as (_ & _ & _ & _ & Hid & _).
  rewrite Hid, (Hids i a Ha). lia.
Qed.

(** Without the key 'moderate' a rounding residual cannot be placed: the
    in-place addition raises [KeyError]. *)
Example get_archetype_counts_without_moderate :
  validate_archetype_distribution [("immune", 1#2); ("superspreader", 1#2)] = true /\
  get_archetype_counts 3 [("immune", 1#2); ("superspreader", 1#2)] = Err KeyError /\
  get_archetype_counts 2 [("immune", 1#2); ("superspreader", 1#2)]
  = Ok [("immune", 1); ("superspreader", 1)].
Proof. splits; vm_compute; reflexivity. Qed.

(** In the two-agent run both agents are infected throughout or again, and
    the model counter reads 3; agent 1, seeded and never re-infected, still
    has [infection_count] 0. *)
Example seeded_agent_keeps_zero_infection_count :
  exists m4,
    run 4 (constructed cfg_reinfection) = Ok m4 /\
    map state (agents m4) = ["I"; "I"] /\
    map infection_count (agents m4) = [1; 0] /\
    map time_in_I (agents m4) = [1; 4] /\
    cumulative_infected m4 = 3.
Proof. eexists. splits; vm_compute; reflexivity. Qed.

(** On every constructed model and after any number of steps, every row
    accounts for every agent, whatever their number, and every state is one
    of the four names. *)
Lemma rows_sum_to_number_of_agents (c : Config) (m mk : DisinformationModel)
  (k : nat) :
  DisinformationModel_init c = Ok m ->
  steps k m = Ok mk ->
  Forall (fun r => row_total r = Z.of_nat (List.length (agents mk)))
         (datacollector mk) /\
  Forall (fun a => valid_state (state a)) (agents mk) /\
  List.length (agents mk) = List.length (agents m).
Proof.
  intros Hinit Hsteps.
  destruct (init_model_ok c m Hinit) as [Hok _].
  destruct (steps_model_ok k m mk Hsteps Hok) as (Ha & Hr & _).
  split; [exact Hr|]. split.
  - eapply Forall_impl; [|exact Ha]. intros a [H _]. exact H.
  - apply (steps_length k m mk Hsteps).
Qed.
(* ====================================================================== *)
(** * Further properties *)

(** ** The two phases as passes over lists *)

Lemma list_set_app_middle {A : Type} (pre : list A) (a a' : A) (post : list A) :
  list_set (pre ++ a :: post) (List.length pre) a' = (pre ++ a' :: post)%list.
Proof. induction pre as [|x pre IH]; simpl; [reflexivity | now rewrite IH]. Qed.

Lemma nth_error_app_middle {A : Type} (pre : list A) (a : A) (post : list A) :
  nth_error (pre ++ a :: post) (List.length pre) = Some a.
Proof. induction pre as [|x pre IH]; simpl; [reflexivity | exact IH]. Qed.

Lemma set_back (m : DisinformationModel) :
  set_cumulative_infected (set_agents m (agents m)) (cumulative_infected m) = m.
Proof. destruct m; reflexivity. Qed.

Lemma set_back_random (m : DisinformationModel) :
  set_random (set_agents m (agents m)) (random m) = m.
Proof. destruct m; reflexivity. Qed.

Lemma agent_advance_at (m : DisinformationModel) (i : nat)
  (a : DisinformationAgent) :
  nth_error (agents m) i = Some a ->
  agent_advance m i
  = Ok (set_cumulative_infected
          (set_agents m
             (list_set (agents m) i (fst (advance a (cumulative_infected m)))))
          (snd (advance a (cumulative_infected m)))).
Proof.
  intros Ha. unfold agent_advance. rewrite Ha.
  destruct (advance a (cumulative_infected m)); reflexivity.
Qed.

Lemma commit_phase_from (todo : list DisinformationAgent) :
  forall pre m,
    agents m = (pre ++ todo)%list ->
    for_positions agent_advance (seq (List.length pre) (List.length todo)) m
    = Ok (set_cumulative_infected
            (set_agents m
               (pre ++ fst (advance_all todo (cumulative_infected m)))%list)
            (snd (advance_all todo (cumulative_infected m)))).
Proof.
  induction todo as [|a todo IH]; intros pre m Hm.
  - simpl. rewrite app_nil_r in *. rewrite <- Hm, set_back. reflexivity.
  - cbn [List.length seq for_positions].
    rewrite (agent_advance_at m (List.length pre) a)
      by (rewrite Hm; apply nth_error_app_middle).
    rewrite Hm, list_set_app_middle.
    cbn [advance_all].
    destruct (advance a (cumulative_infected m)) as [a' c1] eqn:Ha.
    cbn [bind fst snd].
    set (m1 := set_cumulative_infected
                 (set_agents m (pre ++ a' :: todo)%list) c1).
    specialize (IH (pre ++ [a'])%list m1).
    rewrite length_app, Nat.add_1_r in IH. rewrite IH.
    + subst m1. cbn [cumulative_infected set_cumulative_infected set_agents].
      destruct (advance_all todo c1) as [r c2]. cbn [fst snd].
      rewrite <- app_assoc. reflexivity.
    + subst m1. cbn. rewrite <- app_assoc. reflexivity.
Qed.

(** The commit loop is one pass of [advance] over the agents, and never
    fails. *)
Lemma commit_phase_eq (m : DisinformationModel) :
  for_each_agent agent_advance m
  = Ok (set_cumulative_infected
          (set_agents m (fst (advance_all (agents m) (cumulative_infected m))))
          (snd (advance_all (agents m) (cumulative_infected m)))).
Proof. apply (commit_phase_from (agents m) [] m). reflexivity. Qed.

Lemma same_view_refl (l : list DisinformationAgent) : same_view l l.
Proof. apply Forall2_refl_on. auto. Qed.

Lemma Forall2_rev_both {A B : Type} (R : A -> B -> Prop) (l : list A) (l' : list B) :
  Forall2 R l l' -> Forall2 R (rev l) (rev l').
Proof.
  induction 1 as [|x y l l' Hxy _ IH]; simpl; [constructor|].
  apply Forall2_app; [exact IH | constructor; [exact Hxy | constructor]].
Qed.

Lemma find_same_view (l0 l : list DisinformationAgent) (id : nat) :
  same_view l0 l ->
  option_map state (find (fun a => Nat.eqb (unique_id a) id) l)
  = option_map state (find (fun a => Nat.eqb (unique_id a) id) l0).
Proof.
  induction 1 as [|x y l0 l [Hid Hst] _ IH]; simpl; [reflexivity|].
  rewrite Hid. destruct (Nat.eqb (unique_id x) id); simpl; congruence.
Qed.

Lemma infected_neighbors_same_view (m0 m : DisinformationModel)
  (a : DisinformationAgent) :
  G m = G m0 -> same_view (agents m0) (agents m) ->
  _get_infected_neighbors m a = _get_infected_neighbors m0 a.
Proof.
  intros HG Hv. unfold _get_infected_neighbors. rewrite HG.
  destruct (G_neighbors (G m0) (unique_id a)) as [nbrs|e]; [|reflexivity].
  cbn [bind]. f_equal. apply filter_ext. intros id.
  unfold agents_dict_get.
  pose proof (find_same_view (rev (agents m0)) (rev (agents m)) id
                (Forall2_rev_both _ _ _ Hv)) as H.
  destruct (find _ (rev (agents m))), (find _ (rev (agents m0)));
    simpl in H; try discriminate; [|reflexivity].
  injection H as ->. reflexivity.
Qed.

(** A candidate depends on the model through its parameters, the random
    stream, and the ids and states of the agents, and on nothing else. *)
Lemma candidate_same_view (m0 m : DisinformationModel) (a : DisinformationAgent) :
  same_params m0 m -> same_view (agents m0) (agents m) ->
  candidate m a = candidate (set_random m0 (random m)) a.
Proof.
  intros (Hn & _ & _ & _ & Hs & Hg & Ho & HG) Hv.
  unfold candidate, _check_exposure, _check_adoption, _check_correction,
    _check_relapse.
  rewrite (infected_neighbors_same_view (set_random m0 (random m)) m a);
    [| exact HG | exact Hv].
  cbn [narrative sigma_base gamma_base omega_base random set_random].
  rewrite Hn, Hs, Hg, Ho. reflexivity.
Qed.

Lemma agent_step_candidate (m : DisinformationModel) (i : nat)
  (a : DisinformationAgent) :
  nth_error (agents m) i = Some a ->
  agent_step m i
  = (c <- candidate m a ;;
     Ok (match c with
         | Some (s, g) =>
             set_random
               (set_agents m (list_set (agents m) i (set_next_state a (Some s)))) g
         | None => m
         end)).
Proof.
  intros Ha. unfold agent_step, candidate. rewrite Ha.
  destruct (String.eqb (state a) "S").
  { destruct (_check_exposure m a) as [[s g]|e]; reflexivity. }
  destruct (String.eqb (state a) "E").
  { cbn [bind]. destruct (_check_adoption m a); reflexivity. }
  destruct (String.eqb (state a) "I").
  { cbn [bind]. destruct (_check_correction m a); reflexivity. }
  destruct (String.eqb (state a) "R").
  { cbn [bind]. destruct (_check_relapse m a); reflexivity. }
  reflexivity.
Qed.

Lemma same_view_replace (l0 pre : list DisinformationAgent)
  (a a' : DisinformationAgent) (post : list DisinformationAgent) :
  same_view l0 (pre ++ a :: post) ->
  unique_id a' = unique_id a -> state a' = state a ->
  same_view l0 (pre ++ a' :: post).
Proof.
  unfold same_view. intros H Hid Hst.
  apply Forall2_app_inv_r in H. destruct H as (l1 & l2 & H1 & H2 & ->).
  inversion H2 as [|x y l2' post' [Hx1 Hx2] H2']; subst.
  apply Forall2_app; [exact H1|]. constructor; [|exact H2'].
  split; congruence.
Qed.

Lemma compute_phase_from (m0 : DisinformationModel)
  (todo : list DisinformationAgent) :
  forall pre m,
    agents m = (pre ++ todo)%list ->
    same_params m0 m ->
    same_view (agents m0) (agents m) ->
    for_positions agent_step (seq (List.length pre) (List.length todo)) m
    = (r <- snapshot_candidates m0 todo (random m) ;;
       Ok (set_random (set_agents m (pre ++ fst r)%list) (snd r))).
Proof.
  induction todo as [|a todo IH]; intros pre m Hm Hp Hv.
  - simpl. rewrite app_nil_r in *. rewrite <- Hm, set_back_random. reflexivity.
  - cbn [List.length seq for_positions snapshot_candidates].
    rewrite (agent_step_candidate m (List.length pre) a)
      by (rewrite Hm; apply nth_error_app_middle).
    rewrite (candidate_same_view m0 m a Hp Hv).
    destruct (candidate (set_random m0 (random m)) a) as [[[s g]|]|e];
      cbn [bind]; [| |reflexivity].
    + rewrite Hm, list_set_app_middle.
      set (m1 := set_random
                   (set_agents m (pre ++ set_next_state a (Some s) :: todo)%list) g).
      specialize (IH (pre ++ [set_next_state a (Some s)])%list m1).
      rewrite length_app, Nat.add_1_r in IH. rewrite IH.
      * subst m1. cbn [random set_random].
        destruct (snapshot_candidates m0 todo g) as [[r g'']|e]; cbn [bind];
          [|reflexivity].
        cbn [fst snd]. rewrite <- app_assoc. reflexivity.
      * subst m1. cbn. rewrite <- app_assoc. reflexivity.
      * subst m1. destruct Hp as (?&?&?&?&?&?&?&?).
        unfold same_params. cbn. splits; assumption.
      * subst m1. cbn [agents set_random set_agents].
        rewrite Hm in Hv. eapply same_view_replace; [exact Hv| |];
          destruct a; reflexivity.
    + specialize (IH (pre ++ [a])%list m).
      rewrite length_app, Nat.add_1_r in IH. rewrite IH.
      * destruct (snapshot_candidates m0 todo (random m)) as [[r g'']|e];
          cbn [bind]; [|reflexivity].
        cbn [fst snd]. rewrite <- app_assoc. reflexivity.
      * rewrite Hm, <- app_assoc. reflexivity.
      * exact Hp.
      * exact Hv.
Qed.

Lemma same_params_refl (m : DisinformationModel) : same_params m m.
Proof. unfold same_params. splits; reflexivity. Qed.

(** The in-place compute loop equals one pass over the frozen snapshot. *)
Lemma compute_phase_eq (m : DisinformationModel) :
  for_each_agent agent_step m
  = (r <- snapshot_candidates m (agents m) (random m) ;;
     Ok (set_random (set_agents m (fst r)) (snd r))).
Proof.
  apply (compute_phase_from m (agents m) [] m);
    [reflexivity | apply same_params_refl | apply same_view_refl].
Qed.

(** ** One step on settled agents *)

(** The commit of a valid pending candidate, every field. *)
Lemma advance_effect (a : DisinformationAgent) (ns : string) (cum : Z) :
  next_state a = Some ns ->
  valid_state ns ->
  let a' := fst (advance a cum) in
  state a' = ns /\
  next_state a' = None /\
  infection_count a' = infection_count a + ind (enters_I a a') /\
  recovery_count a'
  = recovery_count a + ind (in_state "I" a && in_state "R" a') /\
  relapse_count a'
  = relapse_count a + ind (in_state "R" a && in_state "S" a') /\
  time_in_I a' = time_in_I a + ind (in_state "I" a') /\
  same_identity a a'.
Proof.
  intros Hns Hv. unfold advance. rewrite Hns, (valid_state_truthy ns Hv).
  unfold enters_I, in_state, same_identity, ind.
  destruct a as [id ar n t c i st nx ic rc lc ti cd]. cbn in Hns |- *. clear Hns.
  destruct Hv as [->|[->|[->| ->]]].
  all: repeat (cbn;
          match goal with
          | |- context [String.eqb ?x ?y] =>
              is_var x; destruct (String.eqb_spec x y); subst;
              try congruence
          end).
  all: cbn; splits; try reflexivity; try lia.
Qed.

Lemma advance_identity (a : DisinformationAgent) (c : Z) :
  same_identity a (fst (advance a c)).
Proof.
  unfold advance, same_identity.
  destruct (truthy (next_state a)) as [ns|]; [|cbn; splits; reflexivity].
  destruct a as [id ar n t cb0 i st nx ic rc lc ti cd]. cbn.
  repeat match goal with
         | |- context [if ?b then _ else _] => destruct b
         end; cbn; splits; reflexivity.
Qed.

Lemma total_of_cons (f : DisinformationAgent -> Z) (a : DisinformationAgent)
  (l : list DisinformationAgent) :
  total_of f (a :: l) = f a + total_of f l.
Proof. reflexivity. Qed.

(** The commit pass, agent by agent, and what it adds to the counter. *)
Lemma advance_all_spec (l : list DisinformationAgent) :
  forall c,
    Forall2 (fun a a' => exists c0, a' = fst (advance a c0))
            l (fst (advance_all l c)) /\
    snd (advance_all l c)
    = c + (total_of infection_count (fst (advance_all l c))
           - total_of infection_count l).
Proof.
  induction l as [|a l IH]; intros c.
  - simpl. split; [constructor | unfold total_of; simpl; lia].
  - cbn [advance_all].
    pose proof (advance_enters a c) as He. cbv zeta in He.
    destruct He as (H1 & H2 & _).
    destruct (advance a c) as [a' c1] eqn:Ha. cbn [fst snd] in H1, H2.
    destruct (IH c1) as [IH1 IH2].
    destruct (advance_all l c1) as [r c2]. cbn [fst snd] in *.
    split.
    + constructor; [|exact IH1]. exists c. now rewrite Ha.
    + rewrite !total_of_cons, IH2, H2, H1. lia.
Qed.


(** The candidate of an agent in a valid state lies on an edge of the state
    machine. *)
Lemma candidate_allowed (m : DisinformationModel) (a : DisinformationAgent)
  (c : option (string * Rng)) :
  valid_state (state a) ->
  candidate m a = Ok c ->
  exists s g, c = Some (s, g) /\ allowed (state a) s /\ valid_state s.
Proof.
  intros Hv. unfold candidate, allowed, valid_state.
  destruct Hv as [E|[E|[E|E]]]; rewrite E;
    cbn [String.eqb Ascii.eqb Bool.eqb andb].
  - intros H. inv_bind H. destruct x as [s g]. injection H as <-.
    exists s, g. split; [reflexivity|].
    destruct (check_exposure_valid _ _ _ _ Hx) as [->| ->]; tauto.
  - intros [= <-]. pose proof (check_adoption_valid m a) as H.
    destruct (_check_adoption m a) as [s g]. simpl in H.
    exists s, g. split; [reflexivity|]. destruct H as [->| ->]; tauto.
  - intros [= <-]. pose proof (check_correction_valid m a) as H.
    destruct (_check_correction m a) as [s g]. simpl in H.
    exists s, g. split; [reflexivity|]. destruct H as [->| ->]; tauto.
  - intros [= <-]. pose proof (check_relapse_valid m a) as H.
    destruct (_check_relapse m a) as [s g]. simpl in H.
    exists s, g. split; [reflexivity|]. destruct H as [->| ->]; tauto.
Qed.


(** The compute pass, agent by agent. *)
Lemma snapshot_candidates_spec (m : DisinformationModel)
  (l : list DisinformationAgent) :
  forall g r g',
    snapshot_candidates m l g = Ok (r, g') ->
    Forall2 (fun a a' =>
               exists gi,
                 (exists s gi', candidate (set_random m gi) a = Ok (Some (s, gi')) /\
                                a' = set_next_state a (Some s)) \/
                 (candidate (set_random m gi) a = Ok None /\ a' = a))
            l r.
Proof.
  induction l as [|a l IH]; intros g r g' H; simpl in H.
  - injection H as <- <-. constructor.
  - inv_bind H. destruct x as [[s g1]|].
    + inv_bind H. destruct x as [r1 g2]. injection H as <- <-.
      constructor; [|eapply IH; eauto].
      exists g. left. eauto.
    + inv_bind H. destruct x as [r1 g2]. injection H as <- <-.
      constructor; [|eapply IH; eauto].
      exists g. right. auto.
Qed.

(** A whole step as the composition of the two passes. *)
Lemma step_eq (m : DisinformationModel) :
  step m
  = (r <- snapshot_candidates m (agents m) (random m) ;;
     let r2 := advance_all (fst r) (cumulative_infected m) in
     let m2 := set_cumulative_infected
                 (set_agents (set_random m (snd r)) (fst r2)) (snd r2) in
     Ok (set_current_step (collect m2) (current_step m + 1))).
Proof.
  unfold step. rewrite compute_phase_eq.
  destruct (snapshot_candidates m (agents m) (random m)) as [[l1 g1]|e];
    cbn [bind]; [|reflexivity].
  rewrite commit_phase_eq. cbn [bind]. reflexivity.
Qed.

Lemma allowed_valid (s s' : string) : allowed s s' -> valid_state s'.
Proof. unfold allowed, valid_state. tauto. Qed.

Lemma Forall2_Forall_l {A B : Type} (P : A -> Prop) (R Q : A -> B -> Prop)
  (l : list A) (l' : list B) :
  Forall P l -> Forall2 R l l' ->
  (forall a b, P a -> R a b -> Q a b) ->
  Forall2 Q l l'.
Proof.
  intros HP HR HQ. induction HR; constructor; inversion HP; subst; auto.
Qed.

(** One step from settled agents: every agent moves along one edge of the
    state machine, to the state that its candidate computation on the
    snapshot returned, and its counters record the edge; the model counter
    grows by the number of entries into I. *)
Lemma step_settled (m m' : DisinformationModel) :
  step m = Ok m' ->
  Forall settled (agents m) ->
  Forall2 (fun a a' =>
             step_rel a a' /\
             exists gi g',
               candidate (set_random m gi) a = Ok (Some (state a', g')))
          (agents m) (agents m') /\
  cumulative_infected m'
  = cumulative_infected m
    + (total_of infection_count (agents m')
       - total_of infection_count (agents m)) /\
  same_params m m' /\
  current_step m' = current_step m + 1.
Proof.
  rewrite step_eq. intros H Hs. inv_bind H. destruct x as [l1 g1].
  cbv zeta in H. injection H as <-.
  cbn [fst snd agents cumulative_infected current_step collect
         set_current_step set_datacollector set_cumulative_infected
         set_agents set_random].
  pose proof (snapshot_candidates_spec _ _ _ _ _ Hx) as H1.
  destruct (advance_all_spec l1 (cumulative_infected m)) as [H2 H3].
  assert (Hinf : total_of infection_count l1
                 = total_of infection_count (agents m)).
  { clear -H1. induction H1 as [|a a' l l' Ha _ IH]; [reflexivity|].
    rewrite !total_of_cons, IH. f_equal.
    destruct Ha as (gi & [(s & gi' & _ & ->)|[_ ->]]);
      [destruct a|]; reflexivity. }
  split; [|split; [rewrite H3, Hinf; reflexivity | split;
                   [unfold same_params; cbn; splits; reflexivity | reflexivity]]].
  assert (H12 : Forall2 (fun a a1 =>
                   exists s, a1 = set_next_state a (Some s) /\
                             allowed (state a) s /\
                             exists gi g',
                               candidate (set_random m gi) a = Ok (Some (s, g')))
                        (agents m) l1).
  { eapply Forall2_Forall_l; [exact Hs | exact H1|].
    intros a a1 [Hv Hn] (gi & Hc).
    destruct Hc as [(s & gi' & Hc & ->)|[Hc ->]].
    - destruct (candidate_allowed _ _ _ Hv Hc) as (s' & g' & [= <- <-] & Hal & _).
      eauto 8.
    - destruct (candidate_allowed _ _ _ Hv Hc) as (s' & g' & Hd & _).
      discriminate. }
  clear H1 H3 Hinf Hx Hs.
  revert H2. generalize (fst (advance_all l1 (cumulative_infected m))).
  generalize dependent (agents m). intros l0 H12.
  induction H12 as [|a a1 l l1 (s & -> & Hal & Hcand) _ IH]; intros l2 H2;
    inversion H2 as [|x y lx ly (c0 & ->) H2']; subst; constructor.
  - pose proof (advance_effect (set_next_state a (Some s)) s c0) as He.
    cbv zeta in He.
    assert (Hn : next_state (set_next_state a (Some s)) = Some s)
      by (destruct a; reflexivity).
    specialize (He Hn (allowed_valid _ _ Hal)).
    destruct He as (E1 & E2 & E3 & E4 & E5 & E6 & E7).
    split; [|rewrite E1; exact Hcand].
    unfold step_rel, enters_I, in_state, same_identity in *.
    replace (state (set_next_state a (Some s))) with (state a) in *
      by (destruct a; reflexivity).
    rewrite E1, E2, E3, E4, E5, E6.
    destruct E7 as (I1 & I2 & I3 & I4 & I5 & I6).
    rewrite I1, I2, I3, I4, I5, I6, E1.
    splits; try (destruct a; reflexivity). exact Hal.
  - apply IH. exact H2'.
Qed.

(** X1: the compute loop, which writes candidates into the agents one after
    the other, computes every candidate from the states at the start of the
    step: it equals a pass over the frozen snapshot in which only the random
    stream is threaded, errors included; the commit loop is a pass of
    [advance] that never fails; and a step is the two passes followed by one
    collected row. *)
Theorem step_is_compute_then_commit (m : DisinformationModel) :
  for_each_agent agent_step m
  = (r <- snapshot_candidates m (agents m) (random m) ;;
     Ok (set_random (set_agents m (fst r)) (snd r))) /\
  (forall m1,
      for_each_agent agent_advance m1
      = Ok (set_cumulative_infected
              (set_agents m1
                 (fst (advance_all (agents m1) (cumulative_infected m1))))
              (snd (advance_all (agents m1) (cumulative_infected m1))))) /\
  step m
  = (r <- snapshot_candidates m (agents m) (random m) ;;
     let r2 := advance_all (fst r) (cumulative_infected m) in
     let m2 := set_cumulative_infected
                 (set_agents (set_random m (snd r)) (fst r2)) (snd r2) in
     Ok (set_current_step (collect m2) (current_step m + 1))).
Proof.
  assert (H1 : for_each_agent agent_step m
               = (r <- snapshot_candidates m (agents m) (random m) ;;
                  Ok (set_random (set_agents m (fst r)) (snd r)))).
  { apply (compute_phase_from m (agents m) [] m);
      [reflexivity | apply same_params_refl | apply same_view_refl]. }
  assert (H2 : forall m1,
             for_each_agent agent_advance m1
             = Ok (set_cumulative_infected
                     (set_agents m1
                        (fst (advance_all (agents m1) (cumulative_infected m1))))
                     (snd (advance_all (agents m1) (cumulative_infected m1))))).
  { intros m1. apply (commit_phase_from (agents m1) [] m1). reflexivity. }
  split; [exact H1|]. split; [exact H2|].
  unfold step. rewrite H1.
  destruct (snapshot_candidates m (agents m) (random m)) as [[l1 g1]|e];
    cbn [bind]; [|reflexivity].
  rewrite H2. reflexivity.
Qed.

(** ** Settled models *)

Lemma step_rel_settled (a a' : DisinformationAgent) :
  step_rel a a' -> settled a'.
Proof.
  intros (Hal & Hn & _). split; [eapply allowed_valid; eauto | exact Hn].
Qed.

Lemma step_keeps_settled (m m' : DisinformationModel) :
  step m = Ok m' -> Forall settled (agents m) -> Forall settled (agents m').
Proof.
  intros Hstep Hs. destruct (step_settled _ _ Hstep Hs) as (HF & _).
  clear -HF. induction HF as [|a a' l l' [Hr _] _ IH]; constructor;
    [eapply step_rel_settled; eauto | exact IH].
Qed.

Lemma steps_keep_settled (k : nat) :
  forall m mk, steps k m = Ok mk -> Forall settled (agents m) ->
               Forall settled (agents mk).
Proof.
  induction k as [|k IH]; intros m mk H Hs; simpl in H.
  - now injection H as <-.
  - inv_bind H. eauto using step_keeps_settled.
Qed.

Lemma init_settled (c : Config) (m : DisinformationModel) :
  DisinformationModel_init c = Ok m -> Forall settled (agents m).
Proof.
  intros H. destruct (init_model_ok c m H) as [_ Hf].
  eapply Forall_impl; [|exact Hf]. intros a (_ & Hn & Hs).
  split; [|exact Hn]. unfold valid_state. tauto.
Qed.

Lemma run_loop_steps (budget : nat) :
  forall m m', run_loop budget m = Ok m' ->
               exists k, (k <= budget)%nat /\ steps k m = Ok m'.
Proof.
  induction budget as [|b IH]; intros m m' H; simpl in H.
  - injection H as <-. exists 0%nat. split; [lia | reflexivity].
  - inv_bind H. destruct (_epidemic_ended x).
    + injection H as <-. exists 1%nat. split; [lia|]. simpl. now rewrite Hx.
    + destruct (IH _ _ H) as (k & Hk & Hs). exists (Datatypes.S k).
      split; [lia|]. simpl. now rewrite Hx.
Qed.

(** X2: from settled agents (valid state, no pending candidate), one step
    moves every agent along one edge of the cycle S, E, I, R, S or leaves it
    where it is, never across two edges; it changes neither the agent's id,
    archetype nor traits, and leaves every agent settled again. *)
Theorem step_follows_state_machine (m m' : DisinformationModel) :
  Forall settled (agents m) ->
  step m = Ok m' ->
  Forall2 (fun a a' => allowed (state a) (state a') /\ same_identity a a')
          (agents m) (agents m') /\
  Forall settled (agents m').
Proof.
  intros Hs Hstep. split; [|eapply step_keeps_settled; eauto].
  destruct (step_settled _ _ Hstep Hs) as (HF & _).
  eapply Forall2_impl; [|exact HF].
  intros a a' [(Hal & _ & _ & _ & _ & _ & Hid) _]. auto.
Qed.

Lemma step_follows_state_machine_witness :
  exists m',
    step (constructed cfg_reinfection) = Ok m' /\
    Forall2 (fun a a' => allowed (state a) (state a') /\ same_identity a a')
            (agents (constructed cfg_reinfection)) (agents m') /\
    Forall settled (agents m').
Proof.
  eexists. split; [vm_compute; reflexivity|].
  apply step_follows_state_machine.
  - apply (init_settled cfg_reinfection). vm_compute. reflexivity.
  - vm_compute. reflexivity.
Defined.

(** ** Extinction *)

Lemma count_state_zero (m : DisinformationModel) (s : string) :
  _count_state m s = 0 <-> Forall (fun a => state a <> s) (agents m).
Proof.
  unfold _count_state. rewrite Zsum_ones.
  induction (agents m) as [|a l IH]; simpl.
  - split; [constructor | reflexivity].
  - destruct (String.eqb_spec (state a) s) as [E|E].
    + split; [simpl; lia|]. intros H. inversion H; subst. contradiction.
    + rewrite IH. split; [constructor; assumption|].
      intros H. now inversion H.
Qed.


Lemma total_of_Forall2_eq (h : DisinformationAgent -> Z)
  (l l' : list DisinformationAgent) :
  Forall2 (fun a a' => h a' = h a) l l' -> total_of h l' = total_of h l.
Proof.
  induction 1 as [|a a' l l' H _ IH]; [reflexivity|].
  rewrite !total_of_cons. lia.
Qed.




(** ** Every policy selects distinct agents *)

Lemma NoDup_map_inj_on {A B : Type} (f : A -> B) (l : list A) :
  NoDup l ->
  (forall x y, In x l -> In y l -> f x = f y -> x = y) ->
  NoDup (map f l).
Proof.
  induction 1 as [|x l Hx Hl IH]; intros Hinj; simpl; constructor.
  - intros Hin. apply in_map_iff in Hin. destruct Hin as (y & Hy & Hiny).
    assert (y = x) by (apply Hinj; simpl; auto). subst. contradiction.
  - apply IH. intros a b Ha Hb. apply Hinj; simpl; auto.
Qed.

(** [random.sample] on any pool of distinct elements returns distinct
    elements of the pool, as many as asked for. *)
Lemma random_sample_pool (g g' : Rng) (pool : list nat) (k : Z) (l : list nat) :
  random_sample g pool k = Ok (l, g') ->
  NoDup pool ->
  NoDup l /\ incl l pool /\ Z.of_nat (List.length l) = k.
Proof.
  unfold random_sample.
  destruct (Z.ltb_spec k 0); [discriminate|].
  destruct (Z.ltb_spec (Z.of_nat (List.length pool)) k); [discriminate|].
  cbn [orb].
  pose proof (rng_choose_spec g (List.length pool) (Z.to_nat k)) as Hs.
  cbv zeta in Hs.
  destruct (rng_choose g (List.length pool) (Z.to_nat k)) as [idx g1].
  cbn [fst] in Hs. destruct Hs as (H1 & H2 & H3); [lia|].
  intros [= <- <-] Hnd. rewrite Forall_forall in H3. splits.
  - apply NoDup_map_inj_on; [exact H2|].
    intros x y Hx Hy E.
    apply (proj1 (NoDup_nth pool 0%nat) Hnd x y (H3 x Hx) (H3 y Hy) E).
  - intros v Hv. apply in_map_iff in Hv. destruct Hv as (i & <- & Hi).
    apply nth_In. exact (H3 i Hi).
  - rewrite length_map, H1. lia.
Qed.

Lemma agent_has_archetype_unique (l : list DisinformationAgent)
  (n1 n2 : string) (i : nat) :
  agent_has l (fun a => String.eqb (archetype a) n1) i = true ->
  n1 <> n2 ->
  agent_has l (fun a => String.eqb (archetype a) n2) i = false.
Proof.
  unfold agent_has. destruct (nth_error l i) as [a|]; [|discriminate].
  intros H1 Hne. apply String.eqb_eq in H1.
  destruct (String.eqb_spec (archetype a) n2); congruence.
Qed.

Lemma seed_archetypes_distinct (table : list (string * ArchetypeParams))
  (l : list DisinformationAgent) (agent_list : list nat) (n_seed : Z) :
  forall g acc seeds g',
    seed_archetypes table l agent_list n_seed g acc = Ok (seeds, g') ->
    NoDup (keys table) ->
    NoDup agent_list ->
    NoDup acc ->
    incl acc agent_list ->
    (forall i name, In i acc -> In name (keys table) ->
                    agent_has l (fun a => String.eqb (archetype a) name) i = false) ->
    NoDup seeds /\ incl seeds agent_list.
Proof.
  induction table as [|[name p0] rest IH];
    intros g acc seeds g' H Hk Hal Hacc Hincl Hdis; simpl in H.
  - injection H as <- <-. auto.
  - inversion Hk as [|? ? Hnotin Hk']; subst.
    assert (Hdis' : forall i name', In i acc -> In name' (keys rest) ->
              agent_has l (fun a => String.eqb (archetype a) name') i = false).
    { intros i name' Hi Hn. apply Hdis; [exact Hi | right; exact Hn]. }
    set (pool := filter (agent_has l (fun a => String.eqb (archetype a) name))
                        agent_list) in *.
    inv_bind H. rename x into params.
    destruct pool as [|p pool'] eqn:Hpool; [eapply IH; eauto|].
    destruct (0 <? py_int (inject_Z n_seed * distribution params)%Q);
      [|eapply IH; eauto].
    inv_bind H. destruct x as [s1 g1].
    assert (Hpnd : NoDup (p :: pool')).
    { rewrite <- Hpool. apply NoDup_filter. exact Hal. }
    destruct (random_sample_pool _ _ _ _ _ Hx0 Hpnd) as (Hs1 & Hs2 & _).
    assert (Hin_pool : forall i, In i s1 ->
              In i agent_list /\
              agent_has l (fun a => String.eqb (archetype a) name) i = true).
    { intros i Hi. apply Hs2 in Hi. rewrite <- Hpool in Hi.
      subst pool. apply filter_In in Hi. exact Hi. }
    eapply IH; [exact H | exact Hk' | exact Hal | | |].
    + apply NoDup_app; [exact Hacc | exact Hs1 |].
      intros i Hi Hi'. destruct (Hin_pool i Hi') as [_ Ht].
      rewrite (Hdis i name Hi) in Ht; [discriminate | left; reflexivity].
    + intros i Hi. apply in_app_or in Hi. destruct Hi as [Hi|Hi];
        [apply Hincl; exact Hi | apply (Hin_pool i Hi)].
    + intros i name' Hi Hn. apply in_app_or in Hi. destruct Hi as [Hi|Hi].
      * apply Hdis'; assumption.
      * destruct (Hin_pool i Hi) as [_ Ht].
        eapply agent_has_archetype_unique; [exact Ht|].
        intros ->. contradiction.
Qed.

(** Whatever the policy, the selected positions are distinct positions of
    the agent collection. *)
Lemma select_seed_agents_distinct (m : DisinformationModel)
  (seeds : list nat) (g : Rng) :
  select_seed_agents m = Ok (seeds, g) ->
  NoDup seeds /\ Forall (fun i => (i < List.length (agents m))%nat) seeds.
Proof.
  unfold select_seed_agents.
  assert (Hrange : forall s, incl s (seq 0 (List.length (agents m))) ->
            Forall (fun i => (i < List.length (agents m))%nat) s).
  { intros s Hs. apply Forall_forall. intros i Hi. apply Hs in Hi.
    apply in_seq in Hi. lia. }
  destruct (String.eqb (seeding_strategy m) "random").
  { intros H. apply random_sample_positions in H.
    destruct H as (_ & _ & H1 & H2 & _). auto. }
  destruct (String.eqb (seeding_strategy m) "hub_targeted").
  { intros [= <- <-]. split.
    - apply NoDup_filter, seq_NoDup.
    - apply Hrange. intros i Hi. apply filter_In in Hi. apply Hi. }
  destruct (String.eqb (seeding_strategy m) "archetype_proportional");
    [|discriminate].
  intros H.
  destruct (seed_archetypes_distinct _ _ _ _ _ _ _ _ H) as [H1 H2].
  - unfold ARCHETYPES, keys. simpl.
    repeat constructor; simpl; intuition discriminate.
  - apply seq_NoDup.
  - constructor.
  - intros i [].
  - intros i name [].
  - split; [exact H1 | apply Hrange; exact H2].
Qed.

Lemma filter_positions_length {A : Type} (f : A -> bool) (p : nat -> bool)
  (l : list A) :
  forall start,
    (forall i a, nth_error l i = Some a -> f a = p (start + i)%nat) ->
    List.length (filter f l)
    = List.length (filter p (seq start (List.length l))).
Proof.
  induction l as [|x l IH]; intros start H; [reflexivity|].
  cbn [filter List.length seq].
  rewrite (H 0%nat x eq_refl), Nat.add_0_r.
  assert (IH' : List.length (filter f l)
                = List.length (filter p (seq (Datatypes.S start) (List.length l)))).
  { apply IH. intros i a Hi. rewrite (H (Datatypes.S i) a Hi). f_equal. lia. }
  destruct (p start); cbn [List.length]; rewrite IH'; reflexivity.
Qed.

Lemma is_seed_filter_length (seeds : list nat) (n : nat) :
  NoDup seeds -> Forall (fun i => (i < n)%nat) seeds ->
  List.length (filter (is_seed seeds) (seq 0 n)) = List.length seeds.
Proof.
  intros Hnd Hr. apply Permutation_length. apply NoDup_Permutation.
  - apply NoDup_filter, seq_NoDup.
  - exact Hnd.
  - intros i. rewrite filter_In, is_seed_In, in_seq.
    rewrite Forall_forall in Hr. split; [tauto|].
    intros Hi. specialize (Hr i Hi). split; [lia | exact Hi].
Qed.

(** The states right after construction, by position. *)
Lemma init_states (c : Config) (m : DisinformationModel) :
  DisinformationModel_init c = Ok m ->
  exists seeds,
    NoDup seeds /\
    Forall (fun i => (i < List.length (agents m))%nat) seeds /\
    cumulative_infected m = Z.of_nat (List.length seeds) /\
    (forall i a', nth_error (agents m) i = Some a' ->
                  state a' = (if is_seed seeds i then "I" else "S")) /\
    _count_state m "I" = Z.of_nat (List.length seeds) /\
    _count_state m "E" = 0 /\
    _count_state m "R" = 0.
Proof.
  intros Hinit.
  destruct (init_agents c m Hinit)
    as (m1 & seeds & g & Hsel & Hpr & Hlen & Hcum & Hfw & Hback).
  destruct (select_seed_agents_distinct _ _ _ Hsel) as [Hnd Hrange].
  assert (Hst : forall i a', nth_error (agents m) i = Some a' ->
                 state a' = (if is_seed seeds i then "I" else "S")).
  { intros i a' Ha'. destruct (Hback i a' Ha') as (a & Ha & ->).
    rewrite Forall_nth_error in Hpr.
    pose proof (seeded_facts a (is_seed seeds i) (Hpr i a Ha)) as Hf.
    cbv zeta in Hf. apply Hf. }
  assert (Hno : forall s, s <> "I" -> s <> "S" -> _count_state m s = 0).
  { intros s H1 H2. apply count_state_zero. apply Forall_nth_error.
    intros i a Ha. rewrite (Hst i a Ha).
    destruct (is_seed seeds i); congruence. }
  exists seeds. rewrite Hlen. splits; try assumption.
  - unfold _count_state. rewrite Zsum_ones. f_equal.
    rewrite (filter_positions_length _ (is_seed seeds) (agents m) 0%nat).
    + rewrite Hlen. apply is_seed_filter_length; assumption.
    + intros i a Ha. rewrite (Hst i a Ha). simpl.
      destruct (is_seed seeds i); reflexivity.
  - apply Hno; discriminate.
  - apply Hno; discriminate.
Qed.

(** X4: under every seeding policy the selected agents are distinct, so each
    is counted once: right after construction [cumulative_infected] equals
    the number of agents in state I, every other agent is in state S, and no
    agent is in E or R. *)
Theorem seeds_are_counted_once (c : Config) (m : DisinformationModel) :
  DisinformationModel_init c = Ok m ->
  cumulative_infected m = _count_state m "I" /\
  _count_state m "E" = 0 /\
  _count_state m "R" = 0 /\
  _count_state m "S" + _count_state m "I" = Z.of_nat (List.length (agents m)).
Proof.
  intros Hinit.
  destruct (init_states c m Hinit) as (seeds & _ & _ & Hc & Hst & HI & HE & HR).
  splits; try assumption; [congruence|].
  pose proof (count_states_total (agents m)) as Ht.
  unfold _count_state in *. rewrite HE, HR in Ht. rewrite <- Ht; [lia|].
  apply Forall_nth_error. intros i a Ha. rewrite (Hst i a Ha).
  unfold valid_state. destruct (is_seed seeds i); tauto.
Qed.

Lemma seeds_are_counted_once_witness :
  cumulative_infected (constructed (cfg_single_seed "hub_targeted"))
  = _count_state (constructed (cfg_single_seed "hub_targeted")) "I" /\
  _count_state (constructed (cfg_single_seed "hub_targeted")) "E" = 0 /\
  _count_state (constructed (cfg_single_seed "hub_targeted")) "R" = 0 /\
  _count_state (constructed (cfg_single_seed "hub_targeted")) "S"
  + _count_state (constructed (cfg_single_seed "hub_targeted")) "I"
  = Z.of_nat (List.length (agents (constructed (cfg_single_seed "hub_targeted")))).
Proof.
  apply (seeds_are_counted_once (cfg_single_seed "hub_targeted")).
  vm_compute. reflexivity.
Defined.

(** ** Accounting over a run *)

Lemma Zsum_cons (x : Z) (l : list Z) : Zsum (x :: l) = x + Zsum l.
Proof. reflexivity. Qed.

Lemma count_state_total (m : DisinformationModel) (s : string) :
  _count_state m s = total_of (fun a => ind (in_state s a)) (agents m).
Proof.
  unfold _count_state, total_of.
  induction (agents m) as [|a l IH]; [reflexivity|].
  cbn [filter map]. rewrite Zsum_cons, <- IH. unfold in_state, ind.
  destruct (String.eqb (state a) s); [cbn [map]; rewrite Zsum_cons|]; lia.
Qed.

Lemma total_of_sub3 (f g h : DisinformationAgent -> Z)
  (l : list DisinformationAgent) :
  total_of (fun a => f a - g a - h a) l
  = total_of f l - total_of g l - total_of h l.
Proof.
  induction l as [|a l IH]; [reflexivity|]. rewrite !total_of_cons, IH. lia.
Qed.

Lemma total_of_Forall2_le (h : DisinformationAgent -> Z)
  (l l' : list DisinformationAgent) :
  Forall2 (fun a a' => h a <= h a') l l' -> total_of h l <= total_of h l'.
Proof.
  induction 1 as [|a a' l l' H _ IH]; [reflexivity|].
  rewrite !total_of_cons. lia.
Qed.

Lemma total_of_Forall2_add (h d : DisinformationAgent -> Z)
  (l l' : list DisinformationAgent) :
  Forall2 (fun a a' => h a' = h a + d a') l l' ->
  total_of h l' = total_of h l + total_of d l'.
Proof.
  induction 1 as [|a a' l l' H _ IH]; [reflexivity|].
  rewrite !total_of_cons. lia.
Qed.

Lemma ind_nonneg (b : bool) : 0 <= ind b.
Proof. destruct b; simpl; lia. Qed.

(** What one edge of the state machine does to the balances. *)
Lemma step_rel_balance (a a' : DisinformationAgent) :
  step_rel a a' ->
  infection_balance a' = infection_balance a /\
  recovery_balance a' = recovery_balance a /\
  infection_count a <= infection_count a' /\
  recovery_count a <= recovery_count a' /\
  relapse_count a <= relapse_count a' /\
  time_in_I a' = time_in_I a + ind (in_state "I" a').
Proof.
  intros (Hal & _ & Hi & Hr & Hl & Ht & _).
  unfold infection_balance, recovery_balance, enters_I, in_state in *.
  destruct Hal as [[E [E'|E']]|[[E [E'|E']]|[[E [E'|E']]|[E [E'|E']]]]];
    rewrite E, E' in *; cbn in *; lia.
Qed.

Lemma steps_balance (k : nat) :
  forall m mk,
    Forall settled (agents m) ->
    steps k m = Ok mk ->
    total_of infection_balance (agents mk)
    = total_of infection_balance (agents m) /\
    total_of recovery_balance (agents mk)
    = total_of recovery_balance (agents m) /\
    cumulative_infected mk - total_of infection_count (agents mk)
    = cumulative_infected m - total_of infection_count (agents m) /\
    total_of infection_count (agents m) <= total_of infection_count (agents mk) /\
    total_of recovery_count (agents m) <= total_of recovery_count (agents mk) /\
    total_of relapse_count (agents m) <= total_of relapse_count (agents mk).
Proof.
  induction k as [|k IH]; intros m mk Hs H; simpl in H.
  - injection H as <-. splits; reflexivity.
  - inv_bind H. rename x into m1.
    destruct (step_settled _ _ Hx Hs) as (HF & Hcum & _).
    assert (HB : Forall2 (fun a a' =>
                   infection_balance a' = infection_balance a /\
                   recovery_balance a' = recovery_balance a /\
                   infection_count a <= infection_count a' /\
                   recovery_count a <= recovery_count a' /\
                   relapse_count a <= relapse_count a' /\
                   time_in_I a' = time_in_I a + ind (in_state "I" a'))
                 (agents m) (agents m1)).
    { eapply Forall2_impl; [|exact HF]. intros a a' [Hr _].
      apply step_rel_balance. exact Hr. }
    destruct (IH m1 mk (step_keeps_settled _ _ Hx Hs) H)
      as (I1 & I2 & I3 & I4 & I5 & I6).
    assert (B1 : total_of infection_balance (agents m1)
                 = total_of infection_balance (agents m)).
    { apply total_of_Forall2_eq. eapply Forall2_impl; [|exact HB]. intros ? ? Hq; apply Hq. }
    assert (B2 : total_of recovery_balance (agents m1)
                 = total_of recovery_balance (agents m)).
    { apply total_of_Forall2_eq. eapply Forall2_impl; [|exact HB]. intros ? ? Hq; apply Hq. }
    assert (B4 : total_of infection_count (agents m)
                 <= total_of infection_count (agents m1)).
    { apply total_of_Forall2_le. eapply Forall2_impl; [|exact HB]. intros ? ? Hq; apply Hq. }
    assert (B5 : total_of recovery_count (agents m)
                 <= total_of recovery_count (agents m1)).
    { apply total_of_Forall2_le. eapply Forall2_impl; [|exact HB]. intros ? ? Hq; apply Hq. }
    assert (B6 : total_of relapse_count (agents m)
                 <= total_of relapse_count (agents m1)).
    { apply total_of_Forall2_le. eapply Forall2_impl; [|exact HB]. intros ? ? Hq; apply Hq. }
    splits; lia.
Qed.

(** X5: [cumulative_infected] never decreases, and over any number of steps
    from settled agents it grows by exactly the growth of the sum of the
    agents' [infection_count]. *)
Theorem cumulative_infected_accounting (m mk : DisinformationModel) (k : nat) :
  Forall settled (agents m) ->
  steps k m = Ok mk ->
  cumulative_infected m <= cumulative_infected mk /\
  cumulative_infected mk - cumulative_infected m
  = total_of infection_count (agents mk) - total_of infection_count (agents m).
Proof.
  intros Hs H. destruct (steps_balance k m mk Hs H) as (_ & _ & H3 & H4 & _).
  split; lia.
Qed.

Lemma cumulative_infected_accounting_witness :
  exists mk,
    steps 4 (constructed cfg_reinfection) = Ok mk /\
    cumulative_infected (constructed cfg_reinfection) <= cumulative_infected mk /\
    cumulative_infected mk - cumulative_infected (constructed cfg_reinfection)
    = total_of infection_count (agents mk)
      - total_of infection_count (agents (constructed cfg_reinfection)).
Proof.
  assert (H : exists mk, steps 4 (constructed cfg_reinfection) = Ok mk)
    by (eexists; vm_compute; reflexivity).
  destruct H as [mk H]. exists mk. split; [exact H|].
  apply (cumulative_infected_accounting (constructed cfg_reinfection) mk 4).
  - apply (init_settled cfg_reinfection). vm_compute. reflexivity.
  - exact H.
Defined.

Lemma total_of_zero (f : DisinformationAgent -> Z) (l : list DisinformationAgent) :
  Forall (fun a => f a = 0) l -> total_of f l = 0.
Proof.
  induction 1 as [|a l H _ IH]; [reflexivity|]. rewrite total_of_cons. lia.
Qed.

Lemma init_totals (c : Config) (m : DisinformationModel) :
  DisinformationModel_init c = Ok m ->
  total_of infection_count (agents m) = 0 /\
  total_of recovery_count (agents m) = 0 /\
  total_of relapse_count (agents m) = 0 /\
  total_of time_in_I (agents m) = 0.
Proof.
  intros H. destruct (init_model_ok c m H) as [_ Hf].
  splits; apply total_of_zero; (eapply Forall_impl; [|exact Hf]);
    intros a ((H1 & H2 & H3 & H4 & H5) & _); assumption.
Qed.

(** X6: conservation of infections on every constructed model, after any
    number of steps: every entry into I, seeds included, is either still
    infected or has been recovered from, and every recovery is either still
    in force or has been relapsed from.  In counters:
    [cumulative_infected] is the number of seeds plus the sum of
    [infection_count], it is the sum of [recovery_count] plus the number of
    agents in I, and the sum of [recovery_count] is the sum of
    [relapse_count] plus the number of agents in R. *)
Theorem infections_are_conserved (c : Config) (m mk : DisinformationModel)
  (k : nat) :
  DisinformationModel_init c = Ok m ->
  steps k m = Ok mk ->
  cumulative_infected mk
  = cumulative_infected m + total_of infection_count (agents mk) /\
  cumulative_infected mk
  = total_of recovery_count (agents mk) + _count_state mk "I" /\
  total_of recovery_count (agents mk)
  = total_of relapse_count (agents mk) + _count_state mk "R" /\
  0 <= total_of relapse_count (agents mk).
Proof.
  intros Hinit H.
  destruct (steps_balance k m mk (init_settled c m Hinit) H)
    as (B1 & B2 & B3 & _ & _ & B6).
  destruct (init_totals c m Hinit) as (T1 & T2 & T3 & _).
  destruct (init_states c m Hinit) as (seeds & _ & _ & S0 & _ & SI & _ & S3).
  assert (S1 : cumulative_infected m = _count_state m "I") by congruence.
  unfold infection_balance, recovery_balance in B1, B2.
  rewrite !total_of_sub3, <- !count_state_total in B1, B2.
  splits; lia.
Qed.

Lemma infections_are_conserved_witness :
  exists mk,
    steps 4 (constructed cfg_reinfection) = Ok mk /\
    cumulative_infected mk
    = cumulative_infected (constructed cfg_reinfection)
      + total_of infection_count (agents mk) /\
    cumulative_infected mk
    = total_of recovery_count (agents mk) + _count_state mk "I" /\
    total_of recovery_count (agents mk)
    = total_of relapse_count (agents mk) + _count_state mk "R" /\
    0 <= total_of relapse_count (agents mk).
Proof.
  assert (H : exists mk, steps 4 (constructed cfg_reinfection) = Ok mk)
    by (eexists; vm_compute; reflexivity).
  destruct H as [mk H]. exists mk. split; [exact H|].
  apply (infections_are_conserved cfg_reinfection
           (constructed cfg_reinfection) mk 4).
  - vm_compute. reflexivity.
  - exact H.
Defined.

(** ** The relapse rate of the comparison table *)

Lemma count_state_nonneg (m : DisinformationModel) (s : string) :
  0 <= _count_state m s.
Proof. unfold _count_state. rewrite Zsum_ones. lia. Qed.

Lemma Qdiv_unit (a b : Z) :
  0 <= a <= b -> 0 < b -> (0 <= inject_Z a / inject_Z b <= 1)%Q.
Proof.
  intros Ha Hb.
  assert (Hb' : (0 < inject_Z b)%Q) by (unfold Qlt; simpl; lia).
  split.
  - apply Qle_shift_div_l; [exact Hb'|]. rewrite Qmult_0_l.
    unfold Qle; simpl; lia.
  - apply Qle_shift_div_r; [exact Hb'|]. rewrite Qmult_1_l.
    unfold Qle; simpl; lia.
Qed.

(** X7: the relapse rate that [create_baseline_comparison_table] reports
    for a model after its run, total relapses over [cumulative_infected], is
    a fraction in [0,1]: no agent relapses more often than it recovered, and
    no agent recovers more often than it was infected or seeded. *)
Theorem relapse_rate_is_a_fraction (c : Config) (m m' : DisinformationModel)
  (max_steps : Z) :
  DisinformationModel_init c = Ok m ->
  run max_steps m = Ok m' ->
  (0 <= relapse_rate m' <= 1)%Q /\
  total_of relapse_count (agents m') <= total_of recovery_count (agents m') /\
  total_of recovery_count (agents m') <= cumulative_infected m'.
Proof.
  intros Hinit Hrun. unfold run in Hrun.
  destruct (run_loop_steps _ _ _ Hrun) as (k & _ & Hk).
  destruct (steps_balance k m m' (init_settled c m Hinit) Hk)
    as (B1 & B2 & B3 & _ & _ & B6).
  destruct (init_totals c m Hinit) as (T1 & T2 & T3 & _).
  destruct (init_states c m Hinit) as (seeds & _ & _ & S0 & _ & SI & _ & S3).
  unfold infection_balance, recovery_balance in B1, B2.
  rewrite !total_of_sub3, <- !count_state_total in B1, B2.
  pose proof (count_state_nonneg m' "I"). pose proof (count_state_nonneg m' "R").
  assert (H1 : total_of relapse_count (agents m')
               <= total_of recovery_count (agents m')) by lia.
  assert (H2 : total_of recovery_count (agents m') <= cumulative_infected m')
    by lia.
  split; [|split; assumption].
  unfold relapse_rate. fold (total_of relapse_count (agents m')).
  destruct (Z.ltb_spec 0 (cumulative_infected m')) as [Hpos|Hle].
  - apply Qdiv_unit; lia.
  - split; [apply Qle_refl | unfold Qle; simpl; lia].
Qed.

Lemma relapse_rate_is_a_fraction_witness :
  exists m',
    run 4 (constructed cfg_reinfection) = Ok m' /\
    (0 <= relapse_rate m' <= 1)%Q /\
    total_of relapse_count (agents m') <= total_of recovery_count (agents m') /\
    total_of recovery_count (agents m') <= cumulative_infected m'.
Proof.
  assert (H : exists m', run 4 (constructed cfg_reinfection) = Ok m')
    by (eexists; vm_compute; reflexivity).
  destruct H as [m' H]. exists m'. split; [exact H|].
  apply (relapse_rate_is_a_fraction cfg_reinfection
           (constructed cfg_reinfection) m' 4).
  - vm_compute. reflexivity.
  - exact H.
Defined.

(** ** The time series *)

Lemma step_collects (m m' : DisinformationModel) :
  step m = Ok m' ->
  datacollector m' = (datacollector m ++ [current_row m'])%list /\
  current_step m' = current_step m + 1.
Proof.
  rewrite step_eq. intros H. inv_bind H. cbv zeta in H. injection H as <-.
  split; reflexivity.
Qed.

Lemma steps_rows (k : nat) :
  forall m mk,
    steps k m = Ok mk ->
    List.length (datacollector mk) = (List.length (datacollector m) + k)%nat /\
    current_step mk = current_step m + Z.of_nat k /\
    (forall i, (i < List.length (datacollector m))%nat ->
               nth_error (datacollector mk) i = nth_error (datacollector m) i) /\
    (forall j mj, (1 <= j <= k)%nat -> steps j m = Ok mj ->
                  nth_error (datacollector mk)
                            (List.length (datacollector m) + j - 1)
                  = Some (current_row mj)).
Proof.
  induction k as [|k IH]; intros m mk H; simpl in H.
  - injection H as <-. splits; try reflexivity; try (intros; lia).
  - inv_bind H. rename x into m1.
    destruct (step_collects _ _ Hx) as [Hd Hc].
    destruct (IH m1 mk H) as (L & C & P & R).
    rewrite Hd, length_app in L, P, R. simpl in L, P, R.
    splits.
    + lia.
    + lia.
    + intros i Hi. rewrite P by lia.
      apply nth_error_app1. exact Hi.
    + intros j mj Hj Hsj. destruct j as [|j]; [lia|].
      simpl in Hsj. rewrite Hx in Hsj. cbn [bind] in Hsj.
      destruct j as [|j].
      * simpl in Hsj. injection Hsj as <-.
        rewrite P by lia.
        replace (List.length (datacollector m) + 1 - 1)%nat
          with (List.length (datacollector m)) by lia.
        apply nth_error_app_middle.
      * specialize (R (Datatypes.S j) mj). rewrite <- R; [|lia|exact Hsj].
        f_equal. lia.
Qed.

Lemma init_first_row (c : Config) (m : DisinformationModel) :
  DisinformationModel_init c = Ok m ->
  datacollector m = [current_row m] /\ current_step m = 0.
Proof.
  intros Hinit.
  destruct (init_shape c m Hinit)
    as (m1 & seeds & g & counts & _ & _ & _ & _ & _ & _ & Hm1 & _ & ->).
  pose proof (mark_seeds_spec seeds (set_random m1 g)) as Hs. cbv zeta in Hs.
  destruct Hs as (Hf & _). destruct Hf as (_&_&_&_&_&_&_&Hcs&_&Hd).
  unfold collect. cbn [datacollector current_step set_datacollector].
  rewrite Hd, Hcs, Hm1. split; reflexivity.
Qed.

(** X8: the time series of a constructed model.  After [k] steps it has
    [k + 1] rows and [current_step] is [k]; row [j] holds the counts of the
    model as it was after [j] steps, row 0 those of the construction, so
    the last row is the present state; [run(max_steps)] leaves at most
    [max_steps + 1] rows. *)
Theorem time_series_rows (c : Config) (m : DisinformationModel) :
  DisinformationModel_init c = Ok m ->
  (forall k mk,
      steps k m = Ok mk ->
      List.length (datacollector mk) = Datatypes.S k /\
      current_step mk = Z.of_nat k /\
      forall j mj, (j <= k)%nat -> steps j m = Ok mj ->
                   nth_error (datacollector mk) j = Some (current_row mj)) /\
  (forall max_steps m',
      run max_steps m = Ok m' ->
      Z.of_nat (List.length (datacollector m')) = current_step m' + 1 /\
      current_step m' <= Z.max 0 max_steps /\
      last (datacollector m') (current_row m) = current_row m').
Proof.
  intros Hinit. destruct (init_first_row c m Hinit) as [Hd Hc].
  assert (Hsteps : forall k mk,
      steps k m = Ok mk ->
      List.length (datacollector mk) = Datatypes.S k /\
      current_step mk = Z.of_nat k /\
      forall j mj, (j <= k)%nat -> steps j m = Ok mj ->
                   nth_error (datacollector mk) j = Some (current_row mj)).
  { intros k mk H. destruct (steps_rows k m mk H) as (L & C & P & R).
    rewrite Hd in L, P, R. simpl in L, P, R. rewrite Hc in C.
    splits; [exact L | lia |].
    intros j mj Hj Hsj. destruct j as [|j].
    - simpl in Hsj. injection Hsj as <-. rewrite P by lia. reflexivity.
    - specialize (R (Datatypes.S j) mj). rewrite <- R; [|lia|exact Hsj].
      f_equal; lia. }
  split; [exact Hsteps|].
  intros max_steps m' Hrun. unfold run in Hrun.
  destruct (run_loop_steps _ _ _ Hrun) as (k & Hk & Hs).
  destruct (Hsteps k m' Hs) as (L & C & R).
  splits; [lia | lia |].
  specialize (R k m' (Nat.le_refl k) Hs).
  destruct (datacollector m') as [|r0 rest] eqn:E using rev_ind;
    [simpl in L; lia|].
  rewrite last_last. rewrite length_app in L. simpl in L.
  rewrite nth_error_app2 in R by lia.
  replace (k - List.length rest)%nat with 0%nat in R by lia.
  simpl in R. congruence.
Qed.

Lemma steps_time (k : nat) :
  forall m mk,
    Forall settled (agents m) ->
    steps k m = Ok mk ->
    exists rows,
      datacollector mk = (datacollector m ++ rows)%list /\
      List.length rows = k /\
      total_of time_in_I (agents mk)
      = total_of time_in_I (agents m) + Zsum (map Infected rows).
Proof.
  induction k as [|k IH]; intros m mk Hs H; simpl in H.
  - injection H as <-. exists []. rewrite app_nil_r. simpl. splits; auto; lia.
  - inv_bind H. rename x into m1.
    destruct (step_collects _ _ Hx) as [Hd _].
    destruct (step_settled _ _ Hx Hs) as (HF & _).
    assert (Ht : total_of time_in_I (agents m1)
                 = total_of time_in_I (agents m) + _count_state m1 "I").
    { rewrite count_state_total. apply total_of_Forall2_add.
      eapply Forall2_impl; [|exact HF]. intros a a' [Hr _].
      apply step_rel_balance in Hr. apply Hr. }
    destruct (IH m1 mk (step_keeps_settled _ _ Hx Hs) H) as (rows & D & L & T).
    exists (current_row m1 :: rows). splits.
    + rewrite D, Hd, <- app_assoc. reflexivity.
    + simpl. lia.
    + rewrite T, Ht. cbn [map]. rewrite Zsum_cons. cbn [Infected current_row]. lia.
Qed.

(** X9: on a constructed model the sum of all agents' [time_in_I] after any
    number of steps is the sum of the Infected column over the rows of these
    steps (every row but the one collected at construction): each step adds
    to [time_in_I] once for every agent that ends the step in I. *)
Theorem time_in_I_is_sum_of_infected_column (c : Config)
  (m mk : DisinformationModel) (k : nat) :
  DisinformationModel_init c = Ok m ->
  steps k m = Ok mk ->
  total_of time_in_I (agents mk) = Zsum (map Infected (tl (datacollector mk))).
Proof.
  intros Hinit H.
  destruct (steps_time k m mk (init_settled c m Hinit) H) as (rows & D & _ & T).
  destruct (init_first_row c m Hinit) as [Hd _].
  destruct (init_totals c m Hinit) as (_ & _ & _ & T0).
  rewrite D, Hd. simpl. lia.
Qed.

Lemma time_in_I_is_sum_of_infected_column_witness :
  exists mk,
    steps 4 (constructed cfg_reinfection) = Ok mk /\
    total_of time_in_I (agents mk) = Zsum (map Infected (tl (datacollector mk))).
Proof.
  assert (H : exists mk, steps 4 (constructed cfg_reinfection) = Ok mk)
    by (eexists; vm_compute; reflexivity).
  destruct H as [mk H]. exists mk. split; [exact H|].
  apply (time_in_I_is_sum_of_infected_column cfg_reinfection
           (constructed cfg_reinfection) mk 4).
  - vm_compute. reflexivity.
  - exact H.
Defined.

Lemma time_series_rows_witness :
  exists mk,
    steps 4 (constructed cfg_reinfection) = Ok mk /\
    List.length (datacollector mk) = 5%nat /\
    current_step mk = 4.
Proof.
  assert (H : exists mk, steps 4 (constructed cfg_reinfection) = Ok mk)
    by (eexists; vm_compute; reflexivity).
  destruct H as [mk H]. exists mk. split; [exact H|].
  assert (Hinit : DisinformationModel_init cfg_reinfection
                  = Ok (constructed cfg_reinfection))
    by (vm_compute; reflexivity).
  destruct (time_series_rows cfg_reinfection _ Hinit) as [Hs _].
  destruct (Hs 4%nat mk H) as (L & C & _). split; [exact L | exact C].
Defined.

(** ** The estimator and the dynamics *)

Lemma snapshot_identity (m : DisinformationModel) (l : list DisinformationAgent) :
  forall g r g',
    snapshot_candidates m l g = Ok (r, g') -> Forall2 same_identity l r.
Proof.
  intros g r g' H. apply snapshot_candidates_spec in H.
  eapply Forall2_impl; [|exact H].
  intros a a' (gi & [(s & gi' & _ & ->)|[_ ->]]);
    unfold same_identity; destruct a; cbn; splits; reflexivity.
Qed.

Lemma same_identity_trans (a b c : DisinformationAgent) :
  same_identity a b -> same_identity b c -> same_identity a c.
Proof.
  unfold same_identity. intros (?&?&?&?&?&?) (?&?&?&?&?&?).
  splits; congruence.
Qed.

(** Whatever the state of the model, a step keeps every agent's identity and
    traits and every parameter. *)
Lemma step_identity (m m' : DisinformationModel) :
  step m = Ok m' ->
  Forall2 same_identity (agents m) (agents m') /\ same_params m m'.
Proof.
  rewrite step_eq. intros H. inv_bind H. destruct x as [l1 g1].
  cbv zeta in H. injection H as <-.
  cbn [fst snd agents collect set_current_step set_datacollector
         set_cumulative_infected set_agents set_random].
  split; [|unfold same_params; cbn; splits; reflexivity].
  pose proof (snapshot_identity _ _ _ _ _ Hx) as H1.
  destruct (advance_all_spec l1 (cumulative_infected m)) as [H2 _].
  eapply Forall2_compose; [|exact H1|exact H2].
  intros a b c0 Hab (c1 & ->).
  eapply same_identity_trans; [exact Hab | apply advance_identity].
Qed.

Lemma steps_identity (k : nat) :
  forall m mk, steps k m = Ok mk ->
               Forall2 same_identity (agents m) (agents mk) /\ same_params m mk.
Proof.
  induction k as [|k IH]; intros m mk H; simpl in H.
  - injection H as <-. split; [|apply same_params_refl].
    apply Forall2_refl_on. intros a. unfold same_identity. splits; reflexivity.
  - inv_bind H. destruct (step_identity _ _ Hx) as [H1 P1].
    destruct (IH _ _ H) as [H2 P2]. split.
    + eapply Forall2_compose; [|exact H1|exact H2].
      intros a b c. apply same_identity_trans.
    + unfold same_params in *.
      destruct P1 as (?&?&?&?&?&?&?&?), P2 as (?&?&?&?&?&?&?&?).
      splits; congruence.
Qed.

Lemma map_Forall2 {A B : Type} (f f' : A -> B) (l l' : list A) :
  Forall2 (fun a a' => f' a' = f a) l l' -> map f' l' = map f l.
Proof. induction 1 as [|a a' l l' H _ IH]; simpl; congruence. Qed.

Lemma rates_same_identity (a a' : DisinformationAgent) (n : Narrative) (b : Q) :
  same_identity a a' ->
  _calculate_alpha a' n = _calculate_alpha a n /\
  _calculate_sigma a' b n = _calculate_sigma a b n /\
  _calculate_gamma a' b n = _calculate_gamma a b n /\
  _calculate_omega a' b n = _calculate_omega a b n.
Proof.
  intros (_ & _ & H1 & H2 & H3 & H4).
  unfold _calculate_alpha, _calculate_sigma, _calculate_gamma, _calculate_omega.
  rewrite H1, H2, H3, H4. splits; reflexivity.
Qed.

(** X10: the reproduction number is a function of the traits, the
    narrative, the base rates and the graph alone: whatever steps are taken,
    [calculate_R0] returns after them exactly what it returned before, so
    the value exported after a run is the pre-run prediction. *)
Theorem calculate_R0_ignores_the_dynamics (m mk : DisinformationModel) (k : nat) :
  steps k m = Ok mk -> calculate_R0 mk = calculate_R0 m.
Proof.
  intros H. destruct (steps_identity k m mk H) as [HF HP].
  destruct HP as (Hn & _ & _ & _ & Hs & Hg & _ & HG).
  unfold calculate_R0. rewrite Hn, Hs, Hg, HG.
  rewrite (map_Forall2 (fun a => _calculate_alpha a (narrative m))
             (fun a => _calculate_alpha a (narrative m)) (agents m) (agents mk)).
  2:{ eapply Forall2_impl; [|exact HF]. intros a a' Hi.
      apply (rates_same_identity a a' (narrative m) 0 Hi). }
  rewrite (map_Forall2 (fun a => _calculate_sigma a (sigma_base m) (narrative m))
             (fun a => _calculate_sigma a (sigma_base m) (narrative m))
             (agents m) (agents mk)).
  2:{ eapply Forall2_impl; [|exact HF]. intros a a' Hi.
      apply (rates_same_identity a a' (narrative m) (sigma_base m) Hi). }
  rewrite (map_Forall2 (fun a => _calculate_gamma a (gamma_base m) (narrative m))
             (fun a => _calculate_gamma a (gamma_base m) (narrative m))
             (agents m) (agents mk)).
  2:{ eapply Forall2_impl; [|exact HF]. intros a a' Hi.
      apply (rates_same_identity a a' (narrative m) (gamma_base m) Hi). }
  reflexivity.
Qed.

Lemma calculate_R0_ignores_the_dynamics_witness :
  exists mk,
    steps 4 (constructed cfg_reinfection) = Ok mk /\
    calculate_R0 mk = calculate_R0 (constructed cfg_reinfection).
Proof.
  assert (H : exists mk, steps 4 (constructed cfg_reinfection) = Ok mk)
    by (eexists; vm_compute; reflexivity).
  destruct H as [mk H]. exists mk. split; [exact H|].
  apply (calculate_R0_ignores_the_dynamics (constructed cfg_reinfection) mk 4 H).
Defined.

(** ** Bounds of the transition probabilities *)

Lemma np_clip_bounds (x lo hi : Q) :
  (lo <= hi)%Q -> (lo <= np_clip x lo hi <= hi)%Q.
Proof.
  intros H. unfold np_clip, np_minimum, np_maximum.
  destruct (Qle_bool x lo) eqn:E1.
  - destruct (Qle_bool lo hi) eqn:E2.
    + split; [apply Qle_refl | exact H].
    + split; [exact H | apply Qle_refl].
  - assert (Hx : (lo <= x)%Q).
    { destruct (Qlt_le_dec lo x) as [Hlt|Hle]; [now apply Qlt_le_weak|].
      apply Qle_bool_iff in Hle. congruence. }
    destruct (Qle_bool x hi) eqn:E2.
    + apply Qle_bool_iff in E2. split; assumption.
    + split; [exact H | apply Qle_refl].
Qed.

Lemma calculate_alpha_unit (a : DisinformationAgent) (n : Narrative) :
  (0 <= _calculate_alpha a n <= 1)%Q.
Proof.
  unfold _calculate_alpha. apply np_clip_bounds. unfold Qle; simpl; lia.
Qed.


(** ** Exposure *)




Lemma Qpower_unit (x : Q) (k : nat) :
  (0 <= x <= 1)%Q ->
  (0 <= Qpower x (Z.of_nat k) <= 1)%Q /\
  (Qpower x (Z.of_nat (Datatypes.S k)) <= Qpower x (Z.of_nat k))%Q.
Proof.
  intros [H0 H1].
  assert (Hstep : forall j,
             (Qpower x (Z.of_nat (Datatypes.S j)) == Qpower x (Z.of_nat j) * x)%Q).
  { intros j. rewrite Nat2Z.inj_succ. unfold Z.succ.
    rewrite Qpower_plus' by lia. rewrite Qpower_1_r. reflexivity. }
  assert (Hb : (0 <= Qpower x (Z.of_nat k) <= 1)%Q).
  { induction k as [|k IH].
    - simpl. split; unfold Qle; simpl; lia.
    - rewrite Hstep. destruct IH as [I0 I1]. split.
      + apply Qmult_le_0_compat; assumption.
      + nra. }
  split; [exact Hb|]. rewrite Hstep. destruct Hb as [I0 I1]. nra.
Qed.

(** X13: the exposure probability used by [_check_exposure] with [k]
    infected neighbours, [1 - (1 - alpha)^k], is a probability; it is 0
    without infected neighbours, [alpha] with one, and never decreases when a
    further neighbour is infected. *)
Theorem exposure_probability_compounds (a : DisinformationAgent)
  (n : Narrative) (k : nat) :
  let p := fun k => (1 - Qpower (1 - _calculate_alpha a n) (Z.of_nat k))%Q in
  (0 <= p k <= 1)%Q /\ (p k <= p (Datatypes.S k))%Q /\
  (p 0%nat == 0)%Q /\ (p 1%nat == _calculate_alpha a n)%Q.
Proof.
  cbv zeta.
  destruct (calculate_alpha_unit a n) as [A0 A1].
  assert (Hx : (0 <= 1 - _calculate_alpha a n <= 1)%Q) by (split; lra).
  destruct (Qpower_unit _ k Hx) as [[P0 P1] Pm].
  splits.
  - lra.
  - lra.
  - lra.
  - change (Z.of_nat 0) with 0%Z. rewrite Qpower_0_r. lra.
  - change (Z.of_nat 1) with 1%Z. rewrite Qpower_1_r. lra.
Qed.

(** ** narrative.py *)

Lemma in_unit_iff (v : Q) : in_unit v = true <-> (0 <= v <= 1)%Q.
Proof.
  unfold in_unit. rewrite andb_true_iff, !Qle_bool_iff. reflexivity.
Qed.

(** X14: a narrative is accepted exactly when its four parameters lie in
    [0,1]; it then carries them unchanged, and its effective transmission
    lies between the baseline and twice the baseline, hence in [0,2]. *)
Theorem narrative_validation (b e i p : Q) :
  ((exists n, make_Narrative b e i p = Ok n) <->
   (0 <= b <= 1)%Q /\ (0 <= e <= 1)%Q /\ (0 <= i <= 1)%Q /\ (0 <= p <= 1)%Q) /\
  (forall n, make_Narrative b e i p = Ok n ->
             n = mkNarrative b e i p /\
             (b <= effective_transmission n <= 2 * b)%Q /\
             (0 <= effective_transmission n <= 2)%Q) /\
  ((forall n, make_Narrative b e i p <> Ok n) ->
   make_Narrative b e i p = Err ValueError).
Proof.
  unfold make_Narrative.
  destruct (in_unit b && in_unit e && in_unit i && in_unit p) eqn:E.
  - rewrite !andb_true_iff, !in_unit_iff in E.
    destruct E as [[[Hb He] Hi] Hp]. split; [|split].
    + split; [intros _; auto | intros _; eauto].
    + intros n [= <-]. unfold effective_transmission. cbn.
      splits; try reflexivity; nra.
    + intros H. exfalso. exact (H _ eq_refl).
  - split; [|split].
    + split.
      * intros [n H]. discriminate.
      * intros (Hb & He & Hi & Hp).
        apply in_unit_iff in Hb, He, Hi, Hp. rewrite Hb, He, Hi, Hp in E.
        discriminate.
    + intros n H. discriminate.
    + reflexivity.
Qed.

(** ** The allocation of agents to archetypes *)

Lemma dict_iadd_missing (d : list (string * Z)) (k : string) (delta : Z) :
  ~ In k (keys d) -> dict_iadd d k delta = Err KeyError.
Proof.
  induction d as [|[a v] d IH]; simpl; [reflexivity|].
  intros Hn. destruct (String.eqb_spec a k) as [->|Hne].
  - exfalso. apply Hn. left. reflexivity.
  - rewrite IH; [reflexivity|]. intros Hin. apply Hn. right. exact Hin.
Qed.

Lemma dict_iadd_nonneg (d : list (string * Z)) (k : string) (delta : Z) :
  forall d',
    dict_iadd d k delta = Ok d' -> 0 <= delta ->
    Forall (fun e => 0 <= snd e) d -> Forall (fun e => 0 <= snd e) d'.
Proof.
  induction d as [|[a v] d IH]; simpl; intros d' H Hd HF; [discriminate|].
  inversion HF as [|? ? Hv HF']; subst. simpl in Hv.
  destruct (String.eqb a k).
  - injection H as <-. constructor; [simpl; lia | exact HF'].
  - inv_bind H. injection H as <-. constructor; [exact Hv | eauto].
Qed.

Lemma get_archetype_counts_outcome (n : Z) (d : list (string * Q)) :
  (get_archetype_counts n d = Err KeyError <->
   ~ In "moderate" (keys d) /\ truncated_total n d <> n) /\
  (forall e, get_archetype_counts n d = Err e -> e = KeyError) /\
  (forall counts, get_archetype_counts n d = Ok counts ->
                  keys counts = keys d /\ Zsum (values counts) = n).
Proof.
  destruct (raw_counts_spec n d) as [Hk _]. cbv zeta in Hk.
  pose proof (raw_counts_total n d) as Ht.
  unfold get_archetype_counts. cbv zeta. rewrite Ht.
  set (counts := map (fun '(a, p) => (a, py_int (inject_Z n * p)%Q)) d) in *.
  destruct (in_dec string_dec "moderate" (keys d)) as [Hin|Hout].
  - assert (Hin' : In "moderate" (keys counts)) by (rewrite Hk; exact Hin).
    assert (Hadd : forall delta,
               exists d', dict_iadd counts "moderate" delta = Ok d' /\
                          keys d' = keys d /\
                          Zsum (values d') = truncated_total n d + delta).
    { intros delta.
      destruct (dict_iadd_spec counts "moderate" delta Hin')
        as (d' & v & H1 & _ & _ & H2 & H3 & _).
      exists d'. rewrite H2, H3, Hk, Ht. auto. }
    destruct (Z.ltb_spec (truncated_total n d) n) as [Hlt|Hge].
    + destruct (Hadd (n - truncated_total n d)) as (d' & -> & K & S).
      split; [|split].
      * split; [discriminate | tauto].
      * discriminate.
      * intros c [= <-]. split; [exact K | lia].
    + destruct (Z.gtb_spec (truncated_total n d) n) as [Hgt|Hle].
      * destruct (Hadd (- (truncated_total n d - n))) as (d' & -> & K & S).
        split; [|split].
        -- split; [discriminate | tauto].
        -- discriminate.
        -- intros c [= <-]. split; [exact K | lia].
      * split; [|split].
        -- split; [discriminate | tauto].
        -- discriminate.
        -- intros c [= <-]. split; [exact Hk | lia].
  - assert (Hout' : ~ In "moderate" (keys counts)) by (rewrite Hk; exact Hout).
    destruct (Z.ltb_spec (truncated_total n d) n) as [Hlt|Hge].
    + rewrite (dict_iadd_missing _ _ _ Hout'). split; [|split].
      * split; [intros _; split; [exact Hout | lia] | reflexivity].
      * intros e [= <-]. reflexivity.
      * discriminate.
    + destruct (Z.gtb_spec (truncated_total n d) n) as [Hgt|Hle].
      * rewrite (dict_iadd_missing _ _ _ Hout'). split; [|split].
        -- split; [intros _; split; [exact Hout | lia] | reflexivity].
        -- intros e [= <-]. reflexivity.
        -- discriminate.
      * split; [|split].
        -- split; [discriminate | intros [_ Hne]; exfalso; lia].
        -- discriminate.
        -- intros c [= <-]. split; [exact Hk | lia].
Qed.


Lemma truncated_total_le (n : Z) (d : list (string * Q)) :
  0 <= n ->
  Forall (fun e => (0 <= snd e)%Q) d ->
  (inject_Z (truncated_total n d) <= inject_Z n * Qsum (values d))%Q /\
  0 <= truncated_total n d.
Proof.
  intros Hn HF. unfold truncated_total, values.
  assert (Hn' : (0 <= inject_Z n)%Q) by (unfold Qle; simpl; lia).
  induction HF as [|[a p] d Hp _ IH]; simpl.
  - split; [unfold Qle; simpl; lia | lia].
  - simpl in Hp. destruct IH as [IH1 IH2].
    assert (Hq : (0 <= inject_Z n * p)%Q) by (apply Qmult_le_0_compat; assumption).
    rewrite (py_int_nonneg_floor _ Hq).
    pose proof (Qfloor_le (inject_Z n * p)%Q) as Hfl.
    assert (Hf0 : 0 <= Qfloor (inject_Z n * p)%Q).
    { rewrite <- (py_int_nonneg_floor _ Hq). apply py_int_nonneg. exact Hq. }
    split; [|lia].
    rewrite inject_Z_plus.
    change (Qsum (p :: map snd d)) with (p + Qsum (map snd d))%Q.
    unfold Zsum in *.
    set (A := inject_Z (Qfloor (inject_Z n * p)%Q)) in *.
    set (B := inject_Z (fold_right Z.add 0
                          (map (fun e => py_int (inject_Z n * snd e)%Q) d))) in *.
    set (N := inject_Z n) in *. set (S := Qsum (map snd d)) in *.
    clearbody A B N S.
    apply Qle_trans with (N * p + N * S)%Q.
    + apply Qplus_le_compat; assumption.
    + rewrite Qmult_plus_distr_r. apply Qle_refl.
Qed.

Lemma proper_shares_counts (n : Z) (d : list (string * Q))
  (counts : list (string * Z)) :
  0 <= n ->
  Forall (fun e => (0 <= snd e)%Q) d ->
  (Qsum (values d) <= 1)%Q ->
  get_archetype_counts n d = Ok counts ->
  Forall (fun e => 0 <= snd e) counts /\
  0 <= truncated_total n d <= n /\
  agents_made counts = Z.to_nat n.
Proof.
  intros Hn HF HS H.
  destruct (truncated_total_le n d Hn HF) as [Hq H0].
  assert (Hle : truncated_total n d <= n).
  { rewrite Zle_Qle.
    assert (Hn' : (0 <= inject_Z n)%Q) by (unfold Qle; simpl; lia).
    apply Qle_trans with (inject_Z n * Qsum (values d))%Q; [exact Hq|].
    setoid_replace (inject_Z n) with (1 * inject_Z n)%Q at 2 by ring.
    rewrite (Qmult_comm (inject_Z n)).
    apply Qmult_le_compat_r; assumption. }
  assert (Hraw : Forall (fun e => 0 <= snd e)
                   (map (fun '(a, p) => (a, py_int (inject_Z n * p)%Q)) d)).
  { clear - Hn HF. induction HF as [|[a p] d Hp _ IH]; simpl; constructor.
    - simpl. apply py_int_nonneg. apply Qmult_le_0_compat; [|exact Hp].
      unfold Qle; simpl; lia.
    - exact IH. }
  assert (Hc : Forall (fun e => 0 <= snd e) counts).
  { pose proof (raw_counts_total n d) as Ht.
    unfold get_archetype_counts in H. cbv zeta in H. rewrite Ht in H.
    destruct (Z.ltb_spec (truncated_total n d) n) as [Hlt|Hge].
    - eapply dict_iadd_nonneg; [exact H | lia | exact Hraw].
    - destruct (Z.gtb_spec (truncated_total n d) n) as [Hgt|_]; [lia|].
      injection H as <-. exact Hraw. }
  split; [exact Hc|]. split; [lia|].
  pose proof (agents_made_nonneg counts Hc) as Hm.
  rewrite (get_archetype_counts_sum n d counts H) in Hm. lia.
Qed.

(** X16: when no share is negative and the shares sum to at most 1, no
    count returned by [get_archetype_counts] is negative: the truncated
    counts cannot exceed the population, so the residual is only ever added
    to 'moderate', and the counts describe exactly [population] agents. *)
Theorem proper_shares_give_nonnegative_counts (n : Z) (d : list (string * Q))
  (counts : list (string * Z)) :
  0 <= n ->
  Forall (fun e => (0 <= snd e)%Q) d ->
  (Qsum (values d) <= 1)%Q ->
  get_archetype_counts n d = Ok counts ->
  Forall (fun e => 0 <= snd e) counts /\
  0 <= truncated_total n d <= n /\
  agents_made counts = Z.to_nat n.
Proof. apply proper_shares_counts. Qed.

Lemma proper_shares_give_nonnegative_counts_witness :
  Forall (fun e => 0 <= snd e)
    [("immune", 1); ("superspreader", 1); ("moderate", 7);
     ("critical_thinker", 0); ("cynical_contrarian", 0)] /\
  0 <= truncated_total 9 default_dist <= 9 /\
  agents_made [("immune", 1); ("superspreader", 1); ("moderate", 7);
               ("critical_thinker", 0); ("cynical_contrarian", 0)]
  = Z.to_nat 9.
Proof.
  apply (proper_shares_give_nonnegative_counts 9 default_dist).
  - lia.
  - repeat constructor; unfold Qle; simpl; lia.
  - unfold Qle; vm_compute; discriminate.
  - vm_compute. reflexivity.
Defined.

(** X17: a model constructed from shares that are non-negative and sum to
    at most 1 has exactly [population] agents; every row ever collected
    sums to the population, and when the graph has [population] nodes a
    run of any length returns. *)
Theorem proper_shares_give_population_agents (c : Config)
  (m : DisinformationModel) :
  DisinformationModel_init c = Ok m ->
  Forall (fun e => (0 <= snd e)%Q) (cfg_archetype_dist c) ->
  (Qsum (values (cfg_archetype_dist c)) <= 1)%Q ->
  Z.of_nat (List.length (agents m)) = cfg_population c /\
  (forall k mk,
      steps k m = Ok mk ->
      Z.of_nat (List.length (agents mk)) = cfg_population c /\
      Forall (fun r => row_total r = cfg_population c) (datacollector mk)) /\
  (List.length (cfg_network c) = Z.to_nat (cfg_population c) ->
   forall max_steps, exists m', run max_steps m = Ok m').
Proof.
  intros Hinit HF HS.
  destruct (init_population c m Hinit) as (_ & _ & counts & Hc & Hlen).
  destruct (init_inv c m Hinit) as (_ & _ & _ & _ & _ & _ & Hme & _).
  assert (Hn : 0 <= cfg_population c) by lia.
  destruct (proper_shares_counts _ _ _ Hn HF HS Hc) as (Hnn & _ & Hmade).
  destruct (state_counts_sum_to_population c m counts Hinit Hc Hnn)
    as (Hpop & Hsteps & _).
  split; [exact Hpop|]. split.
  - intros k mk Hk. destruct (Hsteps k mk Hk) as [Hrows _].
    split; [|exact Hrows].
    destruct (steps_identity k m mk Hk) as [HF2 _].
    apply Forall2_length in HF2. rewrite <- HF2. exact Hpop.
  - intros Hnet max_steps.
    pose proof (init_graph_covers c m counts Hinit Hnet Hc Hnn) as Hcov.
    unfold run.
    destruct (run_loop_spec (Z.to_nat max_steps) m Hcov) as (k & m' & Hr & _).
    exists m'. exact Hr.
Qed.

Lemma proper_shares_give_population_agents_witness :
  Z.of_nat (List.length (agents (constructed cfg_reinfection)))
  = cfg_population cfg_reinfection.
Proof.
  apply (proper_shares_give_population_agents cfg_reinfection
           (constructed cfg_reinfection)).
  - vm_compute. reflexivity.
  - vm_compute. repeat constructor; discriminate.
  - vm_compute. discriminate.
Defined.

(** ** Identity and traits of the agents *)

Lemma create_agents_of_Forall (P : DisinformationAgent -> Prop) (name : string)
  (p : ArchetypeParams) (count : nat) :
  forall agent_id acc,
    Forall P acc -> (forall id, P (new_agent id name p)) ->
    Forall P (fst (create_agents_of name p count agent_id acc)).
Proof.
  induction count as [|count IH]; intros agent_id acc Hacc Hnew; simpl.
  - exact Hacc.
  - apply IH; [|exact Hnew]. apply Forall_app. split; [exact Hacc|].
    constructor; [apply Hnew | constructor].
Qed.

Lemma create_agents_loop_Forall (P : DisinformationAgent -> Prop)
  (counts : list (string * Z)) :
  forall agent_id acc l,
    create_agents_loop counts agent_id acc = Ok l ->
    Forall P acc ->
    (forall id name p, In name (keys counts) ->
                       dict_get ARCHETYPES name = Ok p ->
                       P (new_agent id name p)) ->
    Forall P l /\
    Forall (fun name => exists p, dict_get ARCHETYPES name = Ok p) (keys counts).
Proof.
  induction counts as [|[name count] counts IH]; intros agent_id acc l H Hacc Hnew;
    simpl in H.
  - injection H as <-. split; [exact Hacc | constructor].
  - inv_bind H.
    pose proof (create_agents_of_Forall P name x (Z.to_nat count) agent_id acc
                  Hacc) as Hof.
    destruct (create_agents_of name x (Z.to_nat count) agent_id acc)
      as [acc' id'] eqn:E.
    simpl in Hof.
    destruct (IH id' acc' l H) as [H1 H2].
    + apply Hof. intros id. apply Hnew; [left; reflexivity | exact Hx].
    + intros id n p Hin. apply Hnew. right. exact Hin.
    + split; [exact H1|]. constructor; [eauto | exact H2].
Qed.

Lemma dict_get_In_pair {V : Type} (d : list (string * V)) (k : string) (v : V) :
  dict_get d k = Ok v -> In (k, v) d.
Proof.
  induction d as [|[a w] d IH]; simpl; [discriminate|].
  destruct (String.eqb_spec a k) as [->|Hne].
  - intros [= ->]. left. reflexivity.
  - intros H. right. auto.
Qed.

Lemma table_traits_unit (name : string) (p : ArchetypeParams) :
  dict_get ARCHETYPES name = Ok p ->
  (0 <= nfc p <= 1)%Q /\ (0 <= trust p <= 1)%Q /\
  (0 <= cb p <= 1)%Q /\ (0 <= ia p <= 1)%Q.
Proof.
  intros H. apply dict_get_In_pair in H. unfold ARCHETYPES in H. simpl in H.
  repeat (destruct H as [H|H]; [injection H as _ <-; cbn; unfold Qle; simpl;
                                splits; lia|]).
  contradiction.
Qed.

Lemma Forall2_nth_error_r {A B : Type} (R : A -> B -> Prop) (l : list A)
  (l' : list B) :
  Forall2 R l l' ->
  forall i b, nth_error l' i = Some b ->
              exists a, nth_error l i = Some a /\ R a b.
Proof.
  induction 1 as [|a b l l' Hab _ IH]; intros [|i] y Hy; simpl in *;
    try discriminate.
  - injection Hy as <-. eauto.
  - eauto.
Qed.

Lemma Forall2_of_nth_error {A B : Type} (R : A -> B -> Prop) (l : list A) :
  forall l' : list B,
    List.length l' = List.length l ->
    (forall i a, nth_error l i = Some a ->
                 exists b, nth_error l' i = Some b /\ R a b) ->
    Forall2 R l l'.
Proof.
  induction l as [|a l IH]; intros [|b l'] Hlen Hnth; simpl in Hlen;
    try discriminate.
  - constructor.
  - constructor.
    + destruct (Hnth 0%nat a eq_refl) as (b' & [= <-] & Hr). exact Hr.
    + apply IH; [lia|]. intros i x Hx. exact (Hnth (Datatypes.S i) x Hx).
Qed.

(** The agents of a constructed model are those made by the creation loop,
    some of them moved to state I. *)
Lemma init_agents_from (c : Config) (m : DisinformationModel) :
  DisinformationModel_init c = Ok m ->
  exists counts l,
    get_archetype_counts (cfg_population c) (cfg_archetype_dist c) = Ok counts /\
    create_agents_loop counts 0%nat [] = Ok l /\
    ids_are_positions l /\
    Forall2 (fun a a' => a' = a \/ a' = set_state a "I") l (agents m).
Proof.
  intros Hinit.
  destruct (init_inv c m Hinit)
    as (_ & nar & m1 & seeds & g & _ & _ & Hc & _ & Hm).
  destruct (create_agents_spec _ _ _ Hc eq_refl)
    as (counts & Hcounts & _ & _ & Hids & _).
  cbn [population] in Hcounts.
  unfold _create_agents in Hc. cbn [population agents] in Hc.
  rewrite Hcounts in Hc. cbn [bind] in Hc. inv_bind Hc. injection Hc as <-.
  cbn [agents set_agents] in Hids.
  exists counts, x. splits; auto.
  pose proof (mark_seeds_spec seeds
                (set_random (set_agents
                   (mkModel nar (cfg_population c) (cfg_m_edges c)
                      (cfg_seeding_strategy c) (cfg_sigma_base c)
                      (cfg_gamma_base c) (cfg_omega_base c) 0 0
                      (cfg_network c) [] (cfg_random c) []) x) g)) as Hs.
  cbv zeta in Hs. destruct Hs as (_ & _ & _ & Hlen & Hnth).
  rewrite Hm. cbn [collect agents set_datacollector].
  cbn [agents set_random set_agents] in Hlen, Hnth.
  apply Forall2_of_nth_error; [exact Hlen|].
  intros i a Ha. rewrite (Hnth i a Ha). eexists. split; [reflexivity|].
  destruct (is_seed seeds i); auto.
Qed.

(** What construction establishes about every agent and every later step
    keeps. *)
Lemma init_identity (c : Config) (m : DisinformationModel) :
  DisinformationModel_init c = Ok m ->
  ids_are_positions (agents m) /\
  Forall (fun a => traits_from_table a /\
                   In (archetype a) (keys (cfg_archetype_dist c)))
         (agents m) /\
  Forall (fun name => exists p, dict_get ARCHETYPES name = Ok p)
         (keys (cfg_archetype_dist c)).
Proof.
  intros Hinit.
  destruct (init_agents_from c m Hinit) as (counts & l & Hc & Hl & Hids & HF).
  destruct (get_archetype_counts_outcome (cfg_population c) (cfg_archetype_dist c))
    as (_ & _ & Hk).
  destruct (Hk counts Hc) as [Hkeys _].
  destruct (create_agents_loop_Forall
              (fun a => traits_from_table a /\ In (archetype a) (keys counts))
              counts 0%nat [] l Hl (Forall_nil _)) as [HP Htab].
  { intros id name p Hin Hp. split; [|exact Hin].
    exists p. cbn. auto. }
  rewrite Hkeys in *. splits.
  - intros i a' Ha'.
    destruct (Forall2_nth_error_r _ _ _ HF i a' Ha') as (a & Ha & [->| ->]).
    + exact (Hids i a Ha).
    + exact (Hids i a Ha).
  - rewrite Forall_nth_error. intros i a' Ha'.
    destruct (Forall2_nth_error_r _ _ _ HF i a' Ha') as (a & Ha & Heq).
    rewrite Forall_nth_error in HP. specialize (HP i a Ha).
    destruct Heq as [->| ->]; exact HP.
  - exact Htab.
Qed.

Lemma traits_from_table_same (a a' : DisinformationAgent) :
  same_identity a a' -> traits_from_table a -> traits_from_table a'.
Proof.
  intros (_ & Ha & H1 & H2 & H3 & H4) (p & Hp & T1 & T2 & T3 & T4).
  exists p. rewrite Ha, H1, H2, H3, H4. auto.
Qed.

Lemma traits_from_table_unit (a : DisinformationAgent) :
  traits_from_table a ->
  (0 <= need_for_cognition a <= 1)%Q /\ (0 <= institutional_trust a <= 1)%Q /\
  (0 <= confirmation_bias a <= 1)%Q /\ (0 <= identity_alignment a <= 1)%Q.
Proof.
  intros (p & Hp & -> & -> & -> & ->). exact (table_traits_unit _ p Hp).
Qed.

Lemma steps_keep_identity (c : Config) (m mk : DisinformationModel) (k : nat) :
  DisinformationModel_init c = Ok m ->
  steps k m = Ok mk ->
  ids_are_positions (agents mk) /\
  Forall (fun a => traits_from_table a /\
                   In (archetype a) (keys (cfg_archetype_dist c)))
         (agents mk) /\
  Forall2 same_identity (agents m) (agents mk).
Proof.
  intros Hinit Hk.
  destruct (init_identity c m Hinit) as (Hids & HP & _).
  destruct (steps_identity k m mk Hk) as [HF _].
  splits; [| |exact HF].
  - intros i a' Ha'.
    destruct (Forall2_nth_error_r _ _ _ HF i a' Ha') as (a & Ha & Hid & _).
    rewrite Hid. exact (Hids i a Ha).
  - rewrite Forall_nth_error. intros i a' Ha'.
    destruct (Forall2_nth_error_r _ _ _ HF i a' Ha') as (a & Ha & Hsame).
    rewrite Forall_nth_error in HP. destruct (HP i a Ha) as [T Hin].
    split; [exact (traits_from_table_same a a' Hsame T)|].
    destruct Hsame as (_ & -> & _). exact Hin.
Qed.

(** X18: in a constructed model, and after any number of steps, the agent
    at position [i] has id [i]; every agent's archetype is a key of the
    distribution, its four traits are those of that archetype in the table
    and lie in [0,1]; and ids, archetypes and traits are those the agent was
    created with. *)
Theorem agents_keep_identity_and_table_traits (c : Config)
  (m mk : DisinformationModel) (k : nat) :
  DisinformationModel_init c = Ok m ->
  steps k m = Ok mk ->
  ids_are_positions (agents mk) /\
  NoDup (map unique_id (agents mk)) /\
  Forall (fun a =>
            traits_from_table a /\
            In (archetype a) (keys (cfg_archetype_dist c)) /\
            (0 <= need_for_cognition a <= 1)%Q /\
            (0 <= institutional_trust a <= 1)%Q /\
            (0 <= confirmation_bias a <= 1)%Q /\
            (0 <= identity_alignment a <= 1)%Q)
         (agents mk) /\
  Forall2 same_identity (agents m) (agents mk).
Proof.
  intros Hinit Hk.
  destruct (steps_keep_identity c m mk k Hinit Hk) as (Hids & HP & HF).
  splits; [exact Hids | | | exact HF].
  - assert (Hmap : map unique_id (agents mk) = seq 0 (List.length (agents mk))).
    { clear - Hids. unfold ids_are_positions in Hids.
      revert Hids. generalize (agents mk). intros l.
      induction l as [|a l IH] using rev_ind; intros Hids; [reflexivity|].
      rewrite map_app, length_app, seq_app. simpl. f_equal.
      - apply IH. intros i b Hb. apply Hids.
        rewrite nth_error_app1; [exact Hb|].
        apply nth_error_Some. congruence.
      - f_equal. apply Hids. rewrite nth_error_app2 by lia.
        rewrite Nat.sub_diag. reflexivity. }
    rewrite Hmap. apply seq_NoDup.
  - eapply Forall_impl; [|exact HP]. intros a [T Hin].
    split; [exact T|]. split; [exact Hin|]. apply traits_from_table_unit, T.
Qed.

Lemma agents_keep_identity_and_table_traits_witness :
  exists mk,
    steps 4 (constructed cfg_reinfection) = Ok mk /\
    ids_are_positions (agents mk) /\
    NoDup (map unique_id (agents mk)).
Proof.
  assert (H : exists mk, steps 4 (constructed cfg_reinfection) = Ok mk)
    by (eexists; vm_compute; reflexivity).
  destruct H as [mk H]. exists mk. split; [exact H|].
  assert (Hi : DisinformationModel_init cfg_reinfection
               = Ok (constructed cfg_reinfection))
    by (vm_compute; reflexivity).
  destruct (agents_keep_identity_and_table_traits cfg_reinfection
              (constructed cfg_reinfection) mk 4 Hi H) as (H1 & H2 & _).
  split; assumption.
Defined.

(** ** The estimator on constructed models *)









(** ** Seeding the hubs *)












(** ** Peak metrics *)

Lemma fold_max_spec (d : Z) (l : list Z) :
  (forall x, In x l -> x <= fold_right Z.max d l) /\
  d <= fold_right Z.max d l /\
  (fold_right Z.max d l = d \/ In (fold_right Z.max d l) l).
Proof.
  induction l as [|x l (I1 & I2 & I3)]; simpl.
  - splits; [contradiction | lia | left; reflexivity].
  - splits.
    + intros y [<-|Hy]; [lia|]. specialize (I1 y Hy). lia.
    + lia.
    + destruct (Z.max_spec x (fold_right Z.max d l)) as [[_ ->]|[_ ->]].
      * destruct I3 as [->|Hin]; [left; reflexivity | right; right; exact Hin].
      * right. left. reflexivity.
Qed.

Lemma idxmax_from_spec (l : list Z) :
  forall pre best best_i,
    nth_error pre (Z.to_nat best_i) = Some best ->
    0 <= best_i ->
    (forall x, In x pre -> x <= best) ->
    (forall j y, (j < Z.to_nat best_i)%nat -> nth_error pre j = Some y ->
                 y < best) ->
    let t := idxmax_from best best_i (Z.of_nat (List.length pre)) l in
    exists v,
      nth_error (pre ++ l) (Z.to_nat t) = Some v /\ 0 <= t /\
      (forall x, In x (pre ++ l) -> x <= v) /\
      (forall j y, (j < Z.to_nat t)%nat -> nth_error (pre ++ l) j = Some y ->
                   y < v).
Proof.
  induction l as [|x l IH]; intros pre best best_i Hb H0 Hub Hfirst; simpl.
  - exists best. rewrite app_nil_r. auto.
  - assert (Hlt : (Z.to_nat best_i < List.length pre)%nat)
      by (apply nth_error_Some; congruence).
    assert (Hlen : Z.of_nat (List.length pre) + 1
                   = Z.of_nat (List.length (pre ++ [x])))
      by (rewrite length_app; simpl; lia).
    replace (pre ++ x :: l)%list with ((pre ++ [x]) ++ l)%list
      by (rewrite <- app_assoc; reflexivity).
    rewrite Hlen.
    destruct (Z.ltb_spec best x) as [Hbx|Hxb].
    + apply IH.
      * rewrite Nat2Z.id. rewrite nth_error_app2 by lia.
        rewrite Nat.sub_diag. reflexivity.
      * lia.
      * intros y Hy. apply in_app_or in Hy. destruct Hy as [Hy|[<-|[]]]; [|lia].
        specialize (Hub y Hy). lia.
      * intros j y Hj Hy. rewrite Nat2Z.id in Hj.
        rewrite nth_error_app1 in Hy by exact Hj.
        apply nth_error_In in Hy. specialize (Hub y Hy). lia.
    + apply IH.
      * rewrite nth_error_app1 by exact Hlt. exact Hb.
      * exact H0.
      * intros y Hy. apply in_app_or in Hy. destruct Hy as [Hy|[<-|[]]]; [|lia].
        exact (Hub y Hy).
      * intros j y Hj Hy. rewrite nth_error_app1 in Hy by lia.
        exact (Hfirst j y Hj Hy).
Qed.

Lemma get_peak_metrics_spec (m : DisinformationModel) :
  datacollector m <> [] ->
  exists pm,
    get_peak_metrics m = Ok pm /\
    nth_error (map Infected (datacollector m)) (Z.to_nat (time_to_peak pm))
    = Some (max_infected pm) /\
    0 <= time_to_peak pm < Z.of_nat (List.length (datacollector m)) /\
    (forall r, In r (datacollector m) -> Infected r <= max_infected pm) /\
    (forall j r, (j < Z.to_nat (time_to_peak pm))%nat ->
                 nth_error (datacollector m) j = Some r ->
                 Infected r < max_infected pm) /\
    max_infected_pct pm = np_div_int (max_infected pm) (population m).
Proof.
  intros Hne. unfold get_peak_metrics.
  destruct (datacollector m) as [|r0 rest]; [congruence|].
  eexists. split; [reflexivity|]. cbn [max_infected time_to_peak max_infected_pct].
  destruct (idxmax_from_spec (map Infected rest) [Infected r0] (Infected r0) 0)
    as (v & Hv & Ht & Hub & Hfirst).
  - reflexivity.
  - lia.
  - intros x [<-|[]]. lia.
  - intros j y Hj. simpl in Hj. lia.
  - cbn [List.length Z.of_nat app] in *.
    change (Z.pos (Pos.of_succ_nat 0)) with 1 in *.
    set (t := idxmax_from (Infected r0) 0 1 (map Infected rest)) in *.
    set (col := (Infected r0 :: map Infected rest)) in *.
    change (map Infected (r0 :: rest)) with col.
    destruct (fold_max_spec (Infected r0) col) as (F1 & F2 & F3).
    assert (Hv_in : In v col) by (eapply nth_error_In; exact Hv).
    assert (HM : fold_right Z.max (Infected r0) col = v).
    { apply Z.le_antisymm.
      - destruct F3 as [->|Hin]; [apply Hub; left; reflexivity | apply Hub, Hin].
      - apply F1, Hv_in. }
    rewrite HM. splits; auto.
    + assert (Hl : (Z.to_nat t < List.length col)%nat)
        by (apply nth_error_Some; congruence).
      unfold col in Hl. simpl in Hl. rewrite length_map in Hl. simpl. lia.
    + intros r Hr. apply Hub. unfold col.
      change (Infected r0 :: map Infected rest) with (map Infected (r0 :: rest)).
      apply in_map. exact Hr.
    + intros j r Hj Hr. apply (Hfirst j (Infected r) Hj). unfold col.
      change (Infected r0 :: map Infected rest) with (map Infected (r0 :: rest)).
      rewrite nth_error_map, Hr. reflexivity.
Qed.

Lemma steps_datacollector (k : nat) :
  forall m mk, steps k m = Ok mk ->
               exists rows, datacollector mk = (datacollector m ++ rows)%list /\
                            List.length rows = k.
Proof.
  intros m mk H. destruct (steps_rows k m mk H) as (Hlen & _ & Hpre & _).
  exists (skipn (List.length (datacollector m)) (datacollector mk)). split.
  - rewrite <- (firstn_skipn (List.length (datacollector m)) (datacollector mk)) at 1.
    f_equal. apply nth_error_ext. intros i.
    destruct (Nat.lt_ge_cases i (List.length (datacollector m))) as [Hi|Hi].
    + rewrite nth_error_firstn.
      destruct (Nat.ltb_spec i (List.length (datacollector m))); [|lia].
      apply Hpre. exact Hi.
    + rewrite (proj2 (nth_error_None _ _) Hi).
      apply nth_error_None. rewrite length_firstn. lia.
  - rewrite length_skipn. lia.
Qed.

(** X21: on a model with at least one collected row, [get_peak_metrics]
    returns; [max_infected] is the largest value of the Infected column,
    [time_to_peak] is the index of the first row that attains it, and
    [max_infected_pct] is that maximum divided by the population. *)
Theorem get_peak_metrics_contract (m : DisinformationModel) :
  datacollector m <> [] ->
  exists pm,
    get_peak_metrics m = Ok pm /\
    nth_error (map Infected (datacollector m)) (Z.to_nat (time_to_peak pm))
    = Some (max_infected pm) /\
    0 <= time_to_peak pm < Z.of_nat (List.length (datacollector m)) /\
    (forall r, In r (datacollector m) -> Infected r <= max_infected pm) /\
    (forall j r, (j < Z.to_nat (time_to_peak pm))%nat ->
                 nth_error (datacollector m) j = Some r ->
                 Infected r < max_infected pm) /\
    max_infected_pct pm = np_div_int (max_infected pm) (population m).
Proof. exact (get_peak_metrics_spec m). Qed.

Lemma get_peak_metrics_contract_witness :
  exists pm,
    get_peak_metrics (constructed cfg_reinfection) = Ok pm /\
    0 <= time_to_peak pm
    < Z.of_nat (List.length (datacollector (constructed cfg_reinfection))).
Proof.
  destruct (get_peak_metrics_contract (constructed cfg_reinfection))
    as (pm & H1 & _ & H2 & _).
  - vm_compute. discriminate.
  - exists pm. split; assumption.
Defined.

Lemma steps_split (j : nat) :
  forall k m mk,
    (j <= k)%nat -> steps k m = Ok mk ->
    exists mj, steps j m = Ok mj /\ steps (k - j) mj = Ok mk.
Proof.
  induction j as [|j IH]; intros k m mk Hj Hk.
  - exists m. rewrite Nat.sub_0_r. auto.
  - destruct k as [|k]; [lia|]. simpl in Hk. inv_bind Hk.
    destruct (IH k x mk) as (mj & H1 & H2); [lia | exact Hk|].
    exists mj. simpl. rewrite Hx. auto.
Qed.

(** Every collected row is the snapshot of the model after some number of
    steps. *)
Lemma rows_are_snapshots (c : Config) (m mk : DisinformationModel) (k : nat) :
  DisinformationModel_init c = Ok m ->
  steps k m = Ok mk ->
  Forall (fun r => exists j mj, (j <= k)%nat /\ steps j m = Ok mj /\
                                r = current_row mj)
         (datacollector mk).
Proof.
  intros Hinit Hk.
  destruct (init_first_row c m Hinit) as [Hrow0 _].
  destruct (steps_rows k m mk Hk) as (Hlen & _ & Hpre & Hj).
  rewrite Hrow0 in Hlen, Hpre, Hj. simpl in Hlen, Hpre, Hj.
  apply Forall_nth_error. intros i r Hr.
  assert (Hi : (i < Datatypes.S k)%nat).
  { rewrite <- Hlen. apply nth_error_Some. congruence. }
  destruct i as [|i].
  - exists 0%nat, m. splits; [lia | reflexivity |].
    rewrite (Hpre 0%nat) in Hr by lia. simpl in Hr. congruence.
  - destruct (steps_split (Datatypes.S i) k m mk) as (mj & H1 & _);
      [lia | exact Hk |].
    exists (Datatypes.S i), mj. splits; [lia | exact H1 |].
    assert (Hrow : nth_error (datacollector mk) (Datatypes.S i)
                   = Some (current_row mj)).
    { replace (Datatypes.S i) with (Datatypes.S i - 0)%nat at 1 by lia.
      apply Hj; [lia | exact H1]. }
    congruence.
Qed.

Lemma count_state_le (m : DisinformationModel) (s : string) :
  _count_state m s <= Z.of_nat (List.length (agents m)).
Proof.
  unfold _count_state. rewrite Zsum_ones.
  apply Nat2Z.inj_le. apply filter_length_le.
Qed.

(** X22: on a constructed model, after any number of steps, the peak
    metrics exist; the peak is at most the number of agents and at least
    the number of seeds, and the peak time is at most the number of steps
    taken. *)
Theorem peak_metrics_of_a_run (c : Config) (m mk : DisinformationModel)
  (k : nat) :
  DisinformationModel_init c = Ok m ->
  steps k m = Ok mk ->
  exists pm,
    get_peak_metrics mk = Ok pm /\
    _count_state m "I" <= max_infected pm <= Z.of_nat (List.length (agents mk)) /\
    _count_state mk "I" <= max_infected pm /\
    0 <= time_to_peak pm <= Z.of_nat k.
Proof.
  intros Hinit Hk.
  destruct (init_first_row c m Hinit) as [Hrow0 _].
  destruct (steps_datacollector k m mk Hk) as (rows & Hdc & Hlen).
  assert (Hne : datacollector mk <> []).
  { rewrite Hdc, Hrow0. discriminate. }
  destruct (get_peak_metrics_spec mk Hne) as (pm & Hpm & Hnth & Ht & Hub & _).
  exists pm. split; [exact Hpm|].
  pose proof (rows_are_snapshots c m mk k Hinit Hk) as Hsnap.
  assert (Hin0 : In (current_row m) (datacollector mk)).
  { rewrite Hdc, Hrow0. left. reflexivity. }
  assert (Hlastrow : In (current_row mk) (datacollector mk)).
  { destruct (steps_rows k m mk Hk) as (_ & _ & _ & Hj).
    destruct k as [|k'].
    - simpl in Hk. injection Hk as <-. rewrite Hrow0. left. reflexivity.
    - eapply nth_error_In. apply (Hj (Datatypes.S k') mk); [lia | exact Hk]. }
  splits.
  - exact (Hub _ Hin0).
  - apply nth_error_In in Hnth. apply in_map_iff in Hnth.
    destruct Hnth as (r & <- & Hr).
    rewrite Forall_forall in Hsnap.
    destruct (Hsnap r Hr) as (j & mj & Hjk & Hsj & ->).
    cbn [current_row Infected].
    destruct (steps_split j k m mk Hjk Hk) as (mj' & Hsj' & Hrest).
    rewrite Hsj in Hsj'. injection Hsj' as <-.
    destruct (steps_identity _ _ _ Hrest) as [HF _].
    apply Forall2_length in HF. rewrite <- HF. apply count_state_le.
  - exact (Hub _ Hlastrow).
  - lia.
  - rewrite Hdc, length_app, Hrow0, Hlen in Ht. simpl in Ht. lia.
Qed.

Lemma peak_metrics_of_a_run_witness :
  exists mk pm,
    steps 4 (constructed cfg_reinfection) = Ok mk /\
    get_peak_metrics mk = Ok pm /\
    0 <= time_to_peak pm <= 4.
Proof.
  assert (H : exists mk, steps 4 (constructed cfg_reinfection) = Ok mk)
    by (eexists; vm_compute; reflexivity).
  destruct H as [mk H].
  assert (Hi : DisinformationModel_init cfg_reinfection
               = Ok (constructed cfg_reinfection))
    by (vm_compute; reflexivity).
  destruct (peak_metrics_of_a_run cfg_reinfection (constructed cfg_reinfection)
              mk 4 Hi H) as (pm & H1 & _ & _ & H2).
  exists mk, pm. splits; [exact H | exact H1 | apply H2 | apply H2].
Defined.

(** ** Per-archetype counts *)

Lemma filter_filter_length {A : Type} (f g : A -> bool) (l : list A) :
  List.length (filter f (filter g l))
  = List.length (filter (fun a => f a && g a) l).
Proof.
  induction l as [|a l IH]; simpl; [reflexivity|].
  destruct (g a); simpl.
  - rewrite andb_true_r. destruct (f a); simpl; congruence.
  - rewrite andb_false_r. exact IH.
Qed.

Lemma archetype_rate_entry (m : DisinformationModel) (name : string) :
  let archetype_agents :=
    filter (fun a => String.eqb (archetype a) name) (agents m) in
  let tot := Z.of_nat (List.length archetype_agents) in
  let inf :=
    Z.of_nat (List.length (filter (fun a => String.eqb (state a) "I")
                                  archetype_agents)) in
  let pct := if 0 <? tot then (inject_Z inf / inject_Z tot)%Q else 0%Q in
  inf = _count_infected_archetype m name /\
  0 <= inf <= tot /\
  (0 <= pct <= 1)%Q /\
  (tot = 0 -> pct = 0%Q).
Proof.
  cbv zeta. splits.
  - unfold _count_infected_archetype. rewrite Zsum_ones.
    rewrite filter_filter_length. reflexivity.
  - lia.
  - apply Nat2Z.inj_le. apply filter_length_le.
  - destruct (Z.ltb_spec 0
                (Z.of_nat (List.length
                   (filter (fun a => String.eqb (archetype a) name) (agents m)))))
      as [Hpos|_]; [|discriminate].
    apply Qdiv_unit; [|exact Hpos]. split; [lia|].
    apply Nat2Z.inj_le. apply filter_length_le.
  - destruct (Z.ltb_spec 0
                (Z.of_nat (List.length
                   (filter (fun a => String.eqb (archetype a) name) (agents m)))))
      as [Hpos|_]; [|discriminate].
    apply Qdiv_unit; [|exact Hpos]. split; [lia|].
    apply Nat2Z.inj_le. apply filter_length_le.
  - intros ->. reflexivity.
Qed.

(** X23: [get_archetype_infection_rates] has one entry per archetype of the
    table, in table order, whatever the model; in each entry [total] is the
    number of agents of that archetype, [infected] is the number of them
    that are in state I now (the value of the archetype's Infected column),
    not the number ever infected, and [percentage] is their ratio, a number
    in [0,1] that is 0 for an archetype without agents. *)
Theorem archetype_infection_rates_contract (m : DisinformationModel) :
  keys (get_archetype_infection_rates m) = keys ARCHETYPES /\
  Forall (fun e =>
            total (snd e)
            = Z.of_nat (List.length
                          (filter (fun a => String.eqb (archetype a) (fst e))
                                  (agents m))) /\
            infected (snd e) = _count_infected_archetype m (fst e) /\
            0 <= infected (snd e) <= total (snd e) /\
            (0 <= percentage (snd e) <= 1)%Q /\
            (total (snd e) = 0 -> percentage (snd e) = 0%Q) /\
            (0 < total (snd e) ->
             percentage (snd e)
             = (inject_Z (infected (snd e)) / inject_Z (total (snd e)))%Q))
         (get_archetype_infection_rates m).
Proof.
  unfold get_archetype_infection_rates. split.
  - unfold keys. rewrite map_map. simpl. reflexivity.
  - apply Forall_map. apply Forall_forall. intros name _.
    cbn [fst snd total infected percentage].
    destruct (archetype_rate_entry m name) as (H1 & H2 & H3 & H4).
    splits; auto; try apply H2; try apply H3.
    intros Hpos. apply Z.ltb_lt in Hpos. rewrite Hpos. reflexivity.
Qed.

Lemma count_filter_cons {A : Type} (f : A -> bool) (a : A) (l : list A) :
  Zsum (map (fun _ => 1) (filter f (a :: l)))
  = ind (f a) + Zsum (map (fun _ => 1) (filter f l)).
Proof. simpl. destruct (f a); reflexivity. Qed.

Lemma archetype_counts_partition (l : list DisinformationAgent) (s : string) :
  Forall (fun a => In (archetype a) (keys ARCHETYPES)) l ->
  Zsum (map (fun name =>
               Zsum (map (fun _ => 1)
                       (filter (fun a => String.eqb (state a) s
                                         && String.eqb (archetype a) name) l)))
            (keys ARCHETYPES))
  = Zsum (map (fun _ => 1) (filter (fun a => String.eqb (state a) s) l)).
Proof.
  induction 1 as [|a l Ha _ IH].
  - reflexivity.
  - cbn [keys ARCHETYPES map fst Zsum fold_right] in *.
    rewrite !count_filter_cons.
    destruct (String.eqb (state a) s); cbn [andb ind].
    + destruct Ha as [<-|[<-|[<-|[<-|[<-|[]]]]]];
        cbn [String.eqb Ascii.eqb Bool.eqb andb ind]; lia.
    + lia.
Qed.

Lemma archetype_totals_partition (l : list DisinformationAgent) :
  Forall (fun a => In (archetype a) (keys ARCHETYPES)) l ->
  Zsum (map (fun name =>
               Z.of_nat (List.length
                           (filter (fun a => String.eqb (archetype a) name) l)))
            (keys ARCHETYPES))
  = Z.of_nat (List.length l).
Proof.
  induction 1 as [|a l Ha _ IH].
  - reflexivity.
  - cbn [keys ARCHETYPES map fst Zsum fold_right] in *.
    cbn [filter].
    destruct Ha as [<-|[<-|[<-|[<-|[<-|[]]]]]];
      cbn [String.eqb Ascii.eqb Bool.eqb]; cbn [List.length]; lia.
Qed.

Lemma traits_from_table_key (a : DisinformationAgent) :
  traits_from_table a -> In (archetype a) (keys ARCHETYPES).
Proof.
  intros (p & Hp & _). apply dict_get_In_pair in Hp.
  unfold keys. apply in_map_iff. exists (archetype a, p). auto.
Qed.

(** X24: on a constructed model every agent's archetype is one of the five
    of the table, so the five per-archetype columns of every collected row
    add up to the row's Infected column, and the entries of
    [get_archetype_infection_rates] add up to the number of infected agents
    and to the number of agents. *)
Theorem archetype_columns_partition_infected (c : Config)
  (m mk : DisinformationModel) (k : nat) :
  DisinformationModel_init c = Ok m ->
  steps k m = Ok mk ->
  Forall (fun r =>
            Infected_Immune r + Infected_Superspreader r + Infected_Moderate r
            + Infected_Critical r + Infected_Cynical r = Infected r)
         (datacollector mk) /\
  Zsum (map (fun e => infected (snd e)) (get_archetype_infection_rates mk))
  = _count_state mk "I" /\
  Zsum (map (fun e => total (snd e)) (get_archetype_infection_rates mk))
  = Z.of_nat (List.length (agents mk)).
Proof.
  intros Hinit Hk.
  assert (Hkeys : forall j mj, steps j m = Ok mj ->
                    Forall (fun a => In (archetype a) (keys ARCHETYPES))
                           (agents mj)).
  { intros j mj Hj.
    destruct (steps_keep_identity c m mj j Hinit Hj) as (_ & HP & _).
    eapply Forall_impl; [|exact HP]. intros a [T _].
    exact (traits_from_table_key a T). }
  splits.
  - pose proof (rows_are_snapshots c m mk k Hinit Hk) as Hsnap.
    eapply Forall_impl; [|exact Hsnap].
    intros r (j & mj & _ & Hj & ->).
    pose proof (archetype_counts_partition (agents mj) "I" (Hkeys j mj Hj)) as Hp.
    cbn [keys ARCHETYPES map fst Zsum fold_right] in Hp.
    cbn [current_row Infected_Immune Infected_Superspreader Infected_Moderate
           Infected_Critical Infected_Cynical Infected].
    unfold _count_infected_archetype, _count_state. lia.
  - unfold get_archetype_infection_rates. rewrite map_map.
    cbn [snd infected]. unfold _count_state.
    rewrite <- (archetype_counts_partition (agents mk) "I" (Hkeys k mk Hk)).
    f_equal. apply map_ext. intros name.
    rewrite Zsum_ones, filter_filter_length. reflexivity.
  - unfold get_archetype_infection_rates. rewrite map_map.
    cbn [snd total].
    exact (archetype_totals_partition (agents mk) (Hkeys k mk Hk)).
Qed.

Lemma archetype_columns_partition_infected_witness :
  exists mk,
    steps 4 (constructed cfg_reinfection) = Ok mk /\
    Forall (fun r =>
              Infected_Immune r + Infected_Superspreader r + Infected_Moderate r
              + Infected_Critical r + Infected_Cynical r = Infected r)
           (datacollector mk).
Proof.
  assert (H : exists mk, steps 4 (constructed cfg_reinfection) = Ok mk)
    by (eexists; vm_compute; reflexivity).
  destruct H as [mk H]. exists mk. split; [exact H|].
  assert (Hi : DisinformationModel_init cfg_reinfection
               = Ok (constructed cfg_reinfection))
    by (vm_compute; reflexivity).
  apply (archetype_columns_partition_infected cfg_reinfection
           (constructed cfg_reinfection) mk 4 Hi H).
Defined.

(** ** What construction checks *)




(** ** The export without profile metrics *)



(** ** The cumulative column *)

Lemma row_at (c : Config) (m mk mj : DisinformationModel) (k j : nat) :
  DisinformationModel_init c = Ok m ->
  steps k m = Ok mk ->
  (j <= k)%nat ->
  steps j m = Ok mj ->
  nth_error (datacollector mk) j = Some (current_row mj).
Proof.
  intros Hinit Hk Hjk Hj.
  destruct (init_first_row c m Hinit) as [Hrow0 _].
  destruct (steps_rows k m mk Hk) as (_ & _ & Hpre & Hat).
  rewrite Hrow0 in Hpre, Hat. simpl in Hpre, Hat.
  destruct j as [|j].
  - simpl in Hj. injection Hj as <-. rewrite (Hpre 0%nat) by lia. reflexivity.
  - replace (Datatypes.S j) with (Datatypes.S j - 0)%nat at 1 by lia.
    apply Hat; [lia | exact Hj].
Qed.

Lemma steps_cumulative_le (c : Config) (m mi mj : DisinformationModel)
  (i d : nat) :
  DisinformationModel_init c = Ok m ->
  steps i m = Ok mi ->
  steps d mi = Ok mj ->
  cumulative_infected mi <= cumulative_infected mj.
Proof.
  intros Hinit Hi Hd.
  pose proof (steps_keep_settled i m mi Hi (init_settled c m Hinit)) as Hs.
  destruct (steps_balance d mi mj Hs Hd) as (_ & _ & H1 & H2 & _). lia.
Qed.

(** X27: the Cumulative_Infected column of the time series never decreases
    from one row to a later one, and its last value, the numerator of the
    attack rate, is the model's counter. *)
Theorem cumulative_column_is_monotone (c : Config) (m mk : DisinformationModel)
  (k : nat) :
  DisinformationModel_init c = Ok m ->
  steps k m = Ok mk ->
  (forall i j ri rj,
      (i <= j)%nat ->
      nth_error (datacollector mk) i = Some ri ->
      nth_error (datacollector mk) j = Some rj ->
      0 <= Cumulative_Infected ri <= Cumulative_Infected rj /\
      Cumulative_Infected rj <= cumulative_infected mk) /\
  nth_error (datacollector mk) k = Some (current_row mk) /\
  Cumulative_Infected (current_row mk) = cumulative_infected mk.
Proof.
  intros Hinit Hk. split; [|split; [|reflexivity]].
  - intros i j ri rj Hij Hri Hrj.
    destruct (steps_rows k m mk Hk) as (Hlen & _).
    destruct (init_first_row c m Hinit) as [Hrow0 _].
    rewrite Hrow0 in Hlen. simpl in Hlen.
    assert (Hj : (j <= k)%nat).
    { assert (j < List.length (datacollector mk))%nat
        by (apply nth_error_Some; congruence). lia. }
    destruct (steps_split j k m mk Hj Hk) as (mj & Hsj & Hrest).
    destruct (steps_split i j m mj Hij Hsj) as (mi & Hsi & Hmid).
    rewrite (row_at c m mk mi k i Hinit Hk ltac:(lia) Hsi) in Hri.
    rewrite (row_at c m mk mj k j Hinit Hk Hj Hsj) in Hrj.
    injection Hri as <-. injection Hrj as <-.
    cbn [current_row Cumulative_Infected].
    pose proof (steps_cumulative_le c m mi mj i (j - i) Hinit Hsi Hmid).
    pose proof (steps_cumulative_le c m mj mk j (k - j) Hinit Hsj Hrest).
    assert (Hc0 : 0 <= cumulative_infected m).
    { destruct (init_states c m Hinit) as (seeds & _ & _ & -> & _). lia. }
    pose proof (steps_cumulative_le c m m mi 0 i Hinit eq_refl Hsi).
    lia.
  - exact (row_at c m mk mk k k Hinit Hk (Nat.le_refl k) Hk).
Qed.

Lemma cumulative_column_is_monotone_witness :
  exists mk,
    steps 4 (constructed cfg_reinfection) = Ok mk /\
    nth_error (datacollector mk) 4 = Some (current_row mk).
Proof.
  assert (H : exists mk, steps 4 (constructed cfg_reinfection) = Ok mk)
    by (eexists; vm_compute; reflexivity).
  destruct H as [mk H]. exists mk. split; [exact H|].
  assert (Hi : DisinformationModel_init cfg_reinfection
               = Ok (constructed cfg_reinfection))
    by (vm_compute; reflexivity).
  apply (cumulative_column_is_monotone cfg_reinfection
           (constructed cfg_reinfection) mk 4 Hi H).
Defined.

(** ** The duration of the current spell *)

Lemma advance_duration (a : DisinformationAgent) (ns : string) (cum : Z) :
  next_state a = Some ns ->
  valid_state ns ->
  let a' := fst (advance a cum) in
  state a' = ns /\
  current_I_duration a'
  = (if in_state "I" a'
     then (if in_state "I" a then current_I_duration a else 0) + 1
     else current_I_duration a) /\
  time_in_I a' = time_in_I a + ind (in_state "I" a').
Proof.
  intros Hns Hv. unfold advance. rewrite Hns, (valid_state_truthy ns Hv).
  unfold in_state, ind.
  destruct a as [id ar n t c i st nx ic rc lc ti cd]. cbn in Hns |- *. clear Hns.
  destruct Hv as [->|[->|[->| ->]]].
  all: repeat (cbn;
          match goal with
          | |- context [String.eqb ?x ?y] =>
              is_var x; destruct (String.eqb_spec x y); subst;
              try congruence
          end).
  all: cbn; splits; try reflexivity; try lia.
Qed.

(** Every agent of a settled model commits a candidate in a step. *)
Lemma step_commits (m m' : DisinformationModel) :
  step m = Ok m' ->
  Forall settled (agents m) ->
  Forall2 (fun a a' =>
             exists s c0,
               valid_state s /\
               a' = fst (advance (set_next_state a (Some s)) c0))
          (agents m) (agents m').
Proof.
  rewrite step_eq. intros H Hs. inv_bind H. destruct x as [l1 g1].
  cbv zeta in H. injection H as <-.
  cbn [fst snd agents collect set_current_step set_datacollector
         set_cumulative_infected set_agents set_random].
  pose proof (snapshot_candidates_spec _ _ _ _ _ Hx) as H1.
  destruct (advance_all_spec l1 (cumulative_infected m)) as [H2 _].
  assert (H12 : Forall2 (fun a a1 =>
                   exists s, valid_state s /\ a1 = set_next_state a (Some s))
                        (agents m) l1).
  { eapply Forall2_Forall_l; [exact Hs | exact H1|].
    intros a a1 [Hv Hn] (gi & Hc).
    destruct Hc as [(s & gi' & Hc & ->)|[Hc ->]].
    - destruct (candidate_allowed _ _ _ Hv Hc) as (s' & g' & [= <- <-] & _ & Hvs).
      eauto.
    - destruct (candidate_allowed _ _ _ Hv Hc) as (s' & g' & Hd & _).
      discriminate. }
  eapply Forall2_compose; [|exact H12|exact H2].
  intros a a1 a2 (s & Hv & ->) (c0 & ->). eauto.
Qed.

Lemma step_duration (m m' : DisinformationModel) :
  step m = Ok m' ->
  Forall settled (agents m) ->
  Forall2 (fun a a' =>
             current_I_duration a'
             = (if in_state "I" a'
                then (if in_state "I" a then current_I_duration a else 0) + 1
                else current_I_duration a) /\
             time_in_I a' = time_in_I a + ind (in_state "I" a'))
          (agents m) (agents m').
Proof.
  intros H Hs. eapply Forall2_impl; [|exact (step_commits m m' H Hs)].
  intros a a' (s & c0 & Hv & ->).
  pose proof (advance_duration (set_next_state a (Some s)) s c0) as Hd.
  cbv zeta in Hd.
  assert (Hn : next_state (set_next_state a (Some s)) = Some s)
    by (destruct a; reflexivity).
  destruct (Hd Hn Hv) as (_ & D1 & D2).
  replace (in_state "I" (set_next_state a (Some s))) with (in_state "I" a) in D1
    by (destruct a; reflexivity).
  replace (current_I_duration (set_next_state a (Some s)))
    with (current_I_duration a) in D1 by (destruct a; reflexivity).
  replace (time_in_I (set_next_state a (Some s))) with (time_in_I a) in D2
    by (destruct a; reflexivity).
  split; assumption.
Qed.

Lemma steps_snoc (k : nat) :
  forall m mk,
    steps (Datatypes.S k) m = Ok mk ->
    exists mk', steps k m = Ok mk' /\ step mk' = Ok mk.
Proof.
  intros m mk H.
  destruct (steps_split k (Datatypes.S k) m mk) as (mk' & H1 & H2);
    [lia | exact H |].
  exists mk'. split; [exact H1|].
  replace (Datatypes.S k - k)%nat with 1%nat in H2 by lia.
  simpl in H2. inv_bind H2. congruence.
Qed.

Lemma steps_durations (c : Config) (m : DisinformationModel) (k : nat) :
  DisinformationModel_init c = Ok m ->
  forall mk,
    steps k m = Ok mk ->
    Forall (fun a =>
              0 <= current_I_duration a <= time_in_I a /\
              time_in_I a <= Z.of_nat k /\
              ((0 < k)%nat -> state a = "I" -> 1 <= current_I_duration a))
           (agents mk).
Proof.
  intros Hinit. induction k as [|k IH]; intros mk Hk.
  - simpl in Hk. injection Hk as <-.
    destruct (init_model_ok c m Hinit) as [_ HF].
    eapply Forall_impl; [|exact HF].
    intros a ((_ & _ & _ & Ht & Hd) & _). rewrite Ht, Hd. splits; lia.
  - destruct (steps_snoc k m mk Hk) as (mk' & Hk' & Hstep).
    specialize (IH mk' Hk').
    pose proof (steps_keep_settled k m mk' Hk' (init_settled c m Hinit)) as Hs.
    pose proof (step_duration mk' mk Hstep Hs) as HF.
    apply Forall_nth_error. intros i a' Ha'.
    destruct (Forall2_nth_error_r _ _ _ HF i a' Ha') as (a & Ha & D1 & D2).
    rewrite Forall_nth_error in IH.
    destruct (IH i a Ha) as (I1 & I2 & _).
    unfold in_state, ind in *.
    destruct (String.eqb_spec (state a') "I") as [E|E].
    + destruct (String.eqb (state a) "I"); splits; intros; lia.
    + splits; intros; try lia. contradiction.
Qed.

(** X28: [current_I_duration] counts the steps of the current spell in I:
    a step sets it to one more than before for an agent that stays in I, to
    1 for an agent that enters I, and leaves it alone for an agent that is
    not in I afterwards, so it keeps the length of the last spell.  On a
    constructed model it never exceeds [time_in_I], which never exceeds the
    number of steps taken, and it is at least 1 for every agent found in I
    after a step. *)
Theorem infection_spell_duration (c : Config) (m mk : DisinformationModel)
  (k : nat) :
  DisinformationModel_init c = Ok m ->
  steps k m = Ok mk ->
  Forall (fun a =>
            0 <= current_I_duration a <= time_in_I a /\
            time_in_I a <= Z.of_nat k /\
            ((0 < k)%nat -> state a = "I" -> 1 <= current_I_duration a))
         (agents mk) /\
  forall m',
    step mk = Ok m' ->
    Forall2 (fun a a' =>
               current_I_duration a'
               = (if in_state "I" a'
                  then (if in_state "I" a then current_I_duration a else 0) + 1
                  else current_I_duration a))
            (agents mk) (agents m').
Proof.
  intros Hinit Hk. split; [exact (steps_durations c m k Hinit mk Hk)|].
  intros m' Hstep.
  pose proof (steps_keep_settled k m mk Hk (init_settled c m Hinit)) as Hs.
  eapply Forall2_impl; [|exact (step_duration mk m' Hstep Hs)].
  intros a a' [D _]. exact D.
Qed.

Lemma infection_spell_duration_witness :
  exists mk,
    steps 4 (constructed cfg_reinfection) = Ok mk /\
    Forall (fun a =>
              0 <= current_I_duration a <= time_in_I a /\
              time_in_I a <= Z.of_nat 4 /\
              ((0 < 4)%nat -> state a = "I" -> 1 <= current_I_duration a))
           (agents mk).
Proof.
  assert (H : exists mk, steps 4 (constructed cfg_reinfection) = Ok mk)
    by (eexists; vm_compute; reflexivity).
  destruct H as [mk H]. exists mk. split; [exact H|].
  assert (Hi : DisinformationModel_init cfg_reinfection
               = Ok (constructed cfg_reinfection))
    by (vm_compute; reflexivity).
  apply (infection_spell_duration cfg_reinfection
           (constructed cfg_reinfection) mk 4 Hi H).
Defined.

(** ** The size of each archetype *)

Lemma archetype_size_app (l1 l2 : list DisinformationAgent) (name : string) :
  archetype_size (l1 ++ l2) name
  = (archetype_size l1 name + archetype_size l2 name)%nat.
Proof. unfold archetype_size. rewrite filter_app, length_app. reflexivity. Qed.

Lemma create_agents_of_size (name : string) (p : ArchetypeParams) (count : nat) :
  forall agent_id acc n,
    archetype_size (fst (create_agents_of name p count agent_id acc)) n
    = (archetype_size acc n + (if String.eqb name n then count else 0))%nat.
Proof.
  induction count as [|count IH]; intros agent_id acc n; simpl.
  - destruct (String.eqb name n); lia.
  - rewrite IH, archetype_size_app. unfold archetype_size at 2. simpl.
    destruct (String.eqb name n); simpl; lia.
Qed.

Lemma create_agents_loop_size (counts : list (string * Z)) :
  forall agent_id acc l n,
    create_agents_loop counts agent_id acc = Ok l ->
    archetype_size l n
    = (archetype_size acc n
       + agents_made (filter (fun e => String.eqb (fst e) n) counts))%nat.
Proof.
  induction counts as [|[name count] counts IH]; intros agent_id acc l n H;
    simpl in H.
  - injection H as <-. simpl. lia.
  - inv_bind H.
    pose proof (create_agents_of_size name x (Z.to_nat count) agent_id acc n) as Hof.
    destruct (create_agents_of name x (Z.to_nat count) agent_id acc)
      as [acc' id'] eqn:E.
    simpl in Hof. rewrite (IH id' acc' l n H), Hof. simpl.
    destruct (String.eqb name n); simpl; lia.
Qed.

Lemma filter_key_unique {V : Type} (d : list (string * V)) (n : string) (v : V) :
  NoDup (keys d) -> In (n, v) d ->
  filter (fun e => String.eqb (fst e) n) d = [(n, v)].
Proof.
  induction d as [|[a w] d IH]; simpl; intros Hnd Hin; [contradiction|].
  inversion Hnd as [|? ? Hnotin Hnd']; subst.
  destruct Hin as [[= -> ->]|Hin].
  - rewrite String.eqb_refl. f_equal.
    clear IH Hnd Hnd'. induction d as [|[b u] d IH]; simpl; [reflexivity|].
    destruct (String.eqb_spec b n) as [->|_].
    + exfalso. apply Hnotin. left. reflexivity.
    + apply IH. intros H. apply Hnotin. right. exact H.
  - destruct (String.eqb_spec a n) as [->|_].
    + exfalso. apply Hnotin. unfold keys. apply in_map_iff.
      exists (n, v). auto.
    + exact (IH Hnd' Hin).
Qed.

Lemma filter_key_absent {V : Type} (d : list (string * V)) (n : string) :
  ~ In n (keys d) -> filter (fun e => String.eqb (fst e) n) d = [].
Proof.
  induction d as [|[a w] d IH]; simpl; intros Hn; [reflexivity|].
  destruct (String.eqb_spec a n) as [->|_].
  - exfalso. apply Hn. left. reflexivity.
  - apply IH. intros H. apply Hn. right. exact H.
Qed.

Lemma archetype_size_Forall2 (l l' : list DisinformationAgent) (name : string) :
  Forall2 (fun a a' => archetype a' = archetype a) l l' ->
  archetype_size l' name = archetype_size l name.
Proof.
  unfold archetype_size. induction 1 as [|a a' l l' Ha _ IH]; simpl;
    [reflexivity|].
  rewrite Ha. destruct (String.eqb (archetype a) name); simpl; congruence.
Qed.

Lemma steps_archetype_size (c : Config) (m mk : DisinformationModel) (k : nat)
  (counts : list (string * Z)) (name : string) :
  DisinformationModel_init c = Ok m ->
  steps k m = Ok mk ->
  get_archetype_counts (cfg_population c) (cfg_archetype_dist c) = Ok counts ->
  archetype_size (agents mk) name
  = agents_made (filter (fun e => String.eqb (fst e) name) counts).
Proof.
  intros Hinit Hk Hc.
  destruct (init_agents_from c m Hinit) as (counts' & l & Hc' & Hl & _ & HF).
  rewrite Hc in Hc'. injection Hc' as <-.
  destruct (steps_identity k m mk Hk) as [HF2 _].
  rewrite (archetype_size_Forall2 (agents m) (agents mk)).
  2:{ eapply Forall2_impl; [|exact HF2]. intros a a' (_ & Ha & _). exact Ha. }
  rewrite (archetype_size_Forall2 l (agents m)).
  2:{ eapply Forall2_impl; [|exact HF]. intros a a' [->| ->]; reflexivity. }
  rewrite (create_agents_loop_size counts 0%nat [] l name Hl). reflexivity.
Qed.

(** X29: agents are created archetype by archetype, as many of each as
    [get_archetype_counts] returned (none for a negative count), and no
    step changes an archetype: at any time the number of agents of an
    archetype of the distribution is its count, and no agent has an
    archetype outside the distribution. *)
Theorem archetype_sizes_are_the_counts (c : Config) (m mk : DisinformationModel)
  (k : nat) (counts : list (string * Z)) :
  DisinformationModel_init c = Ok m ->
  steps k m = Ok mk ->
  get_archetype_counts (cfg_population c) (cfg_archetype_dist c) = Ok counts ->
  NoDup (keys (cfg_archetype_dist c)) ->
  Forall (fun e => archetype_size (agents mk) (fst e) = Z.to_nat (snd e)) counts /\
  (forall name, ~ In name (keys (cfg_archetype_dist c)) ->
                archetype_size (agents mk) name = 0%nat) /\
  Forall (fun e =>
            In (fst e) (keys (cfg_archetype_dist c)) ->
            exists cnt, In (fst e, cnt) counts /\
                        total (snd e) = Z.max 0 cnt)
         (get_archetype_infection_rates mk).
Proof.
  intros Hinit Hk Hc Hnd.
  destruct (get_archetype_counts_outcome (cfg_population c) (cfg_archetype_dist c))
    as (_ & _ & Hkc).
  destruct (Hkc counts Hc) as [Hkeys _].
  assert (Hndc : NoDup (keys counts)) by (rewrite Hkeys; exact Hnd).
  assert (Hsize : forall name cnt, In (name, cnt) counts ->
                    archetype_size (agents mk) name = Z.to_nat cnt).
  { intros name cnt Hin.
    rewrite (steps_archetype_size c m mk k counts name Hinit Hk Hc).
    rewrite (filter_key_unique counts name cnt Hndc Hin). simpl. lia. }
  splits.
  - apply Forall_forall. intros [name cnt] Hin. exact (Hsize name cnt Hin).
  - intros name Hout.
    rewrite (steps_archetype_size c m mk k counts name Hinit Hk Hc).
    rewrite filter_key_absent; [reflexivity|]. rewrite Hkeys. exact Hout.
  - unfold get_archetype_infection_rates. apply Forall_map.
    apply Forall_forall. intros name _ Hin. cbn [fst snd total] in *.
    rewrite <- Hkeys in Hin. unfold keys in Hin. apply in_map_iff in Hin.
    destruct Hin as ([n cnt] & Hn & Hin). simpl in Hn. subst n.
    exists cnt. split; [exact Hin|].
    pose proof (Hsize name cnt Hin) as Hs. unfold archetype_size in Hs.
    rewrite Hs. lia.
Qed.

Lemma archetype_sizes_are_the_counts_witness :
  exists mk,
    steps 4 (constructed cfg_reinfection) = Ok mk /\
    Forall (fun e => archetype_size (agents mk) (fst e) = Z.to_nat (snd e))
           [("moderate", 2)].
Proof.
  assert (H : exists mk, steps 4 (constructed cfg_reinfection) = Ok mk)
    by (eexists; vm_compute; reflexivity).
  destruct H as [mk H]. exists mk. split; [exact H|].
  assert (Hi : DisinformationModel_init cfg_reinfection
               = Ok (constructed cfg_reinfection))
    by (vm_compute; reflexivity).
  apply (archetype_sizes_are_the_counts cfg_reinfection
           (constructed cfg_reinfection) mk 4 [("moderate", 2)] Hi H).
  - vm_compute. reflexivity.
  - vm_compute. repeat constructor. intros [].
Defined.

(** ** Seeding in proportion to the archetypes *)





